(** * Railway reservation system: seat inventory, ticket ledger, booking
    engine and CSV loading of [railway_reservation.cpp].

    The C++ classes are embedded as records and pure functions.  Exceptions
    become the [Throw] branch of [Result]; the members of
    [ReservationSystem], its random generator, the wall clock read by
    [time(0)] and the two output streams are threaded through an explicit
    [ReservationSystem] value. *)

From Stdlib Require Import ZArith Lia Ascii String.
From stdpp Require Import base option list gmap fin_maps strings pretty.

Local Open Scope string_scope.
Local Open Scope Z_scope.

(** ** Exceptions *)

Inductive Exn : Type :=
| TrainNotFoundException (id : Z)
| SeatNotFoundException (trainId seatNo : Z)
| NoSeatsAvailableException (trainId : Z)
| TicketNotFoundException (bookingId : string)
| FileIOException (filename operation : string)
| InvalidInputException (message : string).

Inductive Result (A : Type) : Type :=
| Ok (a : A)
| Throw (e : Exn).
Arguments Ok {A} a.
Arguments Throw {A} e.

(** ** 32-bit [int] *)

Definition INT_MIN : Z := - 2 ^ 31.
Definition INT_MAX : Z := 2 ^ 31 - 1.

Definition in_int (z : Z) : Prop := INT_MIN <= z <= INT_MAX.

(** Two's complement wrap-around of an [int] result. *)
Definition wrap32 (z : Z) : Z := (z + 2 ^ 31) mod 2 ^ 32 - 2 ^ 31.

(** ** class Train *)

Record Train : Type := mkTrain {
  trainId : Z;
  trainName : string;
  totalSeats : Z;
  seatAvailability : list bool  (* true means seat is available *)
}.

(** [seatAvailability[i]]; an index outside the vector is undefined in C++
    and never occurs for a train satisfying [Train_wf]. *)
Definition seat_at (seats : list bool) (i : nat) : bool :=
  match seats !! i with
  | Some b => b
  | None => false
  end.

Definition set_seats (t : Train) (seats : list bool) : Train :=
  {| trainId := trainId t; trainName := trainName t;
     totalSeats := totalSeats t; seatAvailability := seats |}.

(** The constructor: validation, then [resize(totalSeats, true)]. *)
Definition Train_new (id : Z) (name : string) (seats : Z) : Result Train :=
  if id <=? 0 then Throw (InvalidInputException "Train ID must be positive")
  else if String.eqb name "" then
    Throw (InvalidInputException "Train name cannot be empty")
  else if seats <=? 0 then
    Throw (InvalidInputException "Number of seats must be positive")
  else Ok (mkTrain id name seats (replicate (Z.to_nat seats) true)).

(** The class invariant established by the constructor and kept by every
    member function: the vector has exactly [totalSeats] entries. *)
Definition Train_wf (t : Train) : Prop :=
  Z.of_nat (length (seatAvailability t)) = totalSeats t.

Definition isSeatAvailable (t : Train) (seatNumber : Z) : Result bool :=
  if (seatNumber <? 1) || (seatNumber >? totalSeats t)
  then Throw (SeatNotFoundException (trainId t) seatNumber)
  else Ok (seat_at (seatAvailability t) (Z.to_nat (seatNumber - 1))).

(** [std::count(begin, end, true)] *)
Definition getAvailableSeatsCount (t : Train) : Z :=
  Z.of_nat (length (filter (λ b, b = true) (seatAvailability t))).

(** The [for (int i = 0; i < totalSeats; i++)] scan of
    [bookNextAvailableSeat]: [i] is the loop index and [remaining] is
    [totalSeats - i].  The result is the index at which the loop returns. *)
Fixpoint scan_seats (seats : list bool) (i remaining : nat) : option nat :=
  match remaining with
  | O => None
  | S r => if seat_at seats i then Some i else scan_seats seats (S i) r
  end.

Definition bookNextAvailableSeat (t : Train) : Result (Z * Train) :=
  match scan_seats (seatAvailability t) 0 (Z.to_nat (totalSeats t)) with
  | Some i => Ok (Z.of_nat i + 1, set_seats t (<[i := false]> (seatAvailability t)))
  | None => Throw (NoSeatsAvailableException (trainId t))
  end.

Definition bookSpecificSeat (t : Train) (seatNumber : Z) : Result (bool * Train) :=
  if (seatNumber <? 1) || (seatNumber >? totalSeats t)
  then Throw (SeatNotFoundException (trainId t) seatNumber)
  else
    let i := Z.to_nat (seatNumber - 1) in
    if seat_at (seatAvailability t) i
    then Ok (true, set_seats t (<[i := false]> (seatAvailability t)))
    else Ok (false, t).

Definition cancelSeat (t : Train) (seatNumber : Z) : Result (bool * Train) :=
  if (seatNumber <? 1) || (seatNumber >? totalSeats t)
  then Throw (SeatNotFoundException (trainId t) seatNumber)
  else
    let i := Z.to_nat (seatNumber - 1) in
    if negb (seat_at (seatAvailability t) i)
    then Ok (true, set_seats t (<[i := true]> (seatAvailability t)))
    else Ok (false, t).

(** ** class Ticket *)

(** The fields of [struct tm] read by the constructor. *)
Record tm : Type := mkTm {
  tm_sec : Z; tm_min : Z; tm_hour : Z; tm_mday : Z; tm_mon : Z; tm_year : Z
}.

(** [std::setfill('0') << std::setw(2) << v] *)
Definition setw2 (v : Z) : string :=
  let s := pretty v in
  if (String.length s <? 2)%nat then "0" +:+ s else s.

(** The timestamp text [MM/DD/YYYY HH:MM:SS] built in the constructor. *)
Definition format_time (ltm : tm) : string :=
  setw2 (1 + tm_mon ltm) +:+ "/" +:+ setw2 (tm_mday ltm) +:+ "/" +:+
  pretty (1900 + tm_year ltm) +:+ " " +:+ setw2 (tm_hour ltm) +:+ ":" +:+
  setw2 (tm_min ltm) +:+ ":" +:+ setw2 (tm_sec ltm).

Record Ticket : Type := mkTicket {
  bookingId : string;
  ticketTrainId : Z;
  seatNumber : Z;
  passengerName : string;
  bookingTime : string
}.

(** [Ticket(id, train, seat, passenger)]; [now] is what
    [localtime(time(0))] yields when the constructor runs. *)
Definition Ticket_new (now : tm) (id : string) (train seat : Z)
    (passenger : string) : Result Ticket :=
  if String.eqb id "" then
    Throw (InvalidInputException "Booking ID cannot be empty")
  else if train <=? 0 then
    Throw (InvalidInputException "Train ID must be positive")
  else if seat <=? 0 then
    Throw (InvalidInputException "Seat number must be positive")
  else if String.eqb passenger "" then
    Throw (InvalidInputException "Passenger name cannot be empty")
  else Ok (mkTicket id train seat passenger (format_time now)).

(** ** Output *)

(** What the member functions write to [std::cout] and [std::cerr], one
    constructor per statement of the source. *)
Inductive Msg : Type :=
| ErrInitialization (e : Exn)
| ErrPassengerNameEmpty
| TicketBooked (t : Ticket)
| ErrCreatingTicket (e : Exn)
| ErrorMsg (e : Exn)
| SeatsAvailableMsg (trainId : Z) (name : string) (available total : Z)
| FullyBookedMsg
| TicketCancelled (bookingId : string)
| FailedToCancelSeat
| TicketFound (t : Ticket)
| WarnInconsistentSeatData (trainId : Z)
| ErrParsingCSVLine (e : Exn)
| LineContent (line : string)
| LoadedTrains (n : nat) (filename : string)
| ErrCreatingTicketFromCSV (e : Exn)
| WarnSeatAlreadyBooked (seat trainId : Z) (bookingId : string)
| ErrBookingSeatFromCSV (e : Exn)
| ErrFindingTrainFromCSV (e : Exn)
| LoadedTickets (n : Z) (filename : string)
| WarnTicketsNotLoaded (n : Z)
| NoteUsingDefaultTrains (e : Exn)
| NoteNoExistingBookings (e : Exn).

(** ** class ReservationSystem *)

(** [trains] and [bookings] are the data members.  [gen] stands for the
    generator together with its distribution: the sequence of values that
    [dis(gen)] is going to return.  [clock] is the sequence of readings that
    [time(0)] is going to return and [output] what has been printed. *)
Record ReservationSystem : Type := mkSystem {
  trains : list Train;
  bookings : gmap string Ticket;
  gen : nat → nat;
  clock : nat → tm;
  output : list Msg
}.

Definition with_trains (st : ReservationSystem) (ts : list Train) :=
  mkSystem ts (bookings st) (gen st) (clock st) (output st).
Definition with_bookings (st : ReservationSystem) (bk : gmap string Ticket) :=
  mkSystem (trains st) bk (gen st) (clock st) (output st).
Definition with_gen (st : ReservationSystem) (g : nat → nat) :=
  mkSystem (trains st) (bookings st) g (clock st) (output st).
(** One call of [time(0)] has been served. *)
Definition tick (st : ReservationSystem) :=
  mkSystem (trains st) (bookings st) (gen st) (λ n, clock st (S n)) (output st).
Definition say (m : Msg) (st : ReservationSystem) :=
  mkSystem (trains st) (bookings st) (gen st) (clock st) (output st ++ [m]).

(** [std::unordered_map::emplace]: an existing key keeps its value and the
    returned flag is [false]. *)
Definition emplace (k : string) (v : Ticket) (m : gmap string Ticket)
    : gmap string Ticket * bool :=
  match m !! k with
  | Some _ => (m, false)
  | None => (<[k := v]> m, true)
  end.

Definition chars : string := "ABCDEFGHIJKLMNOPQRSTUVWXYZ0123456789".

(** [dis(gen)] with [dis] uniform on [0, chars.size() - 1]. *)
Definition dis (g : nat → nat) : nat * (nat → nat) :=
  (g 0%nat mod String.length chars, λ n, g (S n))%nat.

Definition char_at (s : string) (k : nat) : ascii :=
  match String.get k s with
  | Some c => c
  | None => Ascii.zero
  end.

(** [for (int i = 0; i < 8; i++) id += chars[dis(gen)];] *)
Fixpoint draw_chars (n : nat) (id : string) (g : nat → nat)
    : string * (nat → nat) :=
  match n with
  | O => (id, g)
  | S n' =>
      let '(k, g') := dis g in
      draw_chars n' (id +:+ String (char_at chars k) "") g'
  end.

(** The recursion of [generateBookingId] has no bound in the source; [fuel]
    bounds the number of candidates tried and [None] stands for a run that
    has not returned within that bound. *)
Fixpoint generateBookingId (fuel : nat) (bk : gmap string Ticket)
    (g : nat → nat) : option (string * (nat → nat)) :=
  match fuel with
  | O => None
  | S fuel' =>
      let '(id, g') := draw_chars 8 "BK" g in
      match bk !! id with
      | Some _ => generateBookingId fuel' bk g'   (* try again *)
      | None => Some (id, g')
      end
  end.

(** [findTrainRef]: the reference is the position in [trains] together with
    the train found there; the first match wins. *)
Fixpoint findTrainRef (ts : list Train) (id : Z) : Result (nat * Train) :=
  match ts with
  | [] => Throw (TrainNotFoundException id)
  | t :: rest =>
      if trainId t =? id then Ok (0%nat, t)
      else match findTrainRef rest id with
           | Ok (i, t') => Ok (S i, t')
           | Throw e => Throw e
           end
  end.

Definition findTrain (ts : list Train) (id : Z) : Result Train :=
  match findTrainRef ts id with
  | Ok (_, t) => Ok t
  | Throw e => Throw e
  end.

Definition findTicket (bk : gmap string Ticket) (id : string) : Result Ticket :=
  match bk !! id with
  | Some t => Ok t
  | None => Throw (TicketNotFoundException id)
  end.

(** Assignment through the reference returned by [findTrainRef]. *)
Definition store_train (st : ReservationSystem) (i : nat) (t : Train) :=
  with_trains st (<[i := t]> (trains st)).

Definition checkSeatAvailability (id : Z) (st : ReservationSystem)
    : ReservationSystem :=
  match findTrain (trains st) id with
  | Ok train =>
      let availableSeats := getAvailableSeatsCount train in
      let st1 := say (SeatsAvailableMsg id (trainName train) availableSeats
                        (totalSeats train)) st in
      if availableSeats =? 0 then say FullyBookedMsg st1 else st1
  | Throw e => say (ErrorMsg e) st
  end.

(** [bookTicket]: the outer [option] is [None] when [generateBookingId] has
    not returned within [fuel]; the [Result] is [Throw] when an exception
    leaves the function. *)
Definition bookTicket (fuel : nat) (id : Z) (passenger : string)
    (st : ReservationSystem) : option (Result string * ReservationSystem) :=
  if String.eqb passenger "" then Some (Ok "", say ErrPassengerNameEmpty st)
  else
    match findTrainRef (trains st) id with
    | Throw e => Some (Ok "", say (ErrorMsg e) st)
    | Ok (ref, train) =>
        match bookNextAvailableSeat train with
        | Throw e => Some (Ok "", say (ErrorMsg e) st)
        | Ok (seat, train1) =>
            let st1 := store_train st ref train1 in
            match generateBookingId fuel (bookings st1) (gen st1) with
            | None => None
            | Some (bid, g) =>
                let st2 := with_gen st1 g in
                match Ticket_new (clock st2 0%nat) bid id seat passenger with
                | Ok ticket =>
                    let st3 := tick st2 in
                    let st4 := with_bookings st3
                                 (fst (emplace bid ticket (bookings st3))) in
                    (* bookings.at(bookingId): present after emplace *)
                    match bookings st4 !! bid with
                    | Some shown => Some (Ok bid, say (TicketBooked shown) st4)
                    | None => Some (Ok bid, st4)
                    end
                | Throw e =>
                    (* Undo seat booking if ticket creation fails *)
                    match cancelSeat train1 seat with
                    | Ok (_, train2) =>
                        Some (Ok "", say (ErrCreatingTicket e)
                                       (store_train st2 ref train2))
                    | Throw e' => Some (Throw e', st2)
                    end
                end
            end
        end
    end.

Definition cancelTicket (bid : string) (st : ReservationSystem)
    : bool * ReservationSystem :=
  match findTicket (bookings st) bid with
  | Throw e => (false, say (ErrorMsg e) st)
  | Ok ticket =>
      let id := ticketTrainId ticket in
      let seat := seatNumber ticket in
      match findTrainRef (trains st) id with
      | Throw e => (false, say (ErrorMsg e) st)
      | Ok (ref, train) =>
          match cancelSeat train seat with
          | Throw e => (false, say (ErrorMsg e) st)
          | Ok (true, train1) =>
              let st1 := say (TicketCancelled bid) (store_train st ref train1) in
              (true, with_bookings st1 (delete bid (bookings st1)))
          | Ok (false, _) => (false, say FailedToCancelSeat st)
          end
      end
  end.

Definition checkTicketStatus (bid : string) (st : ReservationSystem)
    : bool * ReservationSystem :=
  match findTicket (bookings st) bid with
  | Ok ticket => (true, say (TicketFound ticket) st)
  | Throw e => (false, say (ErrorMsg e) st)
  end.

(** ** CSV reading *)

(** [std::getline(ss, token, delim)] on the unread part [ss] of a string
    stream: it fails when nothing is left, and otherwise yields the text up
    to the first [delim] (which is consumed) and what follows it. *)
Fixpoint split_at_delim (delim : ascii) (s : string) : string * string :=
  match s with
  | EmptyString => ("", "")
  | String c rest =>
      if Ascii.eqb c delim then ("", rest)
      else let '(token, rest') := split_at_delim delim rest in
           (String c token, rest')
  end.

Definition getline (delim : ascii) (ss : string) : option (string * string) :=
  match ss with
  | EmptyString => None
  | _ => Some (split_at_delim delim ss)
  end.

Definition isspace (c : ascii) : bool :=
  let n := nat_of_ascii c in
  (n =? 32)%nat || ((9 <=? n)%nat && (n <=? 13)%nat).

Definition isdigit (c : ascii) : bool :=
  let n := nat_of_ascii c in (48 <=? n)%nat && (n <=? 57)%nat.

Definition digit_value (c : ascii) : Z := Z.of_nat (nat_of_ascii c) - 48.

Fixpoint skip_spaces (s : string) : string :=
  match s with
  | String c rest => if isspace c then skip_spaces rest else s
  | EmptyString => s
  end.

(** The decimal digits at the front of [s]; [seen] records whether there was
    at least one. *)
Fixpoint read_digits (s : string) (acc : Z) (seen : bool) : option Z :=
  match s with
  | String c rest =>
      if isdigit c then read_digits rest (acc * 10 + digit_value c) true
      else if seen then Some acc else None
  | EmptyString => if seen then Some acc else None
  end.

(** [std::stoi]: leading white space, an optional sign, decimal digits;
    what follows the digits is ignored.  [None] stands for
    [std::invalid_argument] (no digits) and [std::out_of_range], which the
    callers catch together as [std::exception]. *)
Definition stoi (token : string) : option Z :=
  let s := skip_spaces token in
  let '(negative, digits) :=
    match s with
    | String "-"%char rest => (true, rest)
    | String "+"%char rest => (false, rest)
    | _ => (false, s)
    end in
  match read_digits digits 0 false with
  | None => None
  | Some v =>
      let v' := if negative then - v else v in
      if (INT_MIN <=? v') && (v' <=? INT_MAX) then Some v' else None
  end.

#[global] Instance Result_bind : MBind Result := λ A B f m,
  match m with
  | Ok a => f a
  | Throw e => Throw e
  end.

(** [if (!std::getline(ss, token, ',')) throw InvalidInputException(missing)] *)
Definition read_field (missing : string) (ss : string)
    : Result (string * string) :=
  match getline ","%char ss with
  | Some r => Ok r
  | None => Throw (InvalidInputException missing)
  end.

(** [try { v = std::stoi(token); } catch (const std::exception&) { throw ... }] *)
Definition read_int (what : string) (token : string) : Result Z :=
  match stoi token with
  | Some v => Ok v
  | None => Throw (InvalidInputException (what +:+ " is not a valid number: " +:+ token))
  end.

Record TrainRow : Type := mkTrainRow {
  row_trainId : Z;
  row_trainName : string;
  row_totalSeats : Z;
  row_availableSeats : Z
}.

Definition parseTrainLine (line : string) : Result TrainRow :=
  f1 ← read_field "missing train ID" line;
  id ← read_int "train ID" (fst f1);
  f2 ← read_field "missing train name" (snd f1);
  f3 ← read_field "missing total seats" (snd f2);
  total ← read_int "total seats" (fst f3);
  f4 ← read_field "missing available seats" (snd f3);
  avail ← read_int "available seats" (fst f4);
  Ok (mkTrainRow id (fst f2) total avail).

(** The loop
    [for (int i = 0; i < bookedSeats && i < totalSeats; i++)] that marks the
    seats declared as booked.  [fuel] bounds the iterations; the condition
    [i < totalSeats] ends the loop after at most [totalSeats] of them. *)
Fixpoint mark_booked (fuel : nat) (i bookedSeats : Z) (train : Train)
    (st : ReservationSystem) : Train * ReservationSystem :=
  match fuel with
  | O => (train, st)
  | S fuel' =>
      if (i <? bookedSeats) && (i <? totalSeats train) then
        match bookNextAvailableSeat train with
        | Ok (_, train') => mark_booked fuel' (i + 1) bookedSeats train' st
        | Throw _ =>
            (train, say (WarnInconsistentSeatData (trainId train)) st)  (* break *)
        end
      else (train, st)
  end.

(** The body of the [while] loop of [loadTrainsFromCSV]. *)
Definition loadTrainsFromCSV_line (line : string) (st : ReservationSystem)
    : ReservationSystem :=
  match (row ← parseTrainLine line;
         train ← Train_new (row_trainId row) (row_trainName row)
                    (row_totalSeats row);
         Ok (row, train)) with
  | Ok (row, train) =>
      let bookedSeats := wrap32 (row_totalSeats row - row_availableSeats row) in
      let '(train', st') :=
        mark_booked (Z.to_nat (row_totalSeats row)) 0 bookedSeats train st in
      with_trains st' (trains st' ++ [train'])
  | Throw e => say (LineContent line) (say (ErrParsingCSVLine e) st)
  end.

(** A file is [None] when it cannot be opened and otherwise its lines, the
    header first. *)
Definition loadTrainsFromCSV (filename : string) (file : option (list string))
    (st : ReservationSystem) : Result unit * ReservationSystem :=
  match file with
  | None => (Throw (FileIOException filename "open"), st)
  | Some lines =>
      let st1 := with_trains st [] in
      let st2 := foldl (λ s line, loadTrainsFromCSV_line line s) st1 (tail lines) in
      (Ok tt, say (LoadedTrains (length (trains st2)) filename) st2)
  end.

Record TicketRow : Type := mkTicketRow {
  row_bookingId : string;
  row_ticketTrainId : Z;
  row_seatNumber : Z;
  row_passengerName : string;
  row_bookingTime : string
}.

Definition newline : ascii := ascii_of_nat 10.

Definition parseTicketLine (line : string) : Result TicketRow :=
  f1 ← read_field "missing booking ID" line;
  f2 ← read_field "missing train ID" (snd f1);
  id ← read_int "train ID" (fst f2);
  f3 ← read_field "missing seat number" (snd f2);
  seat ← read_int "seat number" (fst f3);
  f4 ← read_field "missing passenger name" (snd f3);
  let time := match getline newline (snd f4) with
              | Some r => fst r
              | None => ""
              end in
  Ok (mkTicketRow (fst f1) id seat (fst f4) time).

(** The system together with the two local counters of
    [loadTicketsFromCSV]. *)
Record TicketLoad : Type := mkTicketLoad {
  sys : ReservationSystem;
  loadedTickets : Z;
  errorCount : Z
}.

Definition count_error (st : ReservationSystem) (l : TicketLoad) : TicketLoad :=
  mkTicketLoad st (loadedTickets l) (wrap32 (errorCount l + 1)).

(** What follows the parsing of a line in [loadTicketsFromCSV]; the parsed
    [row_bookingTime] is not read. *)
Definition loadTicketRow (line : string) (row : TicketRow) (l : TicketLoad)
    : TicketLoad :=
  let st := sys l in
  let bid := row_bookingId row in
  let id := row_ticketTrainId row in
  let seat := row_seatNumber row in
  match findTrainRef (trains st) id with
  | Throw e =>
      count_error (say (LineContent line) (say (ErrFindingTrainFromCSV e) st)) l
  | Ok (ref, train) =>
      match bookSpecificSeat train seat with
      | Throw e =>
          count_error (say (LineContent line) (say (ErrBookingSeatFromCSV e) st)) l
      | Ok (false, _) => count_error (say (WarnSeatAlreadyBooked seat id bid) st) l
      | Ok (true, train1) =>
          let st1 := store_train st ref train1 in
          match Ticket_new (clock st1 0%nat) bid id seat (row_passengerName row) with
          | Ok ticket =>
              let st2 := tick st1 in
              mkTicketLoad
                (with_bookings st2 (fst (emplace bid ticket (bookings st2))))
                (wrap32 (loadedTickets l + 1)) (errorCount l)
          | Throw e =>
              let st2 := say (LineContent line)
                           (say (ErrCreatingTicketFromCSV e) st1) in
              (* Undo the seat booking *)
              match cancelSeat train1 seat with
              | Ok (_, train2) => count_error (store_train st2 ref train2) l
              | Throw e' =>
                  count_error (say (LineContent line)
                                 (say (ErrBookingSeatFromCSV e') st2)) l
              end
          end
      end
  end.

(** The body of the [while] loop of [loadTicketsFromCSV]. *)
Definition loadTicketsFromCSV_line (line : string) (l : TicketLoad)
    : TicketLoad :=
  match parseTicketLine line with
  | Ok row => loadTicketRow line row l
  | Throw e =>
      count_error (say (LineContent line) (say (ErrParsingCSVLine e) (sys l))) l
  end.

(** The [while] loop from a given state of the counters. *)
Definition load_lines (lines : list string) (l : TicketLoad) : TicketLoad :=
  foldl (λ l line, loadTicketsFromCSV_line line l) l lines.

(** [bookings.clear()], the header line, then the loop. *)
Definition loadTicketsFromCSV_loop (lines : list string) (st : ReservationSystem)
    : TicketLoad :=
  load_lines (tail lines) (mkTicketLoad (with_bookings st ∅) 0 0).

Definition loadTicketsFromCSV (filename : string) (file : option (list string))
    (st : ReservationSystem) : Result unit * ReservationSystem :=
  match file with
  | None => (Throw (FileIOException filename "open"), st)
  | Some lines =>
      let l := loadTicketsFromCSV_loop lines st in
      let st1 := say (LoadedTickets (loadedTickets l) filename) (sys l) in
      (Ok tt, if errorCount l >? 0
              then say (WarnTicketsNotLoaded (errorCount l)) st1 else st1)
  end.

(** ** Construction and start-up *)

Definition default_trains : list (Z * string * Z) :=
  [(1001, "Express Delhi", 100); (1002, "Mumbai Local", 100);
   (1003, "Chennai Mail", 100); (1004, "Kolkata Express", 100)].

(** The [push_back] sequence of the constructor inside its [try] block. *)
Fixpoint push_trains (specs : list (Z * string * Z)) (st : ReservationSystem)
    : ReservationSystem :=
  match specs with
  | [] => st
  | (id, name, seats) :: rest =>
      match Train_new id name seats with
      | Ok t => push_trains rest (with_trains st (trains st ++ [t]))
      | Throw e => say (ErrInitialization e) st
      end
  end.

(** [ReservationSystem()]: [g] and [clk] are the generator seeded from the
    random device and the wall clock the process runs against. *)
Definition ReservationSystem_new (g : nat → nat) (clk : nat → tm)
    : ReservationSystem :=
  push_trains default_trains (mkSystem [] ∅ g clk []).

(** The first [try] block of [main]. *)
Definition main_loadTrains (file : option (list string))
    (st : ReservationSystem) : Result unit * ReservationSystem :=
  match loadTrainsFromCSV "trains.csv" file st with
  | (Throw (FileIOException f o), st') =>
      (Ok tt, say (NoteUsingDefaultTrains (FileIOException f o)) st')
  | r => r
  end.

(** The second [try] block of [main]. *)
Definition main_loadTickets (file : option (list string))
    (st : ReservationSystem) : Result unit * ReservationSystem :=
  match loadTicketsFromCSV "tickets.csv" file st with
  | (Throw (FileIOException f o), st') =>
      (Ok tt, say (NoteNoExistingBookings (FileIOException f o)) st')
  | r => r
  end.

(** [main] up to the menu loop; [Throw] is an exception reaching the outer
    handler, which ends the process. *)
Definition main_startup (trains_csv tickets_csv : option (list string))
    (g : nat → nat) (clk : nat → tm) : Result unit * ReservationSystem :=
  match main_loadTrains trains_csv (ReservationSystem_new g clk) with
  | (Ok _, st1) => main_loadTickets tickets_csv st1
  | r => r
  end.

(** The states of the menu loop: start-up followed by any sequence of the
    operations of the menu. *)
Inductive reachable : ReservationSystem → Prop :=
| reach_startup trains_csv tickets_csv g clk st :
    main_startup trains_csv tickets_csv g clk = (Ok tt, st) → reachable st
| reach_bookTicket st fuel id passenger r st' :
    reachable st →
    bookTicket fuel id passenger st = Some (Ok r, st') → reachable st'
| reach_cancelTicket st bid :
    reachable st → reachable (snd (cancelTicket bid st))
| reach_checkTicketStatus st bid :
    reachable st → reachable (snd (checkTicketStatus bid st))
| reach_checkSeatAvailability st id :
    reachable st → reachable (checkSeatAvailability id st).

(** ** Predicates used in the statements *)

(** Seat [seat] of the train that [findTrain] yields for [id] is marked
    unavailable. *)
Definition seat_taken (ts : list Train) (id seat : Z) : Prop :=
  ∃ t, findTrain ts id = Ok t ∧ isSeatAvailable t seat = Ok false.

Definition seat_free (ts : list Train) (id seat : Z) : Prop :=
  ∃ t, findTrain ts id = Ok t ∧ isSeatAvailable t seat = Ok true.

(** Every ticket of the ledger has its seat marked unavailable. *)
Definition ticket_seat_invariant (st : ReservationSystem) : Prop :=
  ∀ bid t, bookings st !! bid = Some t →
    seat_taken (trains st) (ticketTrainId t) (seatNumber t).

(** No two ledger entries name the same seat of the same train. *)
Definition tickets_distinct_seats (st : ReservationSystem) : Prop :=
  ∀ b1 b2 t1 t2,
    bookings st !! b1 = Some t1 → bookings st !! b2 = Some t2 →
    ticketTrainId t1 = ticketTrainId t2 → seatNumber t1 = seatNumber t2 →
    b1 = b2.

Definition consistent (st : ReservationSystem) : Prop :=
  ticket_seat_invariant st ∧ tickets_distinct_seats st.

(** The train stored through a reference after seat [seat] was given the
    value [b]. *)
Definition with_seat (t : Train) (seat : Z) (b : bool) : Train :=
  set_seats t (<[Z.to_nat (seat - 1) := b]> (seatAvailability t)).

(** No ticket of the ledger names seat [seat] of train [id]. *)
Definition unreferenced (bk : gmap string Ticket) (id seat : Z) : Prop :=
  ∀ bid t, bk !! bid = Some t →
    ¬ (ticketTrainId t = id ∧ seatNumber t = seat).

(** The [k]-th candidate drawn by [generateBookingId] and the generator
    after [k] candidates. *)
Fixpoint gen_after (k : nat) (g : nat → nat) : nat → nat :=
  match k with
  | O => g
  | S k' => gen_after k' (snd (draw_chars 8 "BK" g))
  end.

Definition candidate (k : nat) (g : nat → nat) : string :=
  fst (draw_chars 8 "BK" (gen_after k g)).

(** The rows of a trains file that the constructor of [Train] accepts. *)
Definition valid_train_row (row : TrainRow) : Prop :=
  0 < row_trainId row ∧ row_trainName row ≠ "" ∧ 0 < row_totalSeats row.

(** The rows of a tickets file that the constructor of [Ticket] accepts. *)
Definition valid_ticket_row (row : TicketRow) : Prop :=
  row_bookingId row ≠ "" ∧ 0 < row_ticketTrainId row ∧
  0 < row_seatNumber row ∧ row_passengerName row ≠ "".

(** The ticket that [loadTicketRow] builds for [row] when the clock reads
    [now]. *)
Definition ticket_of_row (now : tm) (row : TicketRow) : Ticket :=
  mkTicket (row_bookingId row) (row_ticketTrainId row) (row_seatNumber row)
    (row_passengerName row) (format_time now).

(** The train of a row after its [k] first seats have been marked. *)
Definition partly_booked (row : TrainRow) (k : nat) : Train :=
  mkTrain (row_trainId row) (row_trainName row) (row_totalSeats row)
    (replicate k false ++
     replicate (Z.to_nat (row_totalSeats row) - k) true).

(** The state after a row for which a seat was reserved and a ticket
    built. *)
Definition row_loaded (row : TicketRow) (ref : nat) (train : Train)
    (l : TicketLoad) : TicketLoad :=
  let st := tick (store_train (sys l) ref
                    (with_seat train (row_seatNumber row) false)) in
  mkTicketLoad
    (with_bookings st
       (fst (emplace (row_bookingId row)
               (ticket_of_row (clock (sys l) 0%nat) row) (bookings (sys l)))))
    (wrap32 (loadedTickets l + 1)) (errorCount l).

(** A row of the tickets file was processed with a failure reported: it
    was counted in [errorCount], or not counted in [loadedTickets], or
    something was printed. *)
Definition insert_reported_failure (l l' : TicketLoad) : Prop :=
  errorCount l' ≠ errorCount l ∨ loadedTickets l' = loadedTickets l ∨
  output (sys l') ≠ output (sys l).

(** ** A concrete run *)

Definition demo_gen : nat → nat := λ n, n.

(** 30 October 2026, 12:00:00. *)
Definition demo_clock : nat → tm := λ _, mkTm 0 0 12 30 9 126.

Definition demo_system : ReservationSystem :=
  ReservationSystem_new demo_gen demo_clock.

(** Start-up with neither file present. *)
Definition demo_started : ReservationSystem :=
  snd (main_startup None None demo_gen demo_clock).

Definition demo_booked : ReservationSystem :=
  match bookTicket 1 1001 "Asha" demo_started with
  | Some (_, st) => st
  | None => demo_started
  end.

Definition demo_tickets_header : string :=
  "bookingId,trainId,seatNumber,passengerName,bookingTime".

(** The load after a first row with the id [BK00000001]. *)
Definition demo_one_loaded : TicketLoad :=
  loadTicketsFromCSV_loop
    [demo_tickets_header; "BK00000001,1001,1,Alice,01/01/2020 10:00:00"]
    demo_system.

(** ** Further operations built from the member functions *)

(** [k] successive calls of [bookNextAvailableSeat] on one train, with the
    seat numbers they return; the first exception ends the sequence. *)
Fixpoint book_seats (k : nat) (t : Train) : Result (list Z * Train) :=
  match k with
  | O => Ok ([], t)
  | S k' =>
      match bookNextAvailableSeat t with
      | Ok (n, t') =>
          match book_seats k' t' with
          | Ok (ns, t'') => Ok (n :: ns, t'')
          | Throw e => Throw e
          end
      | Throw e => Throw e
      end
  end.

(** The characters of [s] all occur in [alphabet]. *)
Fixpoint string_over (alphabet : string) (s : string) : bool :=
  match s with
  | EmptyString => true
  | String c rest =>
      existsb (Ascii.eqb c) (list_ascii_of_string alphabet) &&
      string_over alphabet rest
  end.

(** What the constructor of [Train] guarantees of a train, and what the
    member functions keep. *)
Definition Train_valid (t : Train) : Prop :=
  0 < trainId t ∧ trainName t ≠ "" ∧ 0 < totalSeats t ∧ Train_wf t.

(** The train that [loadTrainsFromCSV] stores for a row: its first
    [min bookedSeats totalSeats] seats are marked, none when that number is
    negative. *)
Definition loaded_train (row : TrainRow) : Train :=
  partly_booked row
    (Z.to_nat (Z.min (wrap32 (row_totalSeats row - row_availableSeats row))
                 (row_totalSeats row))).

(** What a line of the trains file comes to: the train stored for it, or
    the exception that makes the loop skip it. *)
Definition read_train_line (line : string) : Result Train :=
  row ← parseTrainLine line;
  _ ← Train_new (row_trainId row) (row_trainName row) (row_totalSeats row);
  Ok (loaded_train row).

Definition train_of_line (line : string) : option Train :=
  match read_train_line line with
  | Ok t => Some t
  | Throw _ => None
  end.

(** The two messages printed for a line that is skipped. *)
Definition train_line_messages (line : string) : list Msg :=
  match read_train_line line with
  | Ok _ => []
  | Throw e => [ErrParsingCSVLine e; LineContent line]
  end.

(** ** Saving *)

(** What opening and writing an output file can come to. *)
Inductive OutFile : Type :=
| CannotOpen
| WriteFails
| Writable.

(** What the two save functions print. *)
Inductive SaveMsg : Type :=
| SavedTrains (n : nat) (filename : string)
| SavedTickets (n : nat) (filename : string).

Definition endl : string := String newline "".

Definition trains_csv_header : string :=
  "trainId,trainName,totalSeats,availableSeats".

(** The text written for one train, without the line end. *)
Definition train_csv_row (t : Train) : string :=
  pretty (trainId t) +:+ "," +:+ trainName t +:+ "," +:+
  pretty (totalSeats t) +:+ "," +:+ pretty (getAvailableSeatsCount t).

Definition csv_text (header : string) (rows : list string) : string :=
  header +:+ endl +:+ foldr (λ row text, row +:+ endl +:+ text) "" rows.

(** [saveTrainsToCSV]: the exception thrown if any, the text of the file
    when the writes succeed, and what is printed.  The members of the
    system are only read. *)
Definition saveTrainsToCSV (filename : string) (file : OutFile)
    (st : ReservationSystem) : Result unit * option string * list SaveMsg :=
  match file with
  | CannotOpen => (Throw (FileIOException filename "open for writing"), None, [])
  | WriteFails => (Throw (FileIOException filename "write to"), None, [])
  | Writable =>
      (Ok tt, Some (csv_text trains_csv_header (train_csv_row <$> trains st)),
       [SavedTrains (length (trains st)) filename])
  end.

Definition tickets_csv_header : string :=
  "bookingId,trainId,seatNumber,passengerName,bookingTime".

(** The text written for one ticket, without the line end. *)
Definition ticket_csv_row (t : Ticket) : string :=
  bookingId t +:+ "," +:+ pretty (ticketTrainId t) +:+ "," +:+
  pretty (seatNumber t) +:+ "," +:+ passengerName t +:+ "," +:+ bookingTime t.

(** [saveTicketsToCSV].  The order in which an [unordered_map] is
    traversed is not specified; the rows are written here in the order of
    [map_to_list]. *)
Definition saveTicketsToCSV (filename : string) (file : OutFile)
    (st : ReservationSystem) : Result unit * option string * list SaveMsg :=
  match file with
  | CannotOpen => (Throw (FileIOException filename "open for writing"), None, [])
  | WriteFails => (Throw (FileIOException filename "write to"), None, [])
  | Writable =>
      (Ok tt,
       Some (csv_text tickets_csv_header
               ((λ kv, ticket_csv_row (snd kv)) <$> map_to_list (bookings st))),
       [SavedTickets (size (bookings st)) filename])
  end.

(** The lines that [while (std::getline(file, line))] reads from a text. *)
Fixpoint split_lines (text : string) : list string :=
  match text with
  | EmptyString => []
  | String c rest =>
      if Ascii.eqb c newline then "" :: split_lines rest
      else match split_lines rest with
           | [] => [String c ""]
           | line :: lines => String c line :: lines
           end
  end.

(** [d] does not occur in [s]. *)
Fixpoint no_char (d : ascii) (s : string) : bool :=
  match s with
  | EmptyString => true
  | String c rest => negb (Ascii.eqb c d) && no_char d rest
  end.

(** A text that can stand in a field of a CSV line. *)
Definition csv_field (s : string) : Prop :=
  no_char ","%char s = true ∧ no_char newline s = true.

(** A train as the registry of the program holds it: built by the
    constructor, with [int] fields and a name read from a CSV field. *)
Definition Train_saved_ok (t : Train) : Prop :=
  Train_valid t ∧ in_int (trainId t) ∧ in_int (totalSeats t) ∧
  csv_field (trainName t).

(** The train that loading puts in the place of a saved train: as many
    seats taken, now the lowest-numbered ones. *)
Definition reloaded_train (t : Train) : Train :=
  loaded_train (mkTrainRow (trainId t) (trainName t) (totalSeats t)
                  (getAvailableSeatsCount t)).

(** A ticket whose line in the tickets file reads back as written. *)
Definition Ticket_saved_ok (t : Ticket) : Prop :=
  no_char ","%char (bookingId t) = true ∧
  in_int (ticketTrainId t) ∧ in_int (seatNumber t) ∧
  no_char ","%char (passengerName t) = true ∧
  no_char newline (bookingId t) = true ∧
  no_char newline (passengerName t) = true ∧
  no_char newline (bookingTime t) = true.

(** The text that [saveTrainsToCSV] and [saveTicketsToCSV] write for a
    state. *)
Definition saved_trains_text (st : ReservationSystem) : string :=
  csv_text trains_csv_header (train_csv_row <$> trains st).

Definition saved_tickets_text (st : ReservationSystem) : string :=
  csv_text tickets_csv_header
    ((λ kv, ticket_csv_row (snd kv)) <$> map_to_list (bookings st)).

(** ** The console and main *)

(** [what()] of the exceptions. *)
Definition what (e : Exn) : string :=
  match e with
  | TrainNotFoundException id => "Train with ID " +:+ pretty id +:+ " not found!"
  | SeatNotFoundException trainId seatNo =>
      "Seat number " +:+ pretty seatNo +:+ " on train " +:+ pretty trainId +:+
      " is invalid!"
  | NoSeatsAvailableException trainId =>
      "No seats available on train " +:+ pretty trainId +:+ "!"
  | TicketNotFoundException bookingId =>
      "Ticket with booking ID " +:+ bookingId +:+ " not found!"
  | FileIOException filename operation =>
      "Failed to " +:+ operation +:+ " file: " +:+ filename
  | InvalidInputException message => "Invalid input: " +:+ message
  end.

(** The two ways in which [std::stoi] fails. *)
Inductive StoiError : Type :=
| invalid_argument
| out_of_range.

(** [std::stoi] with the kind of its exception. *)
Definition stoi_ex (token : string) : StoiError + Z :=
  let s := skip_spaces token in
  let '(negative, digits) :=
    match s with
    | String "-"%char rest => (true, rest)
    | String "+"%char rest => (false, rest)
    | _ => (false, s)
    end in
  match read_digits digits 0 false with
  | None => inl invalid_argument
  | Some v =>
      let v' := if negative then - v else v in
      if (INT_MIN <=? v') && (v' <=? INT_MAX) then inr v' else inl out_of_range
  end.

(** [for (char c : input) if (!std::isdigit(c)) ...] finds no such [c]. *)
Fixpoint all_digits (s : string) : bool :=
  match s with
  | EmptyString => true
  | String c rest => isdigit c && all_digits rest
  end.

(** The handler of [getIntInput] for [InvalidInputException]. *)
Definition invalid_input (message : string) : Z * list string :=
  (-1, ["Invalid input: " +:+ what (InvalidInputException message) +:+ endl;
        "Please enter a valid number." +:+ endl]).

(** [getIntInput] on the line that [std::getline(std::cin, input)] has
    read: the value returned and what is printed on [std::cerr]. *)
Definition getIntInput (input : string) : Z * list string :=
  if String.eqb input "" then invalid_input "input is empty"
  else if negb (all_digits input) then
    invalid_input "input contains non-numeric characters"
  else
    match stoi_ex input with
    | inr value =>
        if (value <? 0) || (value >? 10000) then
          invalid_input "input is out of reasonable range (0-10000)"
        else (value, [])
    | inl out_of_range =>
        (-1, ["Invalid input: number is too large" +:+ endl])
    | inl invalid_argument =>
        (-1, ["Unexpected error: stoi" +:+ endl])
    end.

(** What appears on the terminal, in order: the messages of the member
    functions, those of the save functions, and the text printed by [main],
    [displayMainMenu], [getIntInput] and [displayAllTrains]. *)
Inductive Printed : Type :=
| FromSystem (m : Msg)
| FromSave (m : SaveMsg)
| Text (s : string).

(** The state of [main]: the system, the lines still to be read from
    [std::cin] and the terminal. *)
Record MainState : Type := mkMain {
  system : ReservationSystem;
  stdin : list string;
  console : list Printed
}.

Definition print (s : string) (ms : MainState) : MainState :=
  mkMain (system ms) (stdin ms) (console ms ++ [Text s]).

Definition print_all (l : list string) (ms : MainState) : MainState :=
  mkMain (system ms) (stdin ms) (console ms ++ (Text <$> l)).

(** A member function has taken the system to [st'], printing what
    [output st'] has beyond the output so far. *)
Definition run_system (ms : MainState) (st' : ReservationSystem) : MainState :=
  mkMain st' (stdin ms)
    (console ms ++
     (FromSystem <$> drop (length (output (system ms))) (output st'))).

(** [std::getline(std::cin, line)] into a fresh string: at the end of the
    input the string stays empty. *)
Definition read_line (ms : MainState) : string * MainState :=
  match stdin ms with
  | [] => ("", ms)
  | line :: rest => (line, mkMain (system ms) rest (console ms))
  end.

(** A prompt followed by [getIntInput()]. *)
Definition ask_int (prompt : list string) (ms : MainState) : Z * MainState :=
  let '(input, ms1) := read_line (print_all prompt ms) in
  let '(value, errors) := getIntInput input in
  (value, print_all errors ms1).

Definition displayMainMenu : list string :=
  [endl +:+ "====== RAILWAY RESERVATION SYSTEM ======" +:+ endl;
   "1. Display All Trains" +:+ endl;
   "2. Check Seat Availability" +:+ endl;
   "3. Book a Ticket" +:+ endl;
   "4. Cancel a Ticket" +:+ endl;
   "5. Check Ticket Status" +:+ endl;
   "0. Exit" +:+ endl;
   "========================================" +:+ endl;
   "Enter your choice: "].

Fixpoint repeat_char (n : nat) (c : ascii) : string :=
  match n with
  | O => ""
  | S n' => String c (repeat_char n' c)
  end.

(** [std::left << std::setw(n) << s] *)
Definition left_setw (n : nat) (s : string) : string :=
  s +:+ repeat_char (n - String.length s) " "%char.

(** [displayAllTrains]: what is printed; the system is only read. *)
Definition displayAllTrains (st : ReservationSystem) : list string :=
  match trains st with
  | [] => ["No trains available in the system." +:+ endl]
  | _ =>
      [endl +:+ "========== AVAILABLE TRAINS ==========" +:+ endl;
       left_setw 10 "Train ID" +:+ left_setw 20 "Train Name" +:+
       left_setw 15 "Total Seats" +:+ left_setw 15 "Available Seats" +:+ endl;
       repeat_char 60 "-"%char +:+ endl] ++
      ((λ train,
          left_setw 10 (pretty (trainId train)) +:+
          left_setw 20 (trainName train) +:+
          left_setw 15 (pretty (totalSeats train)) +:+
          left_setw 15 (pretty (getAvailableSeatsCount train)) +:+ endl)
         <$> trains st) ++
      ["=====================================" +:+ endl]
  end.

(** How an iteration of the menu loop ends: the loop goes on, [main]
    returns 0 after the two saves, whose texts are given when they were
    written, or an exception reaches the outer handler of [main]. *)
Inductive Step : Type :=
| Continue (ms : MainState)
| Exited (ms : MainState) (trains_text tickets_text : option string)
| Crashed (e : Exn) (ms : MainState).

(** A save of case 0 with its handler for [FileIOException]. *)
Definition save_at_exit (saved : Result unit * option string * list SaveMsg)
    (not_saved : string) (ms : MainState) : MainState * option string :=
  match saved with
  | (Ok _, text, msgs) =>
      (mkMain (system ms) (stdin ms) (console ms ++ (FromSave <$> msgs)), text)
  | (Throw e, text, _) =>
      (print_all ["Error: " +:+ what e +:+ endl; not_saved +:+ endl] ms, text)
  end.

(** The body of the [do ... while (choice != 0)] loop of [main].  [fuel] is
    the bound handed to [bookTicket]; [None] is a booking id that was not
    found within it. *)
Definition menu_iteration (fuel : nat) (trains_out tickets_out : OutFile)
    (ms : MainState) : option Step :=
  let '(choice, ms) := ask_int displayMainMenu ms in
  if choice <? 0 then Some (Continue (print ("Please try again." +:+ endl) ms))
  else if choice =? 1 then
    Some (Continue (print_all (displayAllTrains (system ms)) ms))
  else if choice =? 2 then
    let '(id, ms) := ask_int ["Enter Train ID: "] ms in
    if id >? 0
    then Some (Continue (run_system ms (checkSeatAvailability id (system ms))))
    else Some (Continue ms)
  else if choice =? 3 then
    let '(id, ms) := ask_int ["Enter Train ID: "] ms in
    if id <=? 0 then Some (Continue ms)
    else
      let '(passenger, ms) := read_line (print "Enter Passenger Name: " ms) in
      if String.eqb passenger "" then
        Some (Continue (print ("Error: Passenger name cannot be empty." +:+ endl) ms))
      else
        match bookTicket fuel id passenger (system ms) with
        | None => None
        | Some (Throw e, st') => Some (Crashed e (run_system ms st'))
        | Some (Ok result, st') =>
            let ms := run_system ms st' in
            Some (Continue (if String.eqb result ""
                            then print ("Ticket booking failed." +:+ endl) ms
                            else ms))
        end
  else if choice =? 4 then
    let '(bid, ms) := read_line (print "Enter Booking ID: " ms) in
    if String.eqb bid "" then
      Some (Continue (print ("Error: Booking ID cannot be empty." +:+ endl) ms))
    else Some (Continue (run_system ms (snd (cancelTicket bid (system ms)))))
  else if choice =? 5 then
    let '(bid, ms) := read_line (print "Enter Booking ID: " ms) in
    if String.eqb bid "" then
      Some (Continue (print ("Error: Booking ID cannot be empty." +:+ endl) ms))
    else Some (Continue (run_system ms (snd (checkTicketStatus bid (system ms)))))
  else if choice =? 0 then
    let '(ms, trains_text) :=
      save_at_exit (saveTrainsToCSV "trains.csv" trains_out (system ms))
        "Train data was not saved." ms in
    let '(ms, tickets_text) :=
      save_at_exit (saveTicketsToCSV "tickets.csv" tickets_out (system ms))
        "Ticket data was not saved." ms in
    Some (Exited
            (print ("Thank you for using Railway Reservation System. Goodbye!"
                    +:+ endl) ms)
            trains_text tickets_text)
  else
    Some (Continue
            (print ("Invalid choice. Please enter a number between 0 and 5."
                    +:+ endl) ms)).

(** At most [n] iterations of the loop; [None] when the loop has not ended
    by then. *)
Fixpoint menu_loop (n fuel : nat) (trains_out tickets_out : OutFile)
    (ms : MainState) : option Step :=
  match n with
  | O => None
  | S n' =>
      match menu_iteration fuel trains_out tickets_out ms with
      | Some (Continue ms') => menu_loop n' fuel trains_out tickets_out ms'
      | r => r
      end
  end.

(** [main] from the construction of the system to the menu loop: the
    files are given by their text, [None] for one that cannot be opened. *)
Definition main_begin (trains_csv tickets_csv : option string)
    (g : nat → nat) (clk : nat → tm) (input : list string)
    : Result unit * MainState :=
  let st0 := ReservationSystem_new g clk in
  let ms0 :=
    print ("Welcome to Railway Reservation System!" +:+ endl)
      (mkMain st0 input (FromSystem <$> output st0)) in
  let '(r, st) := main_startup (split_lines <$> trains_csv)
                    (split_lines <$> tickets_csv) g clk in
  (r, run_system ms0 st).

(** [main]: the exit code with the final state and the texts saved, or
    [None] when the loop has not ended within [n] iterations. *)
Definition main (n fuel : nat) (trains_csv tickets_csv : option string)
    (trains_out tickets_out : OutFile)
    (g : nat → nat) (clk : nat → tm) (input : list string)
    : option (Z * MainState * option string * option string) :=
  let crash e ms :=
    (1, print_all ["Critical error: " +:+ what e +:+ endl;
                   "The application will now exit." +:+ endl] ms,
     None, None) in
  match main_begin trains_csv tickets_csv g clk input with
  | (Throw e, ms) => Some (crash e ms)
  | (Ok _, ms) =>
      match menu_loop n fuel trains_out tickets_out ms with
      | None => None
      | Some (Continue ms') => None
      | Some (Exited ms' trains_text tickets_text) =>
          Some (0, ms', trains_text, tickets_text)
      | Some (Crashed e ms') => Some (crash e ms')
      end
  end.

(** ** Further concrete values *)

Definition demo_train : Train := mkTrain 7 "Night Mail" 3 [true; false; true].

Definition demo_gen_next : nat → nat := snd (draw_chars 8 "BK" demo_gen).

Definition demo_ticket : Ticket :=
  mkTicket "BKABCDEFGH" 1001 1 "Asha" "10/30/2026 12:00:00".

(** The ticket of [demo_booked] cancelled and the train booked again. *)
Definition demo_rebooked : ReservationSystem :=
  match bookTicket 1 1001 "Bo" (snd (cancelTicket "BKABCDEFGH" demo_booked)) with
  | Some (_, st) => st
  | None => demo_booked
  end.




(** * Properties *)

(** ** Facts about the seat scan *)

Lemma scan_seats_Some seats i n k :
  scan_seats seats i n = Some k →
  (i ≤ k < i + n)%nat ∧ seats !! k = Some true ∧
  ∀ j, (i ≤ j < k)%nat → seat_at seats j = false.
Proof.
  revert i. induction n as [|n IH]; intros i; simpl; [done|].
  destruct (seat_at seats i) eqn:Hi.
  - intros [= <-]. split; [lia|]. split; [|intros; lia].
    unfold seat_at in Hi. destruct (seats !! i) as [[]|]; done.
  - intros Hk. destruct (IH _ Hk) as (Hr & Hs & Hlow).
    split; [lia|]. split; [done|].
    intros j Hj. destruct (decide (j = i)) as [->|]; [done|]. apply Hlow. lia.
Qed.

Lemma scan_seats_None seats i n :
  scan_seats seats i n = None ↔ ∀ j, (i ≤ j < i + n)%nat → seat_at seats j = false.
Proof.
  revert i. induction n as [|n IH]; intros i; simpl.
  - split; [intros _ j ?; lia | done].
  - destruct (seat_at seats i) eqn:Hi.
    + split; [done|]. intros H. rewrite H in Hi; [done | lia].
    + rewrite IH. split; intros H j Hj.
      * destruct (decide (j = i)) as [->|]; [done|]. apply H. lia.
      * apply H. lia.
Qed.

(** ** Seats of one train *)

Lemma seat_at_true seats i : seat_at seats i = true ↔ seats !! i = Some true.
Proof.
  unfold seat_at. destruct (seats !! i) as [[]|]; split; congruence.
Qed.

Lemma seat_at_insert_eq seats i b :
  (i < length seats)%nat → seat_at (<[i := b]> seats) i = b.
Proof. intros H. unfold seat_at. by rewrite list_lookup_insert_eq. Qed.

Lemma seat_at_insert_ne seats i j b :
  i ≠ j → seat_at (<[i := b]> seats) j = seat_at seats j.
Proof. intros H. unfold seat_at. by rewrite list_lookup_insert_ne. Qed.

Lemma range_check_false t n :
  (n <? 1) || (n >? totalSeats t) = false ↔ 1 ≤ n ≤ totalSeats t.
Proof. rewrite orb_false_iff, Z.ltb_ge, Z.gtb_ltb, Z.ltb_ge. lia. Qed.

Lemma isSeatAvailable_Ok t n b :
  isSeatAvailable t n = Ok b ↔
  1 ≤ n ≤ totalSeats t ∧ seat_at (seatAvailability t) (Z.to_nat (n - 1)) = b.
Proof.
  unfold isSeatAvailable.
  destruct ((n <? 1) || (n >? totalSeats t)) eqn:Hr.
  - split; [done|]. intros [H _]. apply range_check_false in H. congruence.
  - apply range_check_false in Hr. split; [intros [= <-]; done|].
    by intros [_ ->].
Qed.

Lemma isSeatAvailable_with_seat_ne t n m b :
  1 ≤ n → m ≠ n → isSeatAvailable (with_seat t n b) m = isSeatAvailable t m.
Proof.
  intros Hn Hne. unfold isSeatAvailable, with_seat; simpl.
  destruct ((m <? 1) || (m >? totalSeats t)) eqn:Hr; [done|].
  apply range_check_false in Hr.
  rewrite seat_at_insert_ne; [done | lia].
Qed.

Lemma isSeatAvailable_with_seat_eq t n b :
  1 ≤ n ≤ totalSeats t →
  (Z.to_nat (n - 1) < length (seatAvailability t))%nat →
  isSeatAvailable (with_seat t n b) n = Ok b.
Proof.
  intros Hn Hlen. apply isSeatAvailable_Ok. split; [done|].
  unfold with_seat; simpl. by apply seat_at_insert_eq.
Qed.

Lemma bookNextAvailableSeat_Ok t n t' :
  bookNextAvailableSeat t = Ok (n, t') →
  1 ≤ n ≤ totalSeats t ∧
  seatAvailability t !! Z.to_nat (n - 1) = Some true ∧
  (∀ m, 1 ≤ m < n → isSeatAvailable t m = Ok false) ∧
  t' = with_seat t n false.
Proof.
  unfold bookNextAvailableSeat.
  destruct (scan_seats _ _ _) as [k|] eqn:Hscan; [|done].
  intros [= <- <-]. apply scan_seats_Some in Hscan as (Hk & Hseat & Hlow).
  replace (Z.to_nat (Z.of_nat k + 1 - 1)) with k by lia.
  split; [lia|]. split; [done|]. split.
  - intros m Hm. apply isSeatAvailable_Ok. split; [lia|]. apply Hlow. lia.
  - unfold with_seat. by replace (Z.to_nat (Z.of_nat k + 1 - 1)) with k by lia.
Qed.

Lemma bookNextAvailableSeat_Throw t e :
  bookNextAvailableSeat t = Throw e →
  e = NoSeatsAvailableException (trainId t) ∧
  ∀ m, isSeatAvailable t m ≠ Ok true.
Proof.
  unfold bookNextAvailableSeat.
  destruct (scan_seats _ _ _) as [k|] eqn:Hscan; [done|].
  intros [= <-]. split; [done|]. intros m Hm.
  apply isSeatAvailable_Ok in Hm as [Hr Hm].
  rewrite (proj1 (scan_seats_None _ _ _) Hscan) in Hm; [done | lia].
Qed.

(** C4. [bookNextAvailableSeat] returns the lowest seat number whose seat is
    available and marks exactly that seat taken, every other seat keeping
    its state; it throws [NoSeatsAvailableException] exactly when no seat is
    available, and then the train is left as it was (the exception carries
    no new train). *)
Theorem bookNextAvailableSeat_lowest_available (t : Train) :
  match bookNextAvailableSeat t with
  | Ok (n, t') =>
      isSeatAvailable t n = Ok true ∧
      (∀ m, 1 ≤ m < n → isSeatAvailable t m = Ok false) ∧
      isSeatAvailable t' n = Ok false ∧
      (∀ m, m ≠ n → isSeatAvailable t' m = isSeatAvailable t m) ∧
      t' = with_seat t n false
  | Throw e => e = NoSeatsAvailableException (trainId t)
  end ∧
  ((∃ e, bookNextAvailableSeat t = Throw e) ↔
   ∀ m, isSeatAvailable t m ≠ Ok true).
Proof.
  destruct (bookNextAvailableSeat t) as [[n t']|e] eqn:Hb.
  - apply bookNextAvailableSeat_Ok in Hb as (Hr & Hseat & Hlow & ->).
    assert (Hfree : isSeatAvailable t n = Ok true).
    { apply isSeatAvailable_Ok. split; [done|]. by apply seat_at_true. }
    split.
    + split; [done|]. split; [done|]. split.
      * apply isSeatAvailable_with_seat_eq; [done|]. by eapply lookup_lt_Some.
      * split; [|done]. intros m Hm. apply isSeatAvailable_with_seat_ne; lia.
    + split; [intros [e [=]] | intros Hnone; by destruct (Hnone n)].
  - apply bookNextAvailableSeat_Throw in Hb as [-> Hnone].
    split; [done|]. split; [done | eauto].
Qed.

Lemma seat_at_insert_false seats i j :
  seat_at seats j = false → seat_at (<[i := false]> seats) j = false.
Proof.
  intros Hj. destruct (decide (i = j)) as [->|Hne].
  - destruct (decide (j < length seats)%nat).
    + by apply seat_at_insert_eq.
    + rewrite list_insert_ge; [done | lia].
  - by rewrite seat_at_insert_ne.
Qed.

Lemma with_seat_undo t n :
  seatAvailability t !! Z.to_nat (n - 1) = Some true →
  with_seat (with_seat t n false) n true = t.
Proof.
  intros H. destruct t as [id name total seats]. unfold with_seat, set_seats.
  simpl in *. rewrite list_insert_insert_eq. by rewrite list_insert_id.
Qed.

Lemma cancelSeat_after_booking t n :
  1 ≤ n ≤ totalSeats t →
  seatAvailability t !! Z.to_nat (n - 1) = Some true →
  cancelSeat (with_seat t n false) n = Ok (true, t).
Proof.
  intros Hr Hseat. unfold cancelSeat.
  replace (totalSeats (with_seat t n false)) with (totalSeats t) by done.
  rewrite (proj2 (range_check_false t n) Hr).
  cbv zeta. simpl seatAvailability.
  rewrite seat_at_insert_eq by (by eapply lookup_lt_Some). simpl.
  f_equal. f_equal. by apply with_seat_undo.
Qed.

(** ** Looking trains up *)

Lemma findTrainRef_Ok ts id ref t :
  findTrainRef ts id = Ok (ref, t) → ts !! ref = Some t ∧ trainId t = id.
Proof.
  revert ref. induction ts as [|a rest IH]; intros ref; simpl; [done|].
  destruct (trainId a =? id) eqn:Ha.
  - intros [= <- <-]. split; [done | lia].
  - destruct (findTrainRef rest id) as [[i t']|e]; [|done].
    intros [= <- <-]. by apply IH.
Qed.

Lemma findTrainRef_Throw ts id e :
  findTrainRef ts id = Throw e → e = TrainNotFoundException id.
Proof.
  induction ts as [|a rest IH]; simpl; [by intros [= <-]|].
  destruct (trainId a =? id); [done|].
  destruct (findTrainRef rest id) as [[i t']|e']; [done|].
  intros [= <-]. by apply IH.
Qed.

(** Storing a train with the same id through a reference changes no
    look-up but the one of that id. *)
Lemma findTrainRef_store ts id ref t t1 id' :
  findTrainRef ts id = Ok (ref, t) → trainId t1 = id →
  findTrainRef (<[ref := t1]> ts) id' =
  if decide (id' = id) then Ok (ref, t1) else findTrainRef ts id'.
Proof.
  revert ref. induction ts as [|a rest IH]; intros ref; simpl; [done|].
  destruct (trainId a =? id) eqn:Ha.
  - intros [= <- <-] Hid. simpl. apply Z.eqb_eq in Ha.
    destruct (decide (id' = id)) as [->|Hne].
    + by rewrite Hid, Z.eqb_refl.
    + rewrite Hid, Ha. by rewrite (proj2 (Z.eqb_neq id id')).
  - destruct (findTrainRef rest id) as [[i t']|e] eqn:Hrest; [|done].
    intros [= <- <-] Hid. simpl. apply Z.eqb_neq in Ha.
    destruct (trainId a =? id') eqn:Ha'.
    + apply Z.eqb_eq in Ha'. destruct (decide (id' = id)); [lia | done].
    + rewrite (IH i eq_refl Hid). by destruct (decide (id' = id)).
Qed.

Lemma findTrain_store ts id ref t t1 id' :
  findTrainRef ts id = Ok (ref, t) → trainId t1 = id →
  findTrain (<[ref := t1]> ts) id' =
  if decide (id' = id) then Ok t1 else findTrain ts id'.
Proof.
  intros Hf Hid. unfold findTrain. rewrite (findTrainRef_store _ _ _ _ _ _ Hf Hid).
  by destruct (decide (id' = id)).
Qed.

Lemma findTrain_of_ref ts id ref t :
  findTrainRef ts id = Ok (ref, t) → findTrain ts id = Ok t.
Proof. intros H. unfold findTrain. by rewrite H. Qed.

Lemma findTrain_Ok ts id t :
  findTrain ts id = Ok t → ∃ ref, findTrainRef ts id = Ok (ref, t).
Proof.
  unfold findTrain. destruct (findTrainRef ts id) as [[ref t']|e]; [|done].
  intros [= <-]. eauto.
Qed.

(** ** Effect of taking and releasing a seat on the registry *)

Lemma seat_taken_after_take ts id ref train seat id' seat' :
  findTrainRef ts id = Ok (ref, train) →
  seat_taken ts id' seat' →
  seat_taken (<[ref := with_seat train seat false]> ts) id' seat'.
Proof.
  intros Hf (t & Ht & Hs).
  pose proof (findTrainRef_Ok _ _ _ _ Hf) as [_ Hid].
  unfold seat_taken. rewrite (findTrain_store _ _ _ _ _ _ Hf) by done.
  destruct (decide (id' = id)) as [->|]; [|eauto].
  rewrite (findTrain_of_ref _ _ _ _ Hf) in Ht. injection Ht as <-.
  eexists; split; [done|]. apply isSeatAvailable_Ok in Hs as [Hr Hs].
  apply isSeatAvailable_Ok. split; [done|]. by apply seat_at_insert_false.
Qed.

Lemma seat_taken_here ts id ref train seat :
  findTrainRef ts id = Ok (ref, train) →
  isSeatAvailable train seat = Ok true →
  seat_taken (<[ref := with_seat train seat false]> ts) id seat.
Proof.
  intros Hf Hs.
  pose proof (findTrainRef_Ok _ _ _ _ Hf) as [_ Hid].
  unfold seat_taken. rewrite (findTrain_store _ _ _ _ _ _ Hf) by done.
  rewrite decide_True by done. eexists; split; [done|].
  apply isSeatAvailable_Ok in Hs as [Hr Hs]. apply seat_at_true in Hs.
  apply isSeatAvailable_with_seat_eq; [done|]. by eapply lookup_lt_Some.
Qed.

Lemma seat_taken_after_release ts id ref train seat id' seat' :
  findTrainRef ts id = Ok (ref, train) → 1 ≤ seat →
  seat_taken ts id' seat' → ¬ (id' = id ∧ seat' = seat) →
  seat_taken (<[ref := with_seat train seat true]> ts) id' seat'.
Proof.
  intros Hf Hseat (t & Ht & Hs) Hne.
  pose proof (findTrainRef_Ok _ _ _ _ Hf) as [_ Hid].
  unfold seat_taken. rewrite (findTrain_store _ _ _ _ _ _ Hf) by done.
  destruct (decide (id' = id)) as [->|]; [|eauto].
  rewrite (findTrain_of_ref _ _ _ _ Hf) in Ht. injection Ht as <-.
  eexists; split; [done|].
  rewrite isSeatAvailable_with_seat_ne; [done | done | naive_solver].
Qed.

Lemma seat_free_not_taken ts id seat :
  seat_free ts id seat → ¬ seat_taken ts id seat.
Proof. intros (t & Ht & Hs) (t' & Ht' & Hs'). congruence. Qed.

(** ** Booking ids *)

Lemma draw_chars_nonempty n id g :
  id ≠ "" → fst (draw_chars n id g) ≠ "".
Proof.
  revert id g. induction n as [|n IH]; intros id g Hid; simpl; [done|].
  apply IH. by destruct id.
Qed.

Lemma generateBookingId_Some fuel bk g id g' :
  generateBookingId fuel bk g = Some (id, g') →
  bk !! id = None ∧ id ≠ "" ∧
  ∃ k, (k < fuel)%nat ∧ id = candidate k g ∧ g' = gen_after (S k) g.
Proof.
  revert g. induction fuel as [|fuel IH]; intros g; [done|].
  cbn [generateBookingId].
  pose proof (draw_chars_nonempty 8 "BK" g) as Hne.
  destruct (draw_chars 8 "BK" g) as [c g1] eqn:Hd.
  destruct (bk !! c) eqn:Hc.
  - intros H. destruct (IH _ H) as (Hfresh & Hid & k & Hk & -> & ->).
    split; [done|]. split; [done|]. exists (S k).
    split; [lia|]. unfold candidate. cbn [gen_after]. by rewrite !Hd.
  - intros [= <- <-]. split; [done|]. split; [by apply Hne|].
    exists 0%nat. split; [lia|]. unfold candidate. cbn [gen_after]. by rewrite Hd.
Qed.

(** The search returns as soon as a candidate is absent from the ledger:
    with fuel beyond the position of such a candidate the model yields a
    result. *)
Lemma generateBookingId_returns fuel bk g k :
  bk !! candidate k g = None → (k < fuel)%nat →
  is_Some (generateBookingId fuel bk g).
Proof.
  revert fuel g. induction k as [|k IH]; intros fuel g Hfresh Hk;
    (destruct fuel as [|fuel]; [lia|]); cbn [generateBookingId];
    unfold candidate in Hfresh; cbn [gen_after] in Hfresh;
    destruct (draw_chars 8 "BK" g) as [c g1] eqn:Hd; simpl in Hfresh.
  - by rewrite Hfresh.
  - destruct (bk !! c); [|done]. apply IH; [done | lia].
Qed.

(** ** bookTicket *)

Lemma Ticket_new_Ok now bid id seat p t :
  Ticket_new now bid id seat p = Ok t ↔
  bid ≠ "" ∧ 0 < id ∧ 0 < seat ∧ p ≠ "" ∧
  t = mkTicket bid id seat p (format_time now).
Proof.
  unfold Ticket_new.
  destruct (String.eqb_spec bid ""), (Z.leb_spec id 0), (Z.leb_spec seat 0),
    (String.eqb_spec p ""); split; try done; try (intros (?&?&?&?&?); done || lia).
  - intros [= <-]. done.
  - intros (_&_&_&_&->). done.
Qed.

Lemma emplace_fresh k v (m : gmap string Ticket) :
  m !! k = None → emplace k v m = (<[k := v]> m, true).
Proof. intros H. unfold emplace. by rewrite H. Qed.

Lemma emplace_present k v (m : gmap string Ticket) :
  is_Some (m !! k) → emplace k v m = (m, false).
Proof. intros [t H]. unfold emplace. by rewrite H. Qed.

(** Every way in which [bookTicket] returns. *)
Lemma bookTicket_outcome fuel id p st r st1 :
  bookTicket fuel id p st = Some (r, st1) →
  (r = Ok "" ∧ trains st1 = trains st ∧ bookings st1 = bookings st ∧
   (p = "" ∨ (∃ e, findTrainRef (trains st) id = Throw e) ∨
    (∃ ref train e, findTrainRef (trains st) id = Ok (ref, train) ∧
                    bookNextAvailableSeat train = Throw e) ∨
    id ≤ 0)) ∨
  (∃ bid ref train seat,
     r = Ok bid ∧ bid ≠ "" ∧ p ≠ "" ∧ 0 < id ∧
     findTrainRef (trains st) id = Ok (ref, train) ∧
     bookNextAvailableSeat train = Ok (seat, with_seat train seat false) ∧
     trains st1 = <[ref := with_seat train seat false]> (trains st) ∧
     bookings st !! bid = None ∧
     bookings st1 =
       <[bid := mkTicket bid id seat p (format_time (clock st 0%nat))]> (bookings st)).
Proof.
  unfold bookTicket. destruct (String.eqb_spec p "") as [Hp|Hp].
  { intros [= <- <-]. left. eauto. }
  destruct (findTrainRef (trains st) id) as [[ref train]|e] eqn:Hf.
  2:{ intros [= <- <-]. left. repeat split; eauto. }
  destruct (bookNextAvailableSeat train) as [[seat train1]|e] eqn:Hb.
  2:{ intros [= <- <-]. left. repeat split; eauto 10. }
  pose proof (bookNextAvailableSeat_Ok _ _ _ Hb) as (Hr & Hseat & _ & ->).
  destruct (generateBookingId _ _ _) as [[bid g]|] eqn:Hg; [|done].
  apply generateBookingId_Some in Hg as (Hfresh & Hbid & _). simpl in Hfresh.
  cbn [clock with_gen store_train with_trains].
  destruct (Ticket_new _ _ _ _ _) as [ticket|e] eqn:Ht.
  - apply Ticket_new_Ok in Ht as (_ & Hid & _ & _ & ->).
    cbn [bookings tick with_gen store_train with_trains with_bookings].
    rewrite emplace_fresh by done. cbn [fst].
    rewrite lookup_insert_eq. intros [= <- <-]. right.
    exists bid, ref, train, seat. repeat split; done.
  - rewrite cancelSeat_after_booking by done. intros [= <- <-]. left.
    split; [done|]. split.
    + simpl. rewrite list_insert_insert_eq. apply list_insert_id.
      by apply (findTrainRef_Ok _ _ _ _ Hf).
    + split; [done|]. right. right. right.
      destruct (Z.leb_spec id 0) as [|Hpos]; [done|]. exfalso.
      pose proof (proj2 (Ticket_new_Ok (clock st 0%nat) bid id seat p
        (mkTicket bid id seat p (format_time (clock st 0%nat))))) as Hok.
      rewrite Hok in Ht; [done|]. repeat split; [done | lia | lia | done].
Qed.

(** With a fresh candidate within reach of the fuel, [bookTicket] returns. *)
Lemma bookTicket_returns fuel id p st k :
  bookings st !! candidate k (gen st) = None → (k < fuel)%nat →
  is_Some (bookTicket fuel id p st).
Proof.
  intros Hfresh Hk. unfold bookTicket.
  destruct (String.eqb p ""); [eauto|].
  destruct (findTrainRef (trains st) id) as [[ref train]|e]; [|eauto].
  destruct (bookNextAvailableSeat train) as [[seat train1]|e]; [|eauto].
  destruct (generateBookingId_returns fuel (bookings st) (gen st) k Hfresh Hk)
    as [[bid g] Hg].
  cbn [bookings gen store_train with_trains]. rewrite Hg.
  destruct (Ticket_new _ _ _ _ _).
  - destruct (_ !! bid); eauto.
  - destruct (cancelSeat train1 seat) as [[? ?]|]; eauto.
Qed.

(** C2. When [bookTicket] returns, it returns a booking id and does not
    throw.  With a non-empty id exactly one seat of the train found has gone
    from available to taken and the ledger has exactly one new entry, under
    an id that was absent.  With the empty id, which is what every failure
    path yields (empty passenger name, train not found, no seat available,
    ticket construction failure after which the seat is released), the
    registry and the ledger are what they were before the call. *)
Theorem bookTicket_all_or_nothing fuel id p st r st1 :
  bookTicket fuel id p st = Some (r, st1) →
  ∃ bid, r = Ok bid ∧
    (bid = "" → trains st1 = trains st ∧ bookings st1 = bookings st) ∧
    (bid ≠ "" →
       ∃ ref train seat ticket,
         findTrainRef (trains st) id = Ok (ref, train) ∧
         isSeatAvailable train seat = Ok true ∧
         trains st1 = <[ref := with_seat train seat false]> (trains st) ∧
         bookings st !! bid = None ∧
         bookings st1 = <[bid := ticket]> (bookings st)) ∧
    (p = "" ∨ (∃ e, findTrain (trains st) id = Throw e) ∨
     (∃ train e, findTrain (trains st) id = Ok train ∧
                 bookNextAvailableSeat train = Throw e) ∨
     (∃ now bid' seat e, Ticket_new now bid' id seat p = Throw e ∧
                         bid' ≠ "" ∧ 0 < seat) →
     bid = "").
Proof.
  intros H. apply bookTicket_outcome in H
    as [(-> & Ht & Hb & _) | (bid & ref & train & seat & -> & Hbid & Hp & Hid &
                               Hf & Hbook & Ht & Hfresh & Hb)].
  - exists "". repeat split; done.
  - exists bid. split; [done|]. split; [done|]. split.
    + intros _. exists ref, train, seat. eexists. repeat split; try done.
      apply bookNextAvailableSeat_Ok in Hbook as (Hr & Hseat & _).
      apply isSeatAvailable_Ok. split; [done|]. by apply seat_at_true.
    + intros [->|[[e He]|[(t & e & Ht' & He)|(now & bid' & s & e & He & ? & ?)]]];
        [done| | |].
      * unfold findTrain in He. by rewrite Hf in He.
      * rewrite (findTrain_of_ref _ _ _ _ Hf) in Ht'. injection Ht' as <-.
        by rewrite Hbook in He.
      * exfalso.
        pose proof (proj2 (Ticket_new_Ok now bid' id s p
          (mkTicket bid' id s p (format_time now)))) as Hok.
        rewrite Hok in He; [done|]. repeat split; done.
Qed.

(** ** cancelTicket after bookTicket *)

Lemma count_after_take (seats : list bool) i :
  seats !! i = Some true →
  (length (filter (λ b, b = true) (<[i := false]> seats)) + 1 =
   length (filter (λ b, b = true) seats))%nat.
Proof.
  revert i. induction seats as [|b seats IH]; intros i; [done|].
  destruct i as [|i]; simpl.
  - intros [= ->]. rewrite !filter_cons.
    destruct (decide (false = true)); [done|].
    destruct (decide (true = true)); [simpl; lia | done].
  - intros H. rewrite !filter_cons. specialize (IH i H).
    destruct (decide (b = true)); simpl; lia.
Qed.

Lemma getAvailableSeatsCount_after_take t n :
  seatAvailability t !! Z.to_nat (n - 1) = Some true →
  getAvailableSeatsCount (with_seat t n false) = getAvailableSeatsCount t - 1.
Proof.
  intros H. unfold getAvailableSeatsCount, with_seat. simpl.
  pose proof (count_after_take _ _ H). lia.
Qed.

(** C3. After a booking that succeeded with id [bid], [cancelTicket bid]
    succeeds; the registry and the ledger are then what they were before
    the booking, so the train has its former count of available seats
    (which the booking had lowered by one), and looking [bid] up fails with
    [TicketNotFoundException].  A booking that succeeds implies a train
    found with an available seat and a non-empty passenger name. *)
Theorem cancelTicket_undoes_bookTicket fuel id p st bid st1 :
  bookTicket fuel id p st = Some (Ok bid, st1) → bid ≠ "" →
  ∃ train train1 st2,
    findTrain (trains st) id = Ok train ∧
    0 < getAvailableSeatsCount train ∧ p ≠ "" ∧
    findTrain (trains st1) id = Ok train1 ∧
    getAvailableSeatsCount train1 = getAvailableSeatsCount train - 1 ∧
    cancelTicket bid st1 = (true, st2) ∧
    trains st2 = trains st ∧ bookings st2 = bookings st ∧
    findTrain (trains st2) id = Ok train ∧
    findTicket (bookings st2) bid = Throw (TicketNotFoundException bid) ∧
    fst (checkTicketStatus bid st2) = false.
Proof.
  intros H Hne. apply bookTicket_outcome in H
    as [([= ->] & _) | (bid' & ref & train & seat & [= <-] & Hbid & Hp & Hid &
                          Hf & Hbook & Ht & Hfresh & Hb)]; [done|].
  apply bookNextAvailableSeat_Ok in Hbook as (Hr & Hseat & _).
  pose proof (findTrainRef_Ok _ _ _ _ Hf) as [Href Htid].
  assert (Hf1 : findTrainRef (trains st1) id = Ok (ref, with_seat train seat false)).
  { rewrite Ht, (findTrainRef_store _ _ _ _ _ _ Hf) by done.
    by rewrite decide_True. }
  assert (Hcount := getAvailableSeatsCount_after_take _ _ Hseat).
  assert (Hcancel : ∃ st2, cancelTicket bid st1 = (true, st2) ∧
            trains st2 = trains st ∧ bookings st2 = bookings st).
  { unfold cancelTicket, findTicket. rewrite Hb, lookup_insert_eq.
    cbn [ticketTrainId seatNumber]. rewrite Hf1.
    rewrite cancelSeat_after_booking by done.
    eexists. split; [done|]. cbn. rewrite Ht, Hb. split.
    - rewrite list_insert_insert_eq. by apply list_insert_id.
    - by apply delete_insert_id. }
  destruct Hcancel as (st2 & Hc & Ht2 & Hb2).
  exists train, (with_seat train seat false), st2.
  split; [by eapply findTrain_of_ref|].
  split.
  { assert (0 ≤ getAvailableSeatsCount (with_seat train seat false))
      by (unfold getAvailableSeatsCount; lia). lia. }
  split; [done|]. split; [by eapply findTrain_of_ref|]. split; [done|].
  split; [done|]. split; [done|]. split; [done|].
  split; [rewrite Ht2; by eapply findTrain_of_ref|].
  unfold checkTicketStatus, findTicket. rewrite Hb2, Hfresh. done.
Qed.

(** ** The ticket/seat invariant *)

Lemma consistent_same st st1 :
  trains st1 = trains st → bookings st1 = bookings st →
  consistent st → consistent st1.
Proof.
  intros Ht Hb [Hinv Hdis]. split.
  - intros b t. rewrite Hb, Ht. apply Hinv.
  - intros b1 b2 t1 t2. rewrite Hb. apply Hdis.
Qed.

(** A seat that was available is taken, and the only ledger entry that may
    be new names that seat. *)
Lemma consistent_take st st1 id ref train seat bid :
  consistent st →
  findTrainRef (trains st) id = Ok (ref, train) →
  isSeatAvailable train seat = Ok true →
  trains st1 = <[ref := with_seat train seat false]> (trains st) →
  (∀ b t, bookings st1 !! b = Some t →
     bookings st !! b = Some t ∨
     (b = bid ∧ ticketTrainId t = id ∧ seatNumber t = seat)) →
  consistent st1.
Proof.
  intros [Hinv Hdis] Hf Hfree Ht Hb.
  assert (Hold : ∀ b t, bookings st !! b = Some t →
            ¬ (ticketTrainId t = id ∧ seatNumber t = seat)).
  { intros b t Hbt [Hi Hs]. apply Hinv in Hbt. rewrite Hi, Hs in Hbt.
    eapply seat_free_not_taken; [|done].
    exists train. split; [by eapply findTrain_of_ref | done]. }
  split.
  - intros b t Hbt. rewrite Ht. destruct (Hb _ _ Hbt) as [Hin|(_ & -> & ->)].
    + eapply seat_taken_after_take; eauto.
    + by eapply seat_taken_here.
  - intros b1 b2 t1 t2 H1 H2 Hi Hs.
    destruct (Hb _ _ H1) as [Hin1|(-> & Hi1 & Hs1)],
             (Hb _ _ H2) as [Hin2|(-> & Hi2 & Hs2)]; [eauto| | |done].
    + destruct (Hold _ _ Hin1). split; congruence.
    + destruct (Hold _ _ Hin2). split; congruence.
Qed.

(** The seat of a ticket is released and the ticket leaves the ledger. *)
Lemma consistent_release st st1 bid ticket ref train :
  consistent st →
  bookings st !! bid = Some ticket →
  findTrainRef (trains st) (ticketTrainId ticket) = Ok (ref, train) →
  trains st1 = <[ref := with_seat train (seatNumber ticket) true]> (trains st) →
  bookings st1 = delete bid (bookings st) →
  consistent st1.
Proof.
  intros [Hinv Hdis] Hbid Hf Ht Hb.
  assert (Hseat : 1 ≤ seatNumber ticket).
  { destruct (Hinv _ _ Hbid) as (t & _ & Hs).
    apply isSeatAvailable_Ok in Hs. lia. }
  split.
  - intros b t. rewrite Hb, Ht. intros Hbt.
    apply lookup_delete_Some in Hbt as [Hne Hbt].
    eapply seat_taken_after_release; eauto.
    intros [Hi Hs]. apply Hne. eapply Hdis; eauto.
  - intros b1 b2 t1 t2. rewrite Hb. intros H1 H2.
    apply lookup_delete_Some in H1 as [_ H1].
    apply lookup_delete_Some in H2 as [_ H2]. eauto.
Qed.

Lemma cancelSeat_Ok t n b t' :
  cancelSeat t n = Ok (b, t') →
  1 ≤ n ≤ totalSeats t ∧
  (if b then isSeatAvailable t n = Ok false ∧ t' = with_seat t n true
   else isSeatAvailable t n = Ok true ∧ t' = t).
Proof.
  unfold cancelSeat, isSeatAvailable.
  destruct ((n <? 1) || (n >? totalSeats t)) eqn:Hr; [done|].
  apply range_check_false in Hr. cbv zeta.
  destruct (seat_at _ _); simpl; intros [= <- <-]; done.
Qed.

Lemma bookSpecificSeat_Ok t n b t' :
  bookSpecificSeat t n = Ok (b, t') →
  1 ≤ n ≤ totalSeats t ∧
  (if b then isSeatAvailable t n = Ok true ∧ t' = with_seat t n false
   else isSeatAvailable t n = Ok false ∧ t' = t).
Proof.
  unfold bookSpecificSeat, isSeatAvailable.
  destruct ((n <? 1) || (n >? totalSeats t)) eqn:Hr; [done|].
  apply range_check_false in Hr. cbv zeta.
  destruct (seat_at _ _); simpl; intros [= <- <-]; done.
Qed.

(** Every way in which [cancelTicket] returns. *)
Lemma cancelTicket_outcome bid st :
  (fst (cancelTicket bid st) = false ∧
   trains (snd (cancelTicket bid st)) = trains st ∧
   bookings (snd (cancelTicket bid st)) = bookings st) ∨
  (∃ ticket ref train,
     fst (cancelTicket bid st) = true ∧
     bookings st !! bid = Some ticket ∧
     findTrainRef (trains st) (ticketTrainId ticket) = Ok (ref, train) ∧
     isSeatAvailable train (seatNumber ticket) = Ok false ∧
     trains (snd (cancelTicket bid st)) =
       <[ref := with_seat train (seatNumber ticket) true]> (trains st) ∧
     bookings (snd (cancelTicket bid st)) = delete bid (bookings st)).
Proof.
  unfold cancelTicket, findTicket.
  destruct (bookings st !! bid) as [ticket|] eqn:Hb; [|by left].
  destruct (findTrainRef _ _) as [[ref train]|e] eqn:Hf; [|by left].
  destruct (cancelSeat _ _) as [[[] train1]|e] eqn:Hc; [|by left|by left].
  apply cancelSeat_Ok in Hc as (Hr & Hs & ->).
  right. exists ticket, ref, train. repeat split; done.
Qed.

Lemma bookTicket_consistent fuel id p st r st1 :
  bookTicket fuel id p st = Some (r, st1) → consistent st → consistent st1.
Proof.
  intros H Hc. apply bookTicket_outcome in H
    as [(_ & Ht & Hb & _) | (bid & ref & train & seat & _ & _ & _ & _ &
                               Hf & Hbook & Ht & Hfresh & Hb)].
  - by eapply consistent_same.
  - apply bookNextAvailableSeat_Ok in Hbook as (Hr & Hseat & _).
    eapply (consistent_take st st1 id ref train seat bid); eauto.
    + apply isSeatAvailable_Ok. split; [done|]. by apply seat_at_true.
    + intros b t. rewrite Hb. intros Hbt.
      apply lookup_insert_Some in Hbt as [[<- <-]|[_ Hbt]]; [by right | by left].
Qed.

Lemma cancelTicket_consistent bid st :
  consistent st → consistent (snd (cancelTicket bid st)).
Proof.
  intros Hc. destruct (cancelTicket_outcome bid st)
    as [(_ & Ht & Hb) | (ticket & ref & train & _ & Hbid & Hf & _ & Ht & Hb)].
  - by eapply consistent_same.
  - by eapply consistent_release.
Qed.

(** ** Loading tickets *)

Lemma loadTicketRow_success line row l ref train :
  findTrainRef (trains (sys l)) (row_ticketTrainId row) = Ok (ref, train) →
  isSeatAvailable train (row_seatNumber row) = Ok true →
  valid_ticket_row row →
  loadTicketRow line row l = row_loaded row ref train l.
Proof.
  intros Hf Hfree (Hbid & Hid & Hseat & Hp). unfold loadTicketRow. cbv zeta.
  rewrite Hf. apply isSeatAvailable_Ok in Hfree as [Hr Hs].
  unfold bookSpecificSeat. rewrite (proj2 (range_check_false _ _) Hr).
  cbv zeta. rewrite Hs.
  pose proof (proj2 (Ticket_new_Ok (clock (sys l) 0%nat) (row_bookingId row)
    (row_ticketTrainId row) (row_seatNumber row) (row_passengerName row) _)
    (conj Hbid (conj Hid (conj Hseat (conj Hp eq_refl))))) as Hok.
  cbn [clock store_train with_trains]. rewrite Hok. done.
Qed.

(** Every way in which a parsed row is processed. *)
Lemma loadTicketRow_outcome line row l :
  (trains (sys (loadTicketRow line row l)) = trains (sys l) ∧
   bookings (sys (loadTicketRow line row l)) = bookings (sys l) ∧
   loadedTickets (loadTicketRow line row l) = loadedTickets l ∧
   errorCount (loadTicketRow line row l) = wrap32 (errorCount l + 1)) ∨
  (∃ ref train,
     findTrainRef (trains (sys l)) (row_ticketTrainId row) = Ok (ref, train) ∧
     isSeatAvailable train (row_seatNumber row) = Ok true ∧
     valid_ticket_row row ∧
     loadTicketRow line row l = row_loaded row ref train l).
Proof.
  destruct (findTrainRef (trains (sys l)) (row_ticketTrainId row))
    as [[ref train]|e] eqn:Hf.
  2:{ left. unfold loadTicketRow. cbv zeta. by rewrite Hf. }
  destruct (bookSpecificSeat train (row_seatNumber row))
    as [[[] train1]|e] eqn:Hb.
  2,3: left; unfold loadTicketRow; cbv zeta; by rewrite Hf, Hb.
  pose proof (bookSpecificSeat_Ok _ _ _ _ Hb) as (Hr & Hfree & ->).
  destruct (Ticket_new (clock (sys l) 0%nat) (row_bookingId row)
    (row_ticketTrainId row) (row_seatNumber row) (row_passengerName row))
    as [ticket|e] eqn:Ht.
  - apply Ticket_new_Ok in Ht as (Hbid & Hid & Hseat & Hp & _).
    right. exists ref, train. split; [done|]. split; [done|].
    split; [done|]. by apply loadTicketRow_success.
  - left. unfold loadTicketRow. cbv zeta. rewrite Hf, Hb.
    cbn [clock store_train with_trains]. rewrite Ht.
    apply isSeatAvailable_Ok in Hfree as [_ Hs]. apply seat_at_true in Hs.
    rewrite cancelSeat_after_booking by done.
    cbn. split; [|done]. rewrite list_insert_insert_eq. apply list_insert_id.
    by apply (findTrainRef_Ok _ _ _ _ Hf).
Qed.

Lemma loadTicketsFromCSV_line_outcome line l :
  (trains (sys (loadTicketsFromCSV_line line l)) = trains (sys l) ∧
   bookings (sys (loadTicketsFromCSV_line line l)) = bookings (sys l) ∧
   loadedTickets (loadTicketsFromCSV_line line l) = loadedTickets l) ∨
  (∃ row ref train,
     parseTicketLine line = Ok row ∧
     findTrainRef (trains (sys l)) (row_ticketTrainId row) = Ok (ref, train) ∧
     isSeatAvailable train (row_seatNumber row) = Ok true ∧
     valid_ticket_row row ∧
     loadTicketsFromCSV_line line l = row_loaded row ref train l).
Proof.
  unfold loadTicketsFromCSV_line.
  destruct (parseTicketLine line) as [row|e]; [|by left].
  destruct (loadTicketRow_outcome line row l)
    as [(?&?&?&?)|(ref & train & ? & ? & ? & ?)]; [by left|].
  right. by exists row, ref, train.
Qed.

Lemma bookings_row_loaded row ref train l b t :
  bookings (sys (row_loaded row ref train l)) !! b = Some t →
  bookings (sys l) !! b = Some t ∨
  (b = row_bookingId row ∧ ticketTrainId t = row_ticketTrainId row ∧
   seatNumber t = row_seatNumber row).
Proof.
  cbn. unfold emplace.
  destruct (bookings (sys l) !! row_bookingId row) eqn:Hb; cbn; [by left|].
  intros H. apply lookup_insert_Some in H as [[<- <-]|[_ H]]; [by right | by left].
Qed.

Lemma loadTicketsFromCSV_line_consistent line l :
  consistent (sys l) → consistent (sys (loadTicketsFromCSV_line line l)).
Proof.
  intros Hc. destruct (loadTicketsFromCSV_line_outcome line l)
    as [(Ht & Hb & _)|(row & ref & train & _ & Hf & Hfree & _ & ->)].
  - by eapply consistent_same.
  - eapply consistent_take; [done | done | done | done |].
    apply bookings_row_loaded.
Qed.

Lemma load_lines_consistent lines l :
  consistent (sys l) → consistent (sys (load_lines lines l)).
Proof.
  revert l. induction lines as [|line lines IH]; intros l Hc; [done|].
  apply IH. by apply loadTicketsFromCSV_line_consistent.
Qed.

Lemma consistent_empty st : bookings st = ∅ → consistent st.
Proof.
  intros Hb. split.
  - intros b t. by rewrite Hb, lookup_empty.
  - intros b1 b2 t1 t2. by rewrite Hb, lookup_empty.
Qed.

(** ** Loading trains and start-up *)

Lemma mark_booked_bookings fuel i booked train st :
  bookings (snd (mark_booked fuel i booked train st)) = bookings st.
Proof.
  revert i train. induction fuel as [|fuel IH]; intros i train; simpl; [done|].
  destruct ((i <? booked) && (i <? totalSeats train)); [|done].
  destruct (bookNextAvailableSeat train) as [[n t']|e]; [apply IH | done].
Qed.

Lemma bookNextAvailableSeat_totalSeats t n t' :
  bookNextAvailableSeat t = Ok (n, t') → totalSeats t' = totalSeats t.
Proof. intros H. by apply bookNextAvailableSeat_Ok in H as (_ & _ & _ & ->). Qed.

(** The loop is over once [i] has reached [totalSeats]: any fuel of at
    least [totalSeats - i] gives the same result, so that the fuel handed
    to [mark_booked] by [loadTrainsFromCSV_line] cuts nothing off. *)
Lemma mark_booked_fuel fuel fuel' i booked train st :
  0 ≤ i →
  (Z.to_nat (totalSeats train - i) ≤ fuel)%nat →
  (Z.to_nat (totalSeats train - i) ≤ fuel')%nat →
  mark_booked fuel i booked train st = mark_booked fuel' i booked train st.
Proof.
  revert fuel' i train.
  induction fuel as [|fuel IH]; intros [|fuel'] i train Hi Hf Hf'; simpl; [done| | |].
  - destruct (Z.ltb_spec i (totalSeats train)); [lia|]. by rewrite andb_false_r.
  - destruct (Z.ltb_spec i (totalSeats train)); [lia|]. by rewrite andb_false_r.
  - destruct ((i <? booked) && (i <? totalSeats train)) eqn:Hc; [|done].
    apply andb_true_iff in Hc as [_ Hc]. apply Z.ltb_lt in Hc.
    destruct (bookNextAvailableSeat train) as [[n t']|e] eqn:Hb; [|done].
    apply bookNextAvailableSeat_totalSeats in Hb.
    apply IH; rewrite ?Hb; lia.
Qed.

Lemma loadTrainsFromCSV_line_bookings line st :
  bookings (loadTrainsFromCSV_line line st) = bookings st.
Proof.
  unfold loadTrainsFromCSV_line.
  destruct (_ ≫= _) as [[row train]|e]; [|done].
  pose proof (mark_booked_bookings (Z.to_nat (row_totalSeats row)) 0
    (wrap32 (row_totalSeats row - row_availableSeats row)) train st) as H.
  by destruct (mark_booked _ _ _ _ _).
Qed.

Lemma loadTrainsFromCSV_bookings filename file st :
  bookings (snd (loadTrainsFromCSV filename file st)) = bookings st.
Proof.
  unfold loadTrainsFromCSV. destruct file as [lines|]; [|done]. cbn.
  change (bookings st) with (bookings (with_trains st [])).
  generalize (with_trains st []). generalize (tail lines).
  induction l as [|line l IH]; intros s; [done|]. simpl.
  rewrite IH. apply loadTrainsFromCSV_line_bookings.
Qed.

Lemma push_trains_bookings specs st :
  bookings (push_trains specs st) = bookings st.
Proof.
  revert st. induction specs as [|[[id name] seats] specs IH]; intros st; [done|].
  simpl. destruct (Train_new id name seats); [by rewrite IH | done].
Qed.

Lemma main_startup_consistent trains_csv tickets_csv g clk st :
  main_startup trains_csv tickets_csv g clk = (Ok tt, st) → consistent st.
Proof.
  unfold main_startup, main_loadTrains.
  pose proof (loadTrainsFromCSV_bookings "trains.csv" trains_csv
                (ReservationSystem_new g clk)) as Hbk.
  unfold ReservationSystem_new in Hbk at 2. rewrite push_trains_bookings in Hbk.
  destruct (loadTrainsFromCSV _ _ _) as [[[]|e] st1] eqn:Hl; simpl in Hbk.
  - unfold main_loadTickets, loadTicketsFromCSV.
    destruct tickets_csv as [lines|].
    + intros [= <-]. eapply (consistent_same (sys (loadTicketsFromCSV_loop lines st1))).
      * by destruct (_ >? _).
      * by destruct (_ >? _).
      * apply load_lines_consistent. by apply consistent_empty.
    + intros [= <-]. by apply consistent_empty.
  - assert (Hst : bookings (say (NoteUsingDefaultTrains e) st1) = ∅) by done.
    destruct e; try done.
    unfold main_loadTickets, loadTicketsFromCSV.
    destruct tickets_csv as [lines|].
    + intros [= <-]. eapply (consistent_same (sys (loadTicketsFromCSV_loop lines _))).
      * by destruct (_ >? _).
      * by destruct (_ >? _).
      * apply load_lines_consistent. by apply consistent_empty.
    + intros [= <-]. by apply consistent_empty.
Qed.

Lemma reachable_consistent st : reachable st → consistent st.
Proof.
  induction 1 as [? ? ? ? ? Hs | ? ? ? ? ? ? _ IH Hb | ? ? _ IH | ? ? _ IH | ? ? _ IH].
  - by eapply main_startup_consistent.
  - by eapply bookTicket_consistent.
  - by apply cancelTicket_consistent.
  - eapply consistent_same; [| |exact IH];
      unfold checkTicketStatus; by destruct (findTicket _ _).
  - eapply consistent_same; [| |exact IH]; unfold checkSeatAvailability;
      destruct (findTrain _ _); try done; by destruct (_ =? 0).
Qed.

(** C1. In every state reached from start-up by any sequence of
    [bookTicket] and [cancelTicket] calls (and of the read-only menu
    operations), each ticket of the ledger has its seat marked unavailable
    in the train that its train id designates. *)
Theorem ticket_implies_seat_taken st bid ticket :
  reachable st →
  bookings st !! bid = Some ticket →
  ∃ train,
    findTrain (trains st) (ticketTrainId ticket) = Ok train ∧
    isSeatAvailable train (seatNumber ticket) = Ok false.
Proof.
  intros Hr Hb. apply reachable_consistent in Hr as [Hinv _].
  exact (Hinv _ _ Hb).
Qed.

(** ** Parsed numbers are [int]s *)

Lemma wrap32_in_int z : in_int z → wrap32 z = z.
Proof.
  unfold in_int, INT_MIN, INT_MAX, wrap32. intros H.
  rewrite Z.mod_small; lia.
Qed.

Lemma stoi_in_int token v : stoi token = Some v → in_int v.
Proof.
  unfold stoi.
  destruct (match skip_spaces token with
            | String "-"%char rest => (true, rest)
            | String "+"%char rest => (false, rest)
            | _ => (false, skip_spaces token)
            end) as [negative digits].
  destruct (read_digits digits 0 false) as [d|]; [|done].
  destruct ((INT_MIN <=? _) && (_ <=? INT_MAX)) eqn:Hr; [|done].
  intros [= <-]. apply andb_true_iff in Hr as [H1 H2].
  apply Z.leb_le in H1, H2. done.
Qed.

Lemma read_int_in_int what token v : read_int what token = Ok v → in_int v.
Proof.
  unfold read_int. destruct (stoi token) eqn:Hs; [|done].
  intros [= <-]. by eapply stoi_in_int.
Qed.

Lemma Result_bind_Ok {A B} (m : Result A) (f : A → Result B) b :
  m ≫= f = Ok b ↔ ∃ a, m = Ok a ∧ f a = Ok b.
Proof.
  unfold mbind, Result_bind. destruct m as [a|e].
  - split; [eauto|]. by intros (a' & [= <-] & H).
  - split; [done|]. by intros (a' & [=] & _).
Qed.

Lemma parseTrainLine_in_int line row :
  parseTrainLine line = Ok row →
  in_int (row_trainId row) ∧ in_int (row_totalSeats row) ∧
  in_int (row_availableSeats row).
Proof.
  unfold parseTrainLine. intros H.
  apply Result_bind_Ok in H as (f1 & _ & H).
  apply Result_bind_Ok in H as (id & Hid & H).
  apply Result_bind_Ok in H as (f2 & _ & H).
  apply Result_bind_Ok in H as (f3 & _ & H).
  apply Result_bind_Ok in H as (total & Htotal & H).
  apply Result_bind_Ok in H as (f4 & _ & H).
  apply Result_bind_Ok in H as (avail & Havail & H).
  injection H as <-. simpl. repeat split; by eapply read_int_in_int.
Qed.

(** ** Reconciling the declared number of available seats *)

Lemma Train_new_valid row :
  valid_train_row row →
  Train_new (row_trainId row) (row_trainName row) (row_totalSeats row) =
  Ok (partly_booked row 0).
Proof.
  intros (Hid & Hname & Hseats). unfold Train_new, partly_booked.
  destruct (Z.leb_spec (row_trainId row) 0); [lia|].
  destruct (String.eqb_spec (row_trainName row) ""); [done|].
  destruct (Z.leb_spec (row_totalSeats row) 0); [lia|].
  simpl. by rewrite Nat.sub_0_r.
Qed.

Lemma scan_seats_first seats i r k :
  (i ≤ k < i + r)%nat → seats !! k = Some true →
  (∀ j, (i ≤ j < k)%nat → seat_at seats j = false) →
  scan_seats seats i r = Some k.
Proof.
  revert i. induction r as [|r IH]; intros i Hk Hseat Hlow; [lia|]. simpl.
  destruct (decide (i = k)) as [->|Hne].
  - by rewrite (proj2 (seat_at_true _ _) Hseat).
  - rewrite Hlow by lia. apply IH; [lia | done |]. intros j Hj. apply Hlow. lia.
Qed.

Lemma bookNextAvailableSeat_partly_booked row k :
  (k < Z.to_nat (row_totalSeats row))%nat →
  bookNextAvailableSeat (partly_booked row k) =
  Ok (Z.of_nat k + 1, partly_booked row (S k)).
Proof.
  intros Hk. unfold bookNextAvailableSeat. simpl.
  set (n := Z.to_nat (row_totalSeats row)) in *.
  assert (Hseat : (replicate k false ++ replicate (n - k) true)%list !! k
                  = Some true).
  { rewrite lookup_app_r by (rewrite length_replicate; lia).
    rewrite length_replicate. apply lookup_replicate_2. lia. }
  rewrite (scan_seats_first _ 0 n k); [|lia|done|].
  - f_equal. f_equal. unfold partly_booked, set_seats. simpl. f_equal.
    fold n. replace (n - k)%nat with (S (n - S k)) by lia.
    rewrite insert_app_r_alt by (rewrite length_replicate; lia).
    rewrite length_replicate, Nat.sub_diag.
    simpl. rewrite app_comm_cons, replicate_cons_app, <- app_assoc. done.
  - intros j Hj. unfold seat_at.
    rewrite lookup_app_l by (rewrite length_replicate; lia).
    rewrite lookup_replicate_2 by lia. done.
Qed.

(** On the train just built from a row the loop marks the first
    [min bookedSeats totalSeats] seats (none when that is negative) and never
    reaches its handler: nothing is printed. *)
Lemma mark_booked_partly_booked fuel k booked row st :
  (fuel + k = Z.to_nat (row_totalSeats row))%nat →
  mark_booked fuel (Z.of_nat k) booked (partly_booked row k) st =
  (partly_booked row
     (Z.to_nat (Z.max (Z.of_nat k) (Z.min booked (row_totalSeats row)))), st).
Proof.
  revert k. induction fuel as [|fuel IH]; intros k Hk; simpl.
  - f_equal. f_equal. lia.
  - destruct (Z.ltb_spec (Z.of_nat k) booked) as [Hlt|Hge]; simpl.
    + destruct (Z.ltb_spec (Z.of_nat k) (row_totalSeats row)); [|lia].
      rewrite bookNextAvailableSeat_partly_booked by lia.
      replace (Z.of_nat k + 1) with (Z.of_nat (S k)) by lia.
      rewrite IH by lia. f_equal. f_equal. lia.
    + f_equal. f_equal. lia.
Qed.

Lemma loadTrainsFromCSV_line_valid line row st :
  parseTrainLine line = Ok row → valid_train_row row →
  loadTrainsFromCSV_line line st =
  with_trains st
    (trains st ++
     [partly_booked row
        (Z.to_nat (Z.min (wrap32 (row_totalSeats row - row_availableSeats row))
                     (row_totalSeats row)))]).
Proof.
  intros Hp Hv. unfold loadTrainsFromCSV_line. rewrite Hp.
  unfold mbind at 1, Result_bind at 1. rewrite (Train_new_valid _ Hv).
  unfold mbind, Result_bind.
  rewrite (mark_booked_partly_booked _ 0) by lia.
  do 4 f_equal. lia.
Qed.

(** The warning about inconsistent seat data is never printed, whatever the
    line. *)
Lemma loadTrainsFromCSV_line_never_warns line st id :
  WarnInconsistentSeatData id ∈ output (loadTrainsFromCSV_line line st) →
  WarnInconsistentSeatData id ∈ output st.
Proof.
  unfold loadTrainsFromCSV_line.
  destruct (parseTrainLine line) as [row|e] eqn:Hp.
  - unfold mbind at 1, Result_bind at 1.
    destruct (Train_new _ _ _) as [train|e] eqn:Hn.
    + assert (Hv : valid_train_row row).
      { unfold Train_new in Hn. unfold valid_train_row.
        destruct (Z.leb_spec (row_trainId row) 0); [done|].
        destruct (String.eqb_spec (row_trainName row) ""); [done|].
        destruct (Z.leb_spec (row_totalSeats row) 0); [done|]. done. }
      rewrite (Train_new_valid _ Hv) in Hn. injection Hn as <-.
      unfold mbind, Result_bind.
      rewrite (mark_booked_partly_booked _ 0) by lia. done.
    + unfold mbind, Result_bind. cbn.
      rewrite !elem_of_app, !list_elem_of_singleton. by intros [[H|[=]]|[=]].
  - unfold mbind, Result_bind. cbn.
    rewrite !elem_of_app, !list_elem_of_singleton. by intros [[H|[=]]|[=]].
Qed.

Lemma loadTrainsFromCSV_never_warns filename lines st id :
  WarnInconsistentSeatData id ∈
    output (snd (loadTrainsFromCSV filename (Some lines) st)) →
  WarnInconsistentSeatData id ∈ output st.
Proof.
  unfold loadTrainsFromCSV. cbn [snd]. intros H.
  apply elem_of_app in H as [H|H]; [|by apply list_elem_of_singleton in H].
  change (output st) with (output (with_trains st [])).
  revert H. generalize (with_trains st []). generalize (tail lines).
  induction l as [|line l IH]; intros s; [done|]. simpl. intros H.
  apply IH in H. by eapply loadTrainsFromCSV_line_never_warns.
Qed.

(** C6. The row [2001,Test,5,-3] declares eight booked seats on a train of
    five.  The loop stops after five allocations, as its condition
    [i < totalSeats] demands, and so before [bookNextAvailableSeat] can
    throw: the train is stored with all five seats taken and the warning
    about inconsistent seat data, which the handler of the loop would
    print, does not appear in the output. *)
Theorem loadTrainsFromCSV_excess_booked_seats st :
  let st' := snd (loadTrainsFromCSV "trains.csv"
                    (Some ["trainId,trainName,totalSeats,availableSeats";
                           "2001,Test,5,-3"]) st) in
  trains st' = [mkTrain 2001 "Test" 5 [false; false; false; false; false]] ∧
  output st' = (output st ++ [LoadedTrains 1 "trains.csv"])%list ∧
  (WarnInconsistentSeatData 2001 ∈ output st' →
   WarnInconsistentSeatData 2001 ∈ output st).
Proof.
  split; [reflexivity|]. split; [reflexivity|].
  apply loadTrainsFromCSV_never_warns.
Qed.

(** C9. A row that the [Train] constructor accepts and whose declared
    count of available seats exceeds its total makes the loop condition
    false at once: no seat is allocated, the train is appended with all its
    seats available and nothing is printed. *)
Theorem loadTrainsFromCSV_line_surplus_available line row st :
  parseTrainLine line = Ok row →
  valid_train_row row →
  row_totalSeats row < row_availableSeats row →
  let train := mkTrain (row_trainId row) (row_trainName row) (row_totalSeats row)
                 (replicate (Z.to_nat (row_totalSeats row)) true) in
  wrap32 (row_totalSeats row - row_availableSeats row) < 0 ∧
  Train_new (row_trainId row) (row_trainName row) (row_totalSeats row) = Ok train ∧
  mark_booked (Z.to_nat (row_totalSeats row)) 0
    (wrap32 (row_totalSeats row - row_availableSeats row)) train st = (train, st) ∧
  getAvailableSeatsCount train = row_totalSeats row ∧
  trains (loadTrainsFromCSV_line line st) = (trains st ++ [train])%list ∧
  output (loadTrainsFromCSV_line line st) = output st.
Proof.
  intros Hp Hv Hlt train.
  pose proof (parseTrainLine_in_int _ _ Hp) as (_ & Htot & Hav).
  destruct Hv as (Hid & Hname & Hseats).
  assert (Hw : wrap32 (row_totalSeats row - row_availableSeats row) < 0).
  { rewrite wrap32_in_int; [lia|].
    unfold in_int, INT_MIN, INT_MAX in *. lia. }
  assert (Htrain : partly_booked row 0 = train).
  { unfold partly_booked, train. simpl. by rewrite Nat.sub_0_r. }
  split; [done|]. split.
  { rewrite <- Htrain. by apply Train_new_valid. }
  split.
  { destruct (Z.to_nat (row_totalSeats row)) as [|fuel]; [done|]. simpl.
    destruct (Z.ltb_spec 0 (wrap32 (row_totalSeats row - row_availableSeats row)));
      [lia | done]. }
  split.
  { unfold getAvailableSeatsCount, train. simpl.
    assert (∀ n, filter (λ b, b = true) (replicate n true) = replicate n true) as ->.
    { induction n as [|n IH]; [done|]. simpl. rewrite filter_cons.
      rewrite decide_True by done. by rewrite IH. }
    rewrite length_replicate. lia. }
  rewrite (loadTrainsFromCSV_line_valid _ _ _ Hp) by done.
  replace (Z.to_nat _) with 0%nat by lia. by rewrite Htrain.
Qed.

(** C8. When [trains.csv] cannot be opened, [loadTrainsFromCSV] throws
    [FileIOException] with the system untouched; [main] catches it, and the
    registry is the one the constructor built: the trains 1001 to 1004,
    each with 100 seats, all of them available. *)
Theorem missing_trains_csv_keeps_default_trains g clk :
  let st0 := ReservationSystem_new g clk in
  loadTrainsFromCSV "trains.csv" None st0 =
    (Throw (FileIOException "trains.csv" "open"), st0) ∧
  fst (main_loadTrains None st0) = Ok tt ∧
  trains (snd (main_loadTrains None st0)) = trains st0 ∧
  trains st0 =
    [mkTrain 1001 "Express Delhi" 100 (replicate 100 true);
     mkTrain 1002 "Mumbai Local" 100 (replicate 100 true);
     mkTrain 1003 "Chennai Mail" 100 (replicate 100 true);
     mkTrain 1004 "Kolkata Express" 100 (replicate 100 true)] ∧
  Forall (λ t, getAvailableSeatsCount t = 100) (trains st0).
Proof.
  repeat split; try reflexivity.
  repeat constructor.
Qed.

(** ** What loading a row keeps *)

Lemma load_lines_app lines1 lines2 l :
  load_lines (lines1 ++ lines2) l = load_lines lines2 (load_lines lines1 l).
Proof. unfold load_lines. apply foldl_app. Qed.

Lemma line_keeps_taken line l id seat :
  seat_taken (trains (sys l)) id seat →
  seat_taken (trains (sys (loadTicketsFromCSV_line line l))) id seat.
Proof.
  intros Ht. destruct (loadTicketsFromCSV_line_outcome line l)
    as [(-> & _)|(row & ref & train & _ & Hf & _ & _ & ->)]; [done|].
  cbn. by eapply seat_taken_after_take.
Qed.

Lemma line_keeps_entry line l b t :
  bookings (sys l) !! b = Some t →
  bookings (sys (loadTicketsFromCSV_line line l)) !! b = Some t.
Proof.
  intros Hb. destruct (loadTicketsFromCSV_line_outcome line l)
    as [(_ & -> & _)|(row & ref & train & _ & _ & _ & _ & ->)]; [done|].
  cbn. unfold emplace.
  destruct (bookings (sys l) !! row_bookingId row) eqn:Hrow; cbn; [done|].
  rewrite lookup_insert_ne; [done | congruence].
Qed.

Lemma line_keeps_unreferenced line l id seat :
  seat_taken (trains (sys l)) id seat →
  unreferenced (bookings (sys l)) id seat →
  unreferenced (bookings (sys (loadTicketsFromCSV_line line l))) id seat.
Proof.
  intros Ht Hu. destruct (loadTicketsFromCSV_line_outcome line l)
    as [(_ & -> & _)|(row & ref & train & _ & Hf & Hfree & _ & ->)]; [done|].
  intros b t Hb [Hi Hs].
  apply bookings_row_loaded in Hb as [Hold|(_ & Hi' & Hs')].
  - by apply (Hu _ _ Hold).
  - assert (id = row_ticketTrainId row) as -> by congruence.
    assert (seat = row_seatNumber row) as -> by congruence.
    eapply seat_free_not_taken; [|exact Ht].
    exists train. split; [by eapply findTrain_of_ref | done].
Qed.

Lemma lines_keep_taken lines l id seat :
  seat_taken (trains (sys l)) id seat →
  seat_taken (trains (sys (load_lines lines l))) id seat.
Proof.
  revert l. induction lines as [|line lines IH]; intros l H; [done|].
  apply IH. by apply line_keeps_taken.
Qed.

Lemma lines_keep_entry lines l b t :
  bookings (sys l) !! b = Some t →
  bookings (sys (load_lines lines l)) !! b = Some t.
Proof.
  revert l. induction lines as [|line lines IH]; intros l H; [done|].
  apply IH. by apply line_keeps_entry.
Qed.

Lemma lines_keep_unreferenced lines l id seat :
  seat_taken (trains (sys l)) id seat →
  unreferenced (bookings (sys l)) id seat →
  unreferenced (bookings (sys (load_lines lines l))) id seat.
Proof.
  revert l. induction lines as [|line lines IH]; intros l Ht Hu; [done|].
  apply IH; [by apply line_keeps_taken | by apply line_keeps_unreferenced].
Qed.

Lemma loadTicketsFromCSV_line_success line row l :
  parseTicketLine line = Ok row →
  seat_free (trains (sys l)) (row_ticketTrainId row) (row_seatNumber row) →
  valid_ticket_row row →
  ∃ ref train,
    findTrainRef (trains (sys l)) (row_ticketTrainId row) = Ok (ref, train) ∧
    isSeatAvailable train (row_seatNumber row) = Ok true ∧
    loadTicketsFromCSV_line line l = row_loaded row ref train l.
Proof.
  intros Hp (train & Ht & Hfree) Hv.
  apply findTrain_Ok in Ht as [ref Hf]. exists ref, train.
  split; [done|]. split; [done|].
  unfold loadTicketsFromCSV_line. rewrite Hp. by apply loadTicketRow_success.
Qed.

(** C10. Two rows of [tickets.csv] with the same booking id, each naming a
    train that exists and a seat that is available when the row is read,
    the first of them being the first row with that id: at the end of the
    load both seats are marked unavailable, the ledger holds under that id
    the ticket of the first row, each of the two rows has raised
    [loadedTickets] and neither has raised [errorCount], and no ticket of
    the ledger names the seat of the second row. *)
Theorem duplicate_bookingId_rows_leak_a_seat
    header before between after line1 line2 row1 row2 st :
  let l1 := load_lines before (mkTicketLoad (with_bookings st ∅) 0 0) in
  let l1' := loadTicketsFromCSV_line line1 l1 in
  let l2 := load_lines between l1' in
  let l2' := loadTicketsFromCSV_line line2 l2 in
  let final := loadTicketsFromCSV_loop
                 (header :: before ++ line1 :: between ++ line2 :: after) st in
  parseTicketLine line1 = Ok row1 → parseTicketLine line2 = Ok row2 →
  valid_ticket_row row1 → valid_ticket_row row2 →
  row_bookingId row2 = row_bookingId row1 →
  bookings (sys l1) !! row_bookingId row1 = None →
  seat_free (trains (sys l1)) (row_ticketTrainId row1) (row_seatNumber row1) →
  seat_free (trains (sys l2)) (row_ticketTrainId row2) (row_seatNumber row2) →
  seat_taken (trains (sys final)) (row_ticketTrainId row1) (row_seatNumber row1) ∧
  seat_taken (trains (sys final)) (row_ticketTrainId row2) (row_seatNumber row2) ∧
  bookings (sys final) !! row_bookingId row1 =
    Some (ticket_of_row (clock (sys l1) 0%nat) row1) ∧
  loadedTickets l1' = wrap32 (loadedTickets l1 + 1) ∧
  loadedTickets l2' = wrap32 (loadedTickets l2 + 1) ∧
  errorCount l1' = errorCount l1 ∧ errorCount l2' = errorCount l2 ∧
  unreferenced (bookings (sys final)) (row_ticketTrainId row2) (row_seatNumber row2).
Proof.
  intros l1 l1' l2 l2' final Hp1 Hp2 Hv1 Hv2 Hbid Hfresh Hfree1 Hfree2.
  assert (Hfinal : final = load_lines after l2').
  { unfold final, loadTicketsFromCSV_loop. cbn [tail].
    rewrite load_lines_app. cbn [load_lines foldl]. fold (load_lines between).
    change (foldl _ ?l (between ++ line2 :: after))
      with (load_lines (between ++ line2 :: after) l).
    by rewrite load_lines_app. }
  assert (Hc2 : consistent (sys l2)).
  { apply load_lines_consistent, loadTicketsFromCSV_line_consistent,
      load_lines_consistent. by apply consistent_empty. }
  destruct (loadTicketsFromCSV_line_success line1 row1 l1 Hp1 Hfree1 Hv1)
    as (ref1 & train1 & Hf1 & Ha1 & Hstep1).
  destruct (loadTicketsFromCSV_line_success line2 row2 l2 Hp2 Hfree2 Hv2)
    as (ref2 & train2 & Hf2 & Ha2 & Hstep2).
  assert (Hentry1 : bookings (sys l1') !! row_bookingId row1 =
                    Some (ticket_of_row (clock (sys l1) 0%nat) row1)).
  { unfold l1'. rewrite Hstep1. cbn. rewrite emplace_fresh by done.
    cbn. apply lookup_insert_eq. }
  assert (Hentry2 : bookings (sys l2) !! row_bookingId row1 =
                    Some (ticket_of_row (clock (sys l1) 0%nat) row1))
    by by apply lines_keep_entry.
  assert (Hsame : bookings (sys l2') = bookings (sys l2)).
  { unfold l2'. rewrite Hstep2. cbn. rewrite Hbid.
    rewrite emplace_present; [done | by rewrite Hentry2]. }
  assert (Htaken2 : seat_taken (trains (sys l2')) (row_ticketTrainId row2)
                      (row_seatNumber row2)).
  { unfold l2'. rewrite Hstep2. cbn. by apply seat_taken_here. }
  rewrite Hfinal. split.
  { apply lines_keep_taken, line_keeps_taken, lines_keep_taken.
    unfold l1'. rewrite Hstep1. cbn. by apply seat_taken_here. }
  split; [by apply lines_keep_taken|]. split.
  { apply lines_keep_entry. by rewrite Hsame. }
  split; [unfold l1'; by rewrite Hstep1|].
  split; [unfold l2'; by rewrite Hstep2|].
  split; [unfold l1'; by rewrite Hstep1|].
  split; [unfold l2'; by rewrite Hstep2|].
  apply lines_keep_unreferenced; [done|]. rewrite Hsame.
  intros b t Hb [Hi Hs]. destruct Hc2 as [Hinv _]. apply Hinv in Hb.
  rewrite Hi, Hs in Hb. by eapply seat_free_not_taken.
Qed.

(** ** The class invariant of Train in the states of the program *)

(** Every train of every reachable state has a vector of exactly
    [totalSeats] entries, so that [seat_at] is never asked for an entry
    outside the vector by the range-checked member functions. *)

Lemma with_seat_wf t n b : Train_wf t → Train_wf (with_seat t n b).
Proof. unfold Train_wf, with_seat; simpl. by rewrite length_insert. Qed.

Lemma Train_new_wf id name seats t : Train_new id name seats = Ok t → Train_wf t.
Proof.
  unfold Train_new. destruct (id <=? 0); [done|].
  destruct (String.eqb name ""); [done|].
  destruct (Z.leb_spec seats 0); [done|]. intros [= <-].
  unfold Train_wf; simpl. rewrite length_replicate. lia.
Qed.

Lemma mark_booked_wf fuel i booked train st :
  Train_wf train → Train_wf (fst (mark_booked fuel i booked train st)).
Proof.
  revert i train. induction fuel as [|fuel IH]; intros i train Hwf; simpl; [done|].
  destruct ((i <? booked) && (i <? totalSeats train)); [|done].
  destruct (bookNextAvailableSeat train) as [[n t']|e] eqn:Hb; [|done].
  apply IH. apply bookNextAvailableSeat_Ok in Hb as (_ & _ & _ & ->).
  by apply with_seat_wf.
Qed.

Lemma store_wf ts id ref train seat b :
  Forall Train_wf ts → findTrainRef ts id = Ok (ref, train) →
  Forall Train_wf (<[ref := with_seat train seat b]> ts).
Proof.
  intros Hall Hf. apply Forall_insert; [done|]. apply with_seat_wf.
  apply findTrainRef_Ok in Hf as [Href _].
  by eapply (proj1 (Forall_lookup _ _) Hall).
Qed.

Lemma loadTrainsFromCSV_line_wf line st :
  Forall Train_wf (trains st) →
  Forall Train_wf (trains (loadTrainsFromCSV_line line st)).
Proof.
  intros Hall. unfold loadTrainsFromCSV_line.
  destruct (parseTrainLine line) as [row|e]; [|done].
  unfold mbind at 1, Result_bind at 1.
  destruct (Train_new _ _ _) as [train|e] eqn:Hn; [|done].
  unfold mbind, Result_bind. apply Train_new_wf in Hn.
  pose proof (mark_booked_wf (Z.to_nat (row_totalSeats row)) 0
    (wrap32 (row_totalSeats row - row_availableSeats row)) train st Hn) as Hm.
  assert (Ht : trains (snd (mark_booked (Z.to_nat (row_totalSeats row)) 0
    (wrap32 (row_totalSeats row - row_availableSeats row)) train st)) = trains st).
  { generalize (Z.to_nat (row_totalSeats row)) 0 train. clear.
    induction n as [|n IH]; intros i train; simpl; [done|].
    destruct ((i <? _) && (i <? totalSeats train)); [|done].
    destruct (bookNextAvailableSeat train) as [[k t']|e]; [apply IH | done]. }
  destruct (mark_booked _ _ _ _ _) as [train' st']. simpl in *.
  rewrite Ht. apply Forall_app. split; [done|]. by constructor.
Qed.

Lemma loadTrainsFromCSV_wf filename file st :
  Forall Train_wf (trains st) →
  Forall Train_wf (trains (snd (loadTrainsFromCSV filename file st))).
Proof.
  intros Hall. unfold loadTrainsFromCSV. destruct file as [lines|]; [|done].
  cbn. assert (Hnil : Forall Train_wf (trains (with_trains st []))) by constructor.
  revert Hnil. generalize (with_trains st []). generalize (tail lines).
  induction l as [|line l IH]; intros s Hs; [done|]. simpl.
  apply IH. by apply loadTrainsFromCSV_line_wf.
Qed.

Lemma load_lines_wf lines l :
  Forall Train_wf (trains (sys l)) →
  Forall Train_wf (trains (sys (load_lines lines l))).
Proof.
  revert l. induction lines as [|line lines IH]; intros l Hall; [done|].
  apply IH. destruct (loadTicketsFromCSV_line_outcome line l)
    as [(-> & _)|(row & ref & train & _ & Hf & _ & _ & ->)]; [done|].
  cbn. by eapply store_wf.
Qed.

Lemma push_trains_wf specs st :
  Forall Train_wf (trains st) → Forall Train_wf (trains (push_trains specs st)).
Proof.
  revert st. induction specs as [|[[id name] seats] specs IH]; intros st Hall; [done|].
  simpl. destruct (Train_new id name seats) as [t|e] eqn:Hn; [|done].
  apply IH. cbn. apply Forall_app. split; [done|].
  constructor; [by eapply Train_new_wf | constructor].
Qed.

Lemma main_startup_wf trains_csv tickets_csv g clk r st :
  main_startup trains_csv tickets_csv g clk = (r, st) →
  Forall Train_wf (trains st).
Proof.
  unfold main_startup, main_loadTrains.
  pose proof (loadTrainsFromCSV_wf "trains.csv" trains_csv
                (ReservationSystem_new g clk)) as Hwf.
  assert (H0 : Forall Train_wf (trains (ReservationSystem_new g clk))).
  { apply push_trains_wf. constructor. }
  specialize (Hwf H0).
  destruct (loadTrainsFromCSV _ _ _) as [r1 st1]. simpl in Hwf.
  assert (Htickets : ∀ s r' st', Forall Train_wf (trains s) →
            main_loadTickets tickets_csv s = (r', st') →
            Forall Train_wf (trains st')).
  { intros s r' st' Hs. unfold main_loadTickets, loadTicketsFromCSV.
    destruct tickets_csv as [lines|].
    - intros [= _ <-].
      assert (Forall Train_wf (trains (sys (loadTicketsFromCSV_loop lines s))))
        by (by apply load_lines_wf).
      by destruct (_ >? _).
    - by intros [= _ <-]. }
  destruct r1 as [[]|e].
  - by apply Htickets.
  - destruct e; try (by intros [= _ <-]). by apply Htickets.
Qed.

Lemma reachable_trains_wf st : reachable st → Forall Train_wf (trains st).
Proof.
  induction 1 as [? ? ? ? ? Hs | ? ? ? ? ? ? _ IH Hb | ? bid _ IH | ? ? _ IH | ? ? _ IH].
  - by eapply main_startup_wf.
  - apply bookTicket_outcome in Hb
      as [(_ & -> & _) | (b & ref & train & seat & _ & _ & _ & _ & Hf & _ & -> & _)];
      [done|]. by eapply store_wf.
  - destruct (cancelTicket_outcome bid st)
      as [(_ & -> & _) | (ticket & ref & train & _ & _ & Hf & _ & -> & _)];
      [done|]. by eapply store_wf.
  - unfold checkTicketStatus. by destruct (findTicket _ _).
  - unfold checkSeatAvailability. destruct (findTrain _ _); [|done].
    by destruct (_ =? 0).
Qed.

(** ** Booking time of a loaded ticket *)

(** The ticket stored for a row carries the time at which the file is
    loaded: the row's own booking time plays no part. *)
Lemma loaded_ticket_bookingTime line row l :
  seat_free (trains (sys l)) (row_ticketTrainId row) (row_seatNumber row) →
  valid_ticket_row row →
  bookings (sys l) !! row_bookingId row = None →
  ∃ t, bookings (sys (loadTicketRow line row l)) !! row_bookingId row = Some t ∧
       bookingTime t = format_time (clock (sys l) 0%nat).
Proof.
  intros (train & Ht & Hfree) Hv Hfresh.
  apply findTrain_Ok in Ht as [ref Hf].
  rewrite (loadTicketRow_success _ _ _ _ _ Hf Hfree Hv). cbn.
  rewrite emplace_fresh by done. cbn. rewrite lookup_insert_eq. eauto.
Qed.

(** C5. The row [BK00000001,1001,1,Alice,01/01/2020 10:00:00] is read
    while the clock shows 30 October 2026, 12:00:00.  The line parses with
    the booking time of the file, the train exists and seat 1 is available,
    and the ticket stored in the ledger has the time of the load as its
    booking time, not the one read from the row. *)
Theorem loadTicketsFromCSV_bookingTime_replaced :
  let line := "BK00000001,1001,1,Alice,01/01/2020 10:00:00" in
  let st' := snd (loadTicketsFromCSV "tickets.csv"
                    (Some ["bookingId,trainId,seatNumber,passengerName,bookingTime";
                           line]) demo_system) in
  parseTicketLine line =
    Ok (mkTicketRow "BK00000001" 1001 1 "Alice" "01/01/2020 10:00:00") ∧
  seat_free (trains demo_system) 1001 1 ∧
  bookings st' !! "BK00000001" =
    Some (mkTicket "BK00000001" 1001 1 "Alice" "10/30/2026 12:00:00") ∧
  bookingTime <$> bookings st' !! "BK00000001" ≠ Some "01/01/2020 10:00:00".
Proof.
  split; [reflexivity|]. split.
  { eexists. split; reflexivity. }
  assert (H : bookings (snd (loadTicketsFromCSV "tickets.csv"
              (Some ["bookingId,trainId,seatNumber,passengerName,bookingTime";
                     "BK00000001,1001,1,Alice,01/01/2020 10:00:00"]) demo_system))
              !! "BK00000001" =
            Some (mkTicket "BK00000001" 1001 1 "Alice" "10/30/2026 12:00:00"))
    by (vm_compute; reflexivity).
  split; [exact H|]. cbv zeta. rewrite H. discriminate.
Qed.

(** ** Inserting under a booking id already present *)

(** C7, as the code has it.  [emplace] under a booking id already present
    leaves the ledger as it is and yields [false].  [loadTicketsFromCSV]
    does not look at that flag: for a row whose id is present, whose train
    exists and whose seat is available, the row is counted in
    [loadedTickets], [errorCount] stays and nothing is printed. *)
Theorem emplace_present_key_is_silent line row l :
  is_Some (bookings (sys l) !! row_bookingId row) →
  seat_free (trains (sys l)) (row_ticketTrainId row) (row_seatNumber row) →
  valid_ticket_row row →
  let l' := loadTicketRow line row l in
  (∀ t, emplace (row_bookingId row) t (bookings (sys l)) = (bookings (sys l), false)) ∧
  bookings (sys l') = bookings (sys l) ∧
  loadedTickets l' = wrap32 (loadedTickets l + 1) ∧
  errorCount l' = errorCount l ∧
  output (sys l') = output (sys l).
Proof.
  intros Hin (train & Ht & Hfree) Hv l'.
  apply findTrain_Ok in Ht as [ref Hf].
  split; [intros t; by apply emplace_present|].
  unfold l'. rewrite (loadTicketRow_success _ _ _ _ _ Hf Hfree Hv). cbn.
  by rewrite emplace_present.
Qed.

(** The insertion of C7 at work: with [BK00000001] in the ledger, a further
    row under that id is processed without any failure being reported, and
    the ledger is left as it was. *)
Lemma duplicate_insert_reports_nothing :
  let l := demo_one_loaded in
  let l' := loadTicketsFromCSV_line
              "BK00000001,1001,2,Bob,02/02/2020 10:00:00" l in
  is_Some (bookings (sys l) !! "BK00000001") ∧
  bookings (sys l') = bookings (sys l) ∧
  ¬ insert_reported_failure l l'.
Proof.
  split; [vm_compute; eauto|]. split; [vm_compute; reflexivity|].
  intros [H|[H|H]].
  - apply H. vm_compute. reflexivity.
  - vm_compute in H. discriminate.
  - apply H. vm_compute. reflexivity.
Qed.

(** ** The theorems at work on a concrete run *)

Lemma demo_booked_reachable : reachable demo_booked.
Proof.
  apply (reach_bookTicket demo_started 1 1001 "Asha" "BKABCDEFGH" demo_booked).
  - apply (reach_startup None None demo_gen demo_clock). reflexivity.
  - vm_compute. reflexivity.
Defined.

Lemma ticket_implies_seat_taken_witness :
  reachable demo_booked ∧
  ∃ train, findTrain (trains demo_booked) 1001 = Ok train ∧
           isSeatAvailable train 1 = Ok false.
Proof.
  split; [exact demo_booked_reachable|].
  apply (ticket_implies_seat_taken demo_booked "BKABCDEFGH"
           (mkTicket "BKABCDEFGH" 1001 1 "Asha" "10/30/2026 12:00:00")).
  - exact demo_booked_reachable.
  - vm_compute. reflexivity.
Defined.

Lemma bookTicket_all_or_nothing_witness :
  bookTicket 1 1001 "Asha" demo_started = Some (Ok "BKABCDEFGH", demo_booked) ∧
  ∃ bid, (Ok "BKABCDEFGH" : Result string) = Ok bid ∧
    (bid = "" → trains demo_booked = trains demo_started ∧
                bookings demo_booked = bookings demo_started) ∧
    (bid ≠ "" →
       ∃ ref train seat ticket,
         findTrainRef (trains demo_started) 1001 = Ok (ref, train) ∧
         isSeatAvailable train seat = Ok true ∧
         trains demo_booked =
           <[ref := with_seat train seat false]> (trains demo_started) ∧
         bookings demo_started !! bid = None ∧
         bookings demo_booked = <[bid := ticket]> (bookings demo_started)) ∧
    ("Asha" = "" ∨ (∃ e, findTrain (trains demo_started) 1001 = Throw e) ∨
     (∃ train e, findTrain (trains demo_started) 1001 = Ok train ∧
                 bookNextAvailableSeat train = Throw e) ∨
     (∃ now bid' seat e, Ticket_new now bid' 1001 seat "Asha" = Throw e ∧
                         bid' ≠ "" ∧ 0 < seat) →
     bid = "").
Proof.
  split; [vm_compute; reflexivity|].
  apply (bookTicket_all_or_nothing 1 1001 "Asha" demo_started).
  vm_compute. reflexivity.
Defined.

Lemma cancelTicket_undoes_bookTicket_witness :
  bookTicket 1 1001 "Asha" demo_started = Some (Ok "BKABCDEFGH", demo_booked) ∧
  ∃ train train1 st2,
    findTrain (trains demo_started) 1001 = Ok train ∧
    0 < getAvailableSeatsCount train ∧ "Asha" ≠ "" ∧
    findTrain (trains demo_booked) 1001 = Ok train1 ∧
    getAvailableSeatsCount train1 = getAvailableSeatsCount train - 1 ∧
    cancelTicket "BKABCDEFGH" demo_booked = (true, st2) ∧
    trains st2 = trains demo_started ∧ bookings st2 = bookings demo_started ∧
    findTrain (trains st2) 1001 = Ok train ∧
    findTicket (bookings st2) "BKABCDEFGH" =
      Throw (TicketNotFoundException "BKABCDEFGH") ∧
    fst (checkTicketStatus "BKABCDEFGH" st2) = false.
Proof.
  split; [vm_compute; reflexivity|].
  apply (cancelTicket_undoes_bookTicket 1 1001 "Asha" demo_started).
  - vm_compute. reflexivity.
  - discriminate.
Defined.

Lemma loadTrainsFromCSV_line_surplus_available_witness :
  let row := mkTrainRow 2003 "Coastal" 3 7 in
  let train := mkTrain 2003 "Coastal" 3 [true; true; true] in
  parseTrainLine "2003,Coastal,3,7" = Ok row ∧
  wrap32 (3 - 7) < 0 ∧
  Train_new 2003 "Coastal" 3 = Ok train ∧
  mark_booked 3 0 (wrap32 (3 - 7)) train demo_system = (train, demo_system) ∧
  getAvailableSeatsCount train = 3 ∧
  trains (loadTrainsFromCSV_line "2003,Coastal,3,7" demo_system) =
    (trains demo_system ++ [train])%list ∧
  output (loadTrainsFromCSV_line "2003,Coastal,3,7" demo_system) =
    output demo_system.
Proof.
  split; [reflexivity|].
  apply (loadTrainsFromCSV_line_surplus_available "2003,Coastal,3,7"
           (mkTrainRow 2003 "Coastal" 3 7) demo_system).
  - reflexivity.
  - unfold valid_train_row. simpl. repeat split; try lia; discriminate.
  - simpl. lia.
Defined.

Lemma emplace_present_key_is_silent_witness :
  let line := "BK00000001,1001,2,Bob,02/02/2020 10:00:00" in
  let row := mkTicketRow "BK00000001" 1001 2 "Bob" "02/02/2020 10:00:00" in
  let l := demo_one_loaded in
  let l' := loadTicketRow line row l in
  is_Some (bookings (sys l) !! "BK00000001") ∧
  (∀ t, emplace "BK00000001" t (bookings (sys l)) = (bookings (sys l), false)) ∧
  bookings (sys l') = bookings (sys l) ∧
  loadedTickets l' = wrap32 (loadedTickets l + 1) ∧
  errorCount l' = errorCount l ∧
  output (sys l') = output (sys l).
Proof.
  split; [vm_compute; eauto|].
  apply (emplace_present_key_is_silent
           "BK00000001,1001,2,Bob,02/02/2020 10:00:00"
           (mkTicketRow "BK00000001" 1001 2 "Bob" "02/02/2020 10:00:00")
           demo_one_loaded).
  - vm_compute. eauto.
  - eexists. split; vm_compute; reflexivity.
  - unfold valid_ticket_row. simpl. repeat split; try lia; discriminate.
Defined.

Lemma duplicate_bookingId_rows_leak_a_seat_witness :
  let row1 := mkTicketRow "BK00000001" 1001 1 "Alice" "01/01/2020 10:00:00" in
  let row2 := mkTicketRow "BK00000001" 1001 2 "Bob" "02/02/2020 10:00:00" in
  let final := loadTicketsFromCSV_loop
                 [demo_tickets_header;
                  "BK00000001,1001,1,Alice,01/01/2020 10:00:00";
                  "BK00000001,1001,2,Bob,02/02/2020 10:00:00"] demo_system in
  seat_free (trains demo_system) 1001 1 ∧
  seat_free (trains (sys demo_one_loaded)) 1001 2 ∧
  seat_taken (trains (sys final)) 1001 1 ∧
  seat_taken (trains (sys final)) 1001 2 ∧
  bookings (sys final) !! "BK00000001" =
    Some (ticket_of_row (demo_clock 0%nat) row1) ∧
  loadedTickets final = 2 ∧ errorCount final = 0 ∧
  unreferenced (bookings (sys final)) 1001 2.
Proof.
  assert (H1 : seat_free (trains demo_system) 1001 1)
    by (eexists; split; vm_compute; reflexivity).
  assert (H2 : seat_free (trains (sys demo_one_loaded)) 1001 2)
    by (eexists; split; vm_compute; reflexivity).
  split; [exact H1|]. split; [exact H2|].
  destruct (duplicate_bookingId_rows_leak_a_seat demo_tickets_header [] [] []
              "BK00000001,1001,1,Alice,01/01/2020 10:00:00"
              "BK00000001,1001,2,Bob,02/02/2020 10:00:00"
              (mkTicketRow "BK00000001" 1001 1 "Alice" "01/01/2020 10:00:00")
              (mkTicketRow "BK00000001" 1001 2 "Bob" "02/02/2020 10:00:00")
              demo_system)
    as (Ht1 & Ht2 & Hb & _ & _ & _ & _ & Hu).
  - reflexivity.
  - reflexivity.
  - unfold valid_ticket_row. simpl. repeat split; try lia; discriminate.
  - unfold valid_ticket_row. simpl. repeat split; try lia; discriminate.
  - reflexivity.
  - vm_compute. reflexivity.
  - exact H1.
  - exact H2.
  - split; [exact Ht1|]. split; [exact Ht2|]. split; [exact Hb|].
    split; [vm_compute; reflexivity|]. split; [vm_compute; reflexivity|].
    exact Hu.
Defined.

(** * Further properties of the code *)

(** ** class Train *)

Lemma count_none_available (seats : list bool) :
  (∀ i, seat_at seats i = false) →
  length (filter (λ b, b = true) seats) = 0%nat.
Proof.
  induction seats as [|b seats IH]; intros H; [done|].
  rewrite filter_cons. pose proof (H 0%nat) as H0. unfold seat_at in H0.
  simpl in H0. subst b. destruct (decide (false = true)); [done|].
  apply IH. intros i. exact (H (S i)).
Qed.

Lemma count_after_release (seats : list bool) i :
  seats !! i = Some false →
  length (filter (λ b, b = true) (<[i := true]> seats)) =
  S (length (filter (λ b, b = true) seats)).
Proof.
  revert i. induction seats as [|b seats IH]; intros i; [done|].
  destruct i as [|i]; simpl.
  - intros [= ->]. rewrite !filter_cons.
    destruct (decide (false = true)); [done|].
    destruct (decide (true = true)); [done | done].
  - intros H. rewrite !filter_cons. specialize (IH i H).
    destruct (decide (b = true)); simpl; lia.
Qed.

Lemma seat_at_false_lookup t n :
  Train_wf t → 1 ≤ n ≤ totalSeats t →
  seat_at (seatAvailability t) (Z.to_nat (n - 1)) = false →
  seatAvailability t !! Z.to_nat (n - 1) = Some false.
Proof.
  unfold Train_wf, seat_at. intros Hwf Hr.
  destruct (seatAvailability t !! Z.to_nat (n - 1)) as [[]|] eqn:Hl; [done|done|].
  apply lookup_ge_None in Hl. lia.
Qed.

(** X1. The constructor accepts exactly a positive id, a non-empty name
    and a positive number of seats, checked in that order; the train it
    builds has [totalSeats] entries, every seat from 1 to [totalSeats]
    available and none outside that range. *)
Theorem Train_new_all_seats_available id name seats :
  match Train_new id name seats with
  | Ok t =>
      0 < id ∧ name ≠ "" ∧ 0 < seats ∧
      trainId t = id ∧ trainName t = name ∧ totalSeats t = seats ∧
      Train_wf t ∧ getAvailableSeatsCount t = seats ∧
      ∀ n, isSeatAvailable t n =
           if (n <? 1) || (n >? seats)
           then Throw (SeatNotFoundException id n) else Ok true
  | Throw e =>
      (id ≤ 0 ∧ e = InvalidInputException "Train ID must be positive") ∨
      (0 < id ∧ name = "" ∧
       e = InvalidInputException "Train name cannot be empty") ∨
      (0 < id ∧ name ≠ "" ∧ seats ≤ 0 ∧
       e = InvalidInputException "Number of seats must be positive")
  end.
Proof.
  unfold Train_new.
  destruct (Z.leb_spec id 0) as [|Hid]; [by left|].
  destruct (String.eqb_spec name "") as [|Hname]; [right; by left|].
  destruct (Z.leb_spec seats 0) as [|Hseats]; [right; by right|].
  split_and!; try done; [| |intros n].
  - unfold Train_wf; simpl. rewrite length_replicate. lia.
  - unfold getAvailableSeatsCount; simpl.
    assert (∀ k, filter (λ b, b = true) (replicate k true) = replicate k true) as ->.
    { induction k as [|k IH]; [done|]. simpl. rewrite filter_cons.
      rewrite decide_True by done. by rewrite IH. }
    rewrite length_replicate. lia.
  - unfold isSeatAvailable; simpl.
    destruct ((n <? 1) || (n >? seats)) eqn:Hr; [done|].
    apply orb_false_iff in Hr as [H1 H2].
    apply Z.ltb_ge in H1. rewrite Z.gtb_ltb in H2. apply Z.ltb_ge in H2.
    unfold seat_at. rewrite lookup_replicate_2 by lia. done.
Qed.

Lemma bookNextAvailableSeat_Throw_count t e :
  Train_wf t → bookNextAvailableSeat t = Throw e →
  getAvailableSeatsCount t = 0.
Proof.
  intros Hwf Hb. apply bookNextAvailableSeat_Throw in Hb as [_ Hnone].
  unfold getAvailableSeatsCount. rewrite count_none_available; [done|].
  intros i. destruct (seat_at (seatAvailability t) i) eqn:Hi; [|done].
  exfalso. apply (Hnone (Z.of_nat i + 1)). apply isSeatAvailable_Ok.
  apply seat_at_true in Hi. pose proof (lookup_lt_Some _ _ _ Hi).
  unfold Train_wf in Hwf. split; [lia|].
  replace (Z.to_nat (Z.of_nat i + 1 - 1)) with i by lia. by apply seat_at_true.
Qed.

(** X2. For a train whose vector has [totalSeats] entries the count of
    available seats lies between 0 and [totalSeats];
    [bookNextAvailableSeat] throws exactly when that count is 0 and
    otherwise lowers it by one. *)
Theorem bookNextAvailableSeat_count t :
  Train_wf t →
  0 ≤ getAvailableSeatsCount t ≤ totalSeats t ∧
  match bookNextAvailableSeat t with
  | Ok (n, t') =>
      0 < getAvailableSeatsCount t ∧
      getAvailableSeatsCount t' = getAvailableSeatsCount t - 1 ∧ Train_wf t'
  | Throw e => getAvailableSeatsCount t = 0
  end.
Proof.
  intros Hwf. split.
  { unfold getAvailableSeatsCount. unfold Train_wf in Hwf.
    pose proof (length_filter (λ b, b = true) (seatAvailability t)). lia. }
  destruct (bookNextAvailableSeat t) as [[n t']|e] eqn:Hb.
  - apply bookNextAvailableSeat_Ok in Hb as (Hr & Hseat & _ & ->).
    pose proof (getAvailableSeatsCount_after_take _ _ Hseat) as Hc.
    split; [|split; [done | by apply with_seat_wf]].
    assert (0 ≤ getAvailableSeatsCount (with_seat t n false))
      by (unfold getAvailableSeatsCount; lia). lia.
  - by eapply bookNextAvailableSeat_Throw_count.
Qed.

(** X3. A seat reserved by [bookSpecificSeat] cannot be reserved again, the
    count of available seats has gone down by one, and [cancelSeat] on it
    gives back the train as it was. *)
Theorem bookSpecificSeat_then_cancelSeat t n t' :
  bookSpecificSeat t n = Ok (true, t') →
  getAvailableSeatsCount t' = getAvailableSeatsCount t - 1 ∧
  bookSpecificSeat t' n = Ok (false, t') ∧
  cancelSeat t' n = Ok (true, t).
Proof.
  intros H. apply bookSpecificSeat_Ok in H as (Hr & Hfree & ->).
  apply isSeatAvailable_Ok in Hfree as [_ Hs]. apply seat_at_true in Hs.
  split; [by apply getAvailableSeatsCount_after_take|]. split.
  - unfold bookSpecificSeat.
    replace (totalSeats (with_seat t n false)) with (totalSeats t) by done.
    rewrite (proj2 (range_check_false t n) Hr). cbv zeta. simpl seatAvailability.
    rewrite seat_at_insert_eq by (by eapply lookup_lt_Some). done.
  - by apply cancelSeat_after_booking.
Qed.

(** X4. A seat released by [cancelSeat] cannot be released again, the count
    of available seats has gone up by one, and [bookSpecificSeat] on it gives
    back the train as it was. *)
Theorem cancelSeat_then_bookSpecificSeat t n t' :
  Train_wf t →
  cancelSeat t n = Ok (true, t') →
  getAvailableSeatsCount t' = getAvailableSeatsCount t + 1 ∧
  cancelSeat t' n = Ok (false, t') ∧
  bookSpecificSeat t' n = Ok (true, t).
Proof.
  intros Hwf H. apply cancelSeat_Ok in H as (Hr & Htaken & ->).
  apply isSeatAvailable_Ok in Htaken as [_ Hs].
  pose proof (seat_at_false_lookup _ _ Hwf Hr Hs) as Hl.
  pose proof (lookup_lt_Some _ _ _ Hl) as Hlt.
  split.
  { unfold getAvailableSeatsCount, with_seat. simpl.
    rewrite (count_after_release _ _ Hl). lia. }
  split.
  - unfold cancelSeat.
    replace (totalSeats (with_seat t n true)) with (totalSeats t) by done.
    rewrite (proj2 (range_check_false t n) Hr). cbv zeta. simpl seatAvailability.
    rewrite seat_at_insert_eq by done. done.
  - unfold bookSpecificSeat.
    replace (totalSeats (with_seat t n true)) with (totalSeats t) by done.
    rewrite (proj2 (range_check_false t n) Hr). cbv zeta. simpl seatAvailability.
    rewrite seat_at_insert_eq by done. do 3 f_equal.
    destruct t as [id name total seats]. unfold with_seat, set_seats. simpl in *.
    rewrite list_insert_insert_eq. by rewrite list_insert_id.
Qed.

Lemma count_partly_booked row k :
  (k ≤ Z.to_nat (row_totalSeats row))%nat → 0 ≤ row_totalSeats row →
  getAvailableSeatsCount (partly_booked row k) = row_totalSeats row - Z.of_nat k.
Proof.
  intros Hk Hn. unfold getAvailableSeatsCount, partly_booked. simpl.
  rewrite filter_app, length_app.
  assert (∀ j, filter (λ b, b = true) (replicate j false) = []) as ->.
  { induction j as [|j IH]; [done|]. simpl. rewrite filter_cons.
    by destruct (decide (false = true)). }
  assert (∀ j, filter (λ b, b = true) (replicate j true) = replicate j true) as ->.
  { induction j as [|j IH]; [done|]. simpl. rewrite filter_cons.
    rewrite decide_True by done. by rewrite IH. }
  rewrite length_replicate. simpl. lia.
Qed.

Lemma book_seats_partly_booked row j k :
  (j + k ≤ Z.to_nat (row_totalSeats row))%nat →
  book_seats k (partly_booked row j) =
  Ok ((λ i, Z.of_nat i) <$> seq (S j) k, partly_booked row (j + k)).
Proof.
  revert j. induction k as [|k IH]; intros j Hk; simpl.
  - by rewrite Nat.add_0_r.
  - rewrite bookNextAvailableSeat_partly_booked by lia.
    rewrite IH by lia. f_equal. f_equal; [f_equal; lia | f_equal; lia].
Qed.

Lemma bookNextAvailableSeat_all_booked row :
  bookNextAvailableSeat (partly_booked row (Z.to_nat (row_totalSeats row))) =
  Throw (NoSeatsAvailableException (row_trainId row)).
Proof.
  unfold bookNextAvailableSeat. simpl.
  rewrite (proj2 (scan_seats_None _ _ _)); [done|].
  intros j _. unfold seat_at. rewrite Nat.sub_diag. simpl. rewrite app_nil_r.
  destruct (replicate _ false !! j) as [b|] eqn:Hl; [|done].
  by apply lookup_replicate in Hl as [-> _].
Qed.

(** X5. On a train just built with [seats] seats, successive calls of
    [bookNextAvailableSeat] return the seat numbers 1, 2, 3, ... in that
    order; after [k] of them [seats - k] seats are available, and the
    call that follows the [seats]-th throws [NoSeatsAvailableException]. *)
Theorem book_seats_in_order id name seats t k :
  Train_new id name seats = Ok t →
  (k ≤ Z.to_nat seats)%nat →
  (∃ t', book_seats k t = Ok ((λ i, Z.of_nat i) <$> seq 1 k, t') ∧
         getAvailableSeatsCount t' = seats - Z.of_nat k) ∧
  book_seats (S (Z.to_nat seats)) t = Throw (NoSeatsAvailableException id).
Proof.
  intros Hnew Hk.
  set (row := mkTrainRow id name seats 0).
  assert (Hv : valid_train_row row).
  { pose proof (Train_new_wf _ _ _ _ Hnew) as _. unfold Train_new in Hnew.
    unfold valid_train_row, row. simpl.
    destruct (Z.leb_spec id 0); [done|].
    destruct (String.eqb_spec name ""); [done|].
    destruct (Z.leb_spec seats 0); done. }
  pose proof (Train_new_valid row Hv) as Hrow. simpl in Hrow.
  rewrite Hrow in Hnew. injection Hnew as <-.
  split.
  - exists (partly_booked row k).
    rewrite (book_seats_partly_booked row 0 k) by (simpl; lia).
    split; [done|]. rewrite count_partly_booked; simpl; [done | lia |].
    destruct Hv as (_ & _ & Hs). simpl in Hs. lia.
  - replace (S (Z.to_nat seats)) with (Z.to_nat seats + 1)%nat by lia.
    assert (Hsplit : ∀ a b t0 ns t1,
              book_seats a t0 = Ok (ns, t1) →
              book_seats (a + b) t0 =
              match book_seats b t1 with
              | Ok (ms, t2) => Ok ((ns ++ ms)%list, t2)
              | Throw e => Throw e
              end).
    { induction a as [|a IH]; intros b t0 ns t1; simpl.
      - intros [= <- <-]. by destruct (book_seats b t0) as [[ms t2]|e].
      - destruct (bookNextAvailableSeat t0) as [[n t0']|e]; [|done].
        destruct (book_seats a t0') as [[ns' t1']|e] eqn:Ha; [|done].
        intros [= <- <-]. rewrite (IH b t0' ns' t1' Ha).
        by destruct (book_seats b t1') as [[ms t2]|e]. }
    rewrite (Hsplit _ 1%nat _ _ _
               (book_seats_partly_booked row 0 (Z.to_nat seats) (le_n _))).
    simpl. change seats with (row_totalSeats row) at 1.
    by rewrite bookNextAvailableSeat_all_booked.
Qed.

(** ** generateBookingId *)

Lemma str_app_cons c s t : String c s +:+ t = String c (s +:+ t).
Proof. reflexivity. Qed.

Lemma str_app_nil_l s : "" +:+ s = s.
Proof. reflexivity. Qed.

Lemma str_app_nil_r s : s +:+ "" = s.
Proof. induction s as [|c s IH]; [done|]. by rewrite str_app_cons, IH. Qed.

Lemma str_app_assoc s t u : (s +:+ t) +:+ u = s +:+ (t +:+ u).
Proof.
  induction s as [|c s IH]; [done|]. by rewrite !str_app_cons, IH.
Qed.

Lemma str_length_app s t :
  String.length (s +:+ t) = (String.length s + String.length t)%nat.
Proof.
  induction s as [|c s IH]; [done|]. rewrite str_app_cons. simpl. by rewrite IH.
Qed.

Lemma string_over_app a s t :
  string_over a (s +:+ t) = string_over a s && string_over a t.
Proof.
  induction s as [|c s IH]; [done|]. rewrite str_app_cons. simpl.
  by rewrite IH, andb_assoc.
Qed.

Lemma char_at_chars k :
  (k < String.length chars)%nat →
  string_over chars (String (char_at chars k) "") = true.
Proof.
  intros Hk. simpl in Hk.
  do 36 (destruct k as [|k]; [reflexivity|]). lia.
Qed.

Lemma draw_chars_suffix n id g :
  ∃ suffix, fst (draw_chars n id g) = id +:+ suffix ∧
            String.length suffix = n ∧ string_over chars suffix = true.
Proof.
  revert id g. induction n as [|n IH]; intros id g.
  - exists "". by rewrite str_app_nil_r.
  - cbn [draw_chars dis].
    destruct (IH (id +:+ String (char_at chars (g 0%nat mod String.length chars)) "")
                (λ n, g (S n))) as (suffix & -> & Hlen & Hover).
    exists (String (char_at chars (g 0%nat mod String.length chars)) suffix).
    split; [by rewrite str_app_assoc|]. split; [simpl; by rewrite Hlen|].
    change (String ?c suffix) with (String c "" +:+ suffix).
    rewrite string_over_app, Hover, andb_true_r. apply char_at_chars.
    apply Nat.mod_upper_bound. done.
Qed.

Lemma generateBookingId_first_fresh fuel bk g id g' :
  generateBookingId fuel bk g = Some (id, g') →
  ∃ k, (k < fuel)%nat ∧ id = candidate k g ∧ g' = gen_after (S k) g ∧
       ∀ j, (j < k)%nat → is_Some (bk !! candidate j g).
Proof.
  revert g. induction fuel as [|fuel IH]; intros g; [done|].
  cbn [generateBookingId].
  destruct (draw_chars 8 "BK" g) as [c g1] eqn:Hd.
  destruct (bk !! c) eqn:Hc.
  - intros H. destruct (IH _ H) as (k & Hk & -> & -> & Hbefore).
    exists (S k). split; [lia|]. unfold candidate. cbn [gen_after].
    rewrite !Hd. cbn [snd]. split; [done|]. split; [done|].
    intros [|j] Hj.
    + cbn [gen_after]. rewrite Hd. cbn [fst]. by rewrite Hc.
    + cbn [gen_after]. rewrite Hd. cbn [snd]. apply Hbefore. lia.
  - intros [= <- <-]. exists 0%nat. split; [lia|]. unfold candidate.
    cbn [gen_after]. rewrite Hd. split; [done|]. split; [done|]. intros; lia.
Qed.

(** X6. A booking id returned by [generateBookingId] is absent from the
    ledger and is the first candidate drawn from the generator that is:
    every candidate drawn before it is a key of the ledger.  It consists of
    [BK] followed by eight characters of the 36-character alphabet, ten
    characters in all. *)
Theorem generateBookingId_format fuel bk g id g' :
  generateBookingId fuel bk g = Some (id, g') →
  bk !! id = None ∧
  (∃ suffix, id = "BK" +:+ suffix ∧ String.length suffix = 8%nat ∧
             string_over chars suffix = true) ∧
  String.length id = 10%nat ∧
  ∃ k, (k < fuel)%nat ∧ id = candidate k g ∧ g' = gen_after (S k) g ∧
       ∀ j, (j < k)%nat → is_Some (bk !! candidate j g).
Proof.
  intros H. pose proof (generateBookingId_Some _ _ _ _ _ H) as (Hfresh & _ & _).
  destruct (generateBookingId_first_fresh _ _ _ _ _ H) as (k & Hk & Hid & Hg & Hb).
  destruct (draw_chars_suffix 8 "BK" (gen_after k g)) as (suffix & Hs & Hlen & Hover).
  fold (candidate k g) in Hs. rewrite <- Hid in Hs.
  split; [done|]. split; [by exists suffix|]. split.
  - rewrite Hs, str_length_app, Hlen. done.
  - by exists k.
Qed.

(** X7. [generateBookingId] goes on drawing exactly as long as the
    candidates collide with the ledger: within a bound of [fuel] candidates
    it has not returned if and only if each of them is a key of the
    ledger. *)
Theorem generateBookingId_retries fuel bk g :
  generateBookingId fuel bk g = None ↔
  ∀ j, (j < fuel)%nat → is_Some (bk !! candidate j g).
Proof.
  split.
  - intros Hnone j Hj. destruct (bk !! candidate j g) eqn:Hc; [eauto|].
    destruct (generateBookingId_returns fuel bk g j Hc Hj) as [r Hr]. congruence.
  - intros Hall. destruct (generateBookingId fuel bk g) as [[id g']|] eqn:Hg; [|done].
    apply generateBookingId_Some in Hg as (Hfresh & _ & k & Hk & -> & _).
    destruct (Hall k Hk) as [t Ht]. congruence.
Qed.

(** ** Invariants of the trains of the registry *)

Section TrainInvariant.
(** A property that the constructor establishes and that taking or
    releasing a seat keeps holds of every train of every reachable
    state. *)
Variable P : Train → Prop.
Hypothesis P_new : ∀ id name seats t, Train_new id name seats = Ok t → P t.
Hypothesis P_seat : ∀ t n b, P t → P (with_seat t n b).

Lemma mark_booked_inv fuel i booked train st :
  P train →
  P (fst (mark_booked fuel i booked train st)) ∧
  trains (snd (mark_booked fuel i booked train st)) = trains st.
Proof.
  revert i train. induction fuel as [|fuel IH]; intros i train HP; simpl; [done|].
  destruct ((i <? booked) && (i <? totalSeats train)); [|done].
  destruct (bookNextAvailableSeat train) as [[n t']|e] eqn:Hb; [|done].
  apply IH. apply bookNextAvailableSeat_Ok in Hb as (_ & _ & _ & ->).
  by apply P_seat.
Qed.

Lemma store_inv ts id ref train seat b :
  Forall P ts → findTrainRef ts id = Ok (ref, train) →
  Forall P (<[ref := with_seat train seat b]> ts).
Proof.
  intros Hall Hf. apply Forall_insert; [done|]. apply P_seat.
  apply findTrainRef_Ok in Hf as [Href _].
  by eapply (proj1 (Forall_lookup _ _) Hall).
Qed.

Lemma loadTrainsFromCSV_line_inv line st :
  Forall P (trains st) → Forall P (trains (loadTrainsFromCSV_line line st)).
Proof.
  intros Hall. unfold loadTrainsFromCSV_line.
  destruct (parseTrainLine line) as [row|e]; [|done].
  unfold mbind at 1, Result_bind at 1.
  destruct (Train_new _ _ _) as [train|e] eqn:Hn; [|done].
  unfold mbind, Result_bind. apply P_new in Hn.
  destruct (mark_booked_inv (Z.to_nat (row_totalSeats row)) 0
    (wrap32 (row_totalSeats row - row_availableSeats row)) train st Hn)
    as [Hm Ht].
  destruct (mark_booked _ _ _ _ _) as [train' st']. simpl in *.
  rewrite Ht. apply Forall_app. split; [done|]. by constructor.
Qed.

Lemma loadTrainsFromCSV_inv filename file st :
  Forall P (trains st) →
  Forall P (trains (snd (loadTrainsFromCSV filename file st))).
Proof.
  intros Hall. unfold loadTrainsFromCSV. destruct file as [lines|]; [|done].
  cbn. assert (Hnil : Forall P (trains (with_trains st []))) by constructor.
  revert Hnil. generalize (with_trains st []). generalize (tail lines).
  induction l as [|line l IH]; intros s Hs; [done|]. simpl.
  apply IH. by apply loadTrainsFromCSV_line_inv.
Qed.

Lemma load_lines_inv lines l :
  Forall P (trains (sys l)) → Forall P (trains (sys (load_lines lines l))).
Proof.
  revert l. induction lines as [|line lines IH]; intros l Hall; [done|].
  apply IH. destruct (loadTicketsFromCSV_line_outcome line l)
    as [(-> & _)|(row & ref & train & _ & Hf & _ & _ & ->)]; [done|].
  cbn. by eapply store_inv.
Qed.

Lemma push_trains_inv specs st :
  Forall P (trains st) → Forall P (trains (push_trains specs st)).
Proof.
  revert st. induction specs as [|[[id name] seats] specs IH]; intros st Hall; [done|].
  simpl. destruct (Train_new id name seats) as [t|e] eqn:Hn; [|done].
  apply IH. cbn. apply Forall_app. split; [done|].
  constructor; [by eapply P_new | constructor].
Qed.

Lemma main_startup_inv trains_csv tickets_csv g clk r st :
  main_startup trains_csv tickets_csv g clk = (r, st) → Forall P (trains st).
Proof.
  unfold main_startup, main_loadTrains.
  pose proof (loadTrainsFromCSV_inv "trains.csv" trains_csv
                (ReservationSystem_new g clk)) as Hinv.
  assert (H0 : Forall P (trains (ReservationSystem_new g clk))).
  { apply push_trains_inv. constructor. }
  specialize (Hinv H0).
  destruct (loadTrainsFromCSV _ _ _) as [r1 st1]. simpl in Hinv.
  assert (Htickets : ∀ s r' st', Forall P (trains s) →
            main_loadTickets tickets_csv s = (r', st') → Forall P (trains st')).
  { intros s r' st' Hs. unfold main_loadTickets, loadTicketsFromCSV.
    destruct tickets_csv as [lines|].
    - intros [= _ <-].
      assert (Forall P (trains (sys (loadTicketsFromCSV_loop lines s))))
        by (by apply load_lines_inv).
      by destruct (_ >? _).
    - by intros [= _ <-]. }
  destruct r1 as [[]|e].
  - by apply Htickets.
  - destruct e; try (by intros [= _ <-]). by apply Htickets.
Qed.

Lemma reachable_inv st : reachable st → Forall P (trains st).
Proof.
  induction 1 as [? ? ? ? ? Hs | ? ? ? ? ? ? _ IH Hb | ? bid _ IH | ? ? _ IH | ? ? _ IH].
  - by eapply main_startup_inv.
  - apply bookTicket_outcome in Hb
      as [(_ & -> & _) | (b & ref & train & seat & _ & _ & _ & _ & Hf & _ & -> & _)];
      [done|]. by eapply store_inv.
  - destruct (cancelTicket_outcome bid st)
      as [(_ & -> & _) | (ticket & ref & train & _ & _ & Hf & _ & -> & _)];
      [done|]. by eapply store_inv.
  - unfold checkTicketStatus. by destruct (findTicket _ _).
  - unfold checkSeatAvailability. destruct (findTrain _ _); [|done].
    by destruct (_ =? 0).
Qed.
End TrainInvariant.

Lemma Train_new_Train_valid id name seats t :
  Train_new id name seats = Ok t → Train_valid t.
Proof.
  intros H. pose proof (Train_new_wf _ _ _ _ H) as Hwf. unfold Train_new in H.
  destruct (Z.leb_spec id 0); [done|].
  destruct (String.eqb_spec name ""); [done|].
  destruct (Z.leb_spec seats 0); [done|]. injection H as <-. done.
Qed.

Lemma with_seat_Train_valid t n b : Train_valid t → Train_valid (with_seat t n b).
Proof.
  intros (? & ? & ? & Hwf). split_and!; try done. by apply with_seat_wf.
Qed.

Lemma reachable_trains_valid st : reachable st → Forall Train_valid (trains st).
Proof.
  apply reachable_inv; [apply Train_new_Train_valid | apply with_seat_Train_valid].
Qed.

Lemma reachable_found_valid st id ref train :
  reachable st → findTrainRef (trains st) id = Ok (ref, train) →
  Train_valid train ∧ trainId train = id.
Proof.
  intros Hr Hf. apply findTrainRef_Ok in Hf as [Href Hid]. split; [|done].
  apply reachable_trains_valid in Hr.
  by eapply (proj1 (Forall_lookup _ _) Hr).
Qed.

(** ** bookTicket and cancelTicket in detail *)

(** The state in which a booking that succeeded leaves the system. *)
Lemma bookTicket_success fuel id p st bid st1 :
  bookTicket fuel id p st = Some (Ok bid, st1) → bid ≠ "" →
  ∃ ref train seat g,
    p ≠ "" ∧ 0 < id ∧
    findTrainRef (trains st) id = Ok (ref, train) ∧
    bookNextAvailableSeat train = Ok (seat, with_seat train seat false) ∧
    generateBookingId fuel (bookings st) (gen st) = Some (bid, g) ∧
    st1 = say (TicketBooked (mkTicket bid id seat p (format_time (clock st 0%nat))))
            (with_bookings
               (tick (with_gen (store_train st ref (with_seat train seat false)) g))
               (<[bid := mkTicket bid id seat p (format_time (clock st 0%nat))]>
                  (bookings st))).
Proof.
  unfold bookTicket. destruct (String.eqb_spec p "") as [Hp|Hp].
  { by intros [= <- <-]. }
  destruct (findTrainRef (trains st) id) as [[ref train]|e] eqn:Hf.
  2:{ by intros [= <- <-]. }
  destruct (bookNextAvailableSeat train) as [[seat train1]|e] eqn:Hb.
  2:{ by intros [= <- <-]. }
  pose proof (bookNextAvailableSeat_Ok _ _ _ Hb) as (Hr & Hseat & _ & ->).
  cbn [bookings gen store_train with_trains].
  destruct (generateBookingId _ _ _) as [[bid' g]|] eqn:Hg; [|done].
  pose proof (generateBookingId_Some _ _ _ _ _ Hg) as (Hfresh & _ & _).
  cbn [clock with_gen store_train with_trains].
  destruct (Ticket_new _ _ _ _ _) as [ticket|e] eqn:Ht.
  - apply Ticket_new_Ok in Ht as (_ & Hid & _ & _ & ->).
    cbn [bookings tick with_gen store_train with_trains with_bookings].
    rewrite emplace_fresh by done. cbn [fst].
    rewrite lookup_insert_eq. intros [= <- <-] _.
    exists ref, train, seat, g. done.
  - rewrite cancelSeat_after_booking by done. by intros [= <- <-].
Qed.

(** X8. A booking that succeeds records a ticket under the returned id
    with the train id and the passenger name of the call, the lowest
    available seat of the train and the time of the call; the id has ten
    characters, [checkTicketStatus] finds it, the ticket details are
    printed, and no other entry of the ledger has changed. *)
Theorem bookTicket_records_ticket fuel id p st bid st1 :
  bookTicket fuel id p st = Some (Ok bid, st1) → bid ≠ "" →
  ∃ train seat,
    let ticket := mkTicket bid id seat p (format_time (clock st 0%nat)) in
    findTrain (trains st) id = Ok train ∧
    isSeatAvailable train seat = Ok true ∧
    (∀ m, 1 ≤ m < seat → isSeatAvailable train m = Ok false) ∧
    findTicket (bookings st1) bid = Ok ticket ∧
    fst (checkTicketStatus bid st1) = true ∧
    seat_taken (trains st1) id seat ∧
    String.length bid = 10%nat ∧
    output st1 = (output st ++ [TicketBooked ticket])%list ∧
    ∀ b, b ≠ bid → bookings st1 !! b = bookings st !! b.
Proof.
  intros H Hne.
  destruct (bookTicket_success _ _ _ _ _ _ H Hne)
    as (ref & train & seat & g & Hp & Hid & Hf & Hb & Hg & ->).
  pose proof (bookNextAvailableSeat_Ok _ _ _ Hb) as (Hr & Hseat & Hlow & _).
  assert (Hfree : isSeatAvailable train seat = Ok true).
  { apply isSeatAvailable_Ok. split; [done|]. by apply seat_at_true. }
  exists train, seat. cbv zeta. split_and!.
  - by eapply findTrain_of_ref.
  - done.
  - done.
  - unfold findTicket. cbn. by rewrite lookup_insert_eq.
  - unfold checkTicketStatus, findTicket. cbn. by rewrite lookup_insert_eq.
  - cbn. by apply seat_taken_here.
  - apply generateBookingId_Some in Hg as (_ & _ & k & _ & -> & _).
    destruct (draw_chars_suffix 8 "BK" (gen_after k (gen st)))
      as (suffix & Hs & Hlen & _).
    unfold candidate. rewrite Hs, str_length_app, Hlen. done.
  - done.
  - intros b Hb'. cbn. by rewrite lookup_insert_ne.
Qed.

(** X9. In a reachable state a booking fails for exactly three reasons,
    and each time the only change is the message printed: the passenger
    name is empty, no train has the id, or the train has no available seat.
    The path that releases the seat after a failed ticket construction is
    never taken. *)
Theorem bookTicket_failure_causes fuel id p st st1 :
  reachable st →
  bookTicket fuel id p st = Some (Ok "", st1) →
  (p = "" ∧ st1 = say ErrPassengerNameEmpty st) ∨
  (p ≠ "" ∧ findTrain (trains st) id = Throw (TrainNotFoundException id) ∧
   st1 = say (ErrorMsg (TrainNotFoundException id)) st) ∨
  (p ≠ "" ∧ ∃ train,
     findTrain (trains st) id = Ok train ∧ getAvailableSeatsCount train = 0 ∧
     st1 = say (ErrorMsg (NoSeatsAvailableException id)) st).
Proof.
  intros Hreach. unfold bookTicket. destruct (String.eqb_spec p "") as [Hp|Hp].
  { intros [= <-]. by left. }
  destruct (findTrainRef (trains st) id) as [[ref train]|e] eqn:Hf.
  2:{ intros [= <-]. right; left. pose proof (findTrainRef_Throw _ _ _ Hf) as ->.
      unfold findTrain. by rewrite Hf. }
  destruct (reachable_found_valid _ _ _ _ Hreach Hf) as [(Hpos & _ & _ & Hwf) Hid].
  destruct (bookNextAvailableSeat train) as [[seat train1]|e] eqn:Hb.
  2:{ intros [= <-]. right; right. split; [done|]. exists train.
      split; [by eapply findTrain_of_ref|].
      split; [by eapply bookNextAvailableSeat_Throw_count|].
      apply bookNextAvailableSeat_Throw in Hb as [-> _]. by rewrite Hid. }
  pose proof (bookNextAvailableSeat_Ok _ _ _ Hb) as (Hr & Hseat & _ & ->).
  destruct (generateBookingId _ _ _) as [[bid g]|] eqn:Hg; [|done].
  apply generateBookingId_Some in Hg as (Hfresh & Hbid & _).
  cbn [clock with_gen store_train with_trains].
  destruct (Ticket_new _ _ _ _ _) as [ticket|e] eqn:Ht.
  - cbn [bookings tick with_gen store_train with_trains with_bookings].
    destruct (fst (emplace bid ticket (bookings st)) !! bid);
      intros H; injection H as Hempty; congruence.
  - exfalso.
    pose proof (proj2 (Ticket_new_Ok (clock st 0%nat) bid id seat p
      (mkTicket bid id seat p (format_time (clock st 0%nat))))) as Hok.
    rewrite Hok in Ht; [done|]. split_and!; try done; lia.
Qed.

(** What [cancelTicket] does for an id of the ledger of a reachable
    state. *)
Lemma cancelTicket_present bid st ticket :
  reachable st → bookings st !! bid = Some ticket →
  ∃ ref train,
    findTrainRef (trains st) (ticketTrainId ticket) = Ok (ref, train) ∧
    Train_valid train ∧
    seatAvailability train !! Z.to_nat (seatNumber ticket - 1) = Some false ∧
    isSeatAvailable train (seatNumber ticket) = Ok false ∧
    cancelTicket bid st =
      (true, with_bookings
               (say (TicketCancelled bid)
                  (store_train st ref (with_seat train (seatNumber ticket) true)))
               (delete bid (bookings st))).
Proof.
  intros Hreach Hb.
  destruct (reachable_consistent _ Hreach) as [Hinv _].
  destruct (Hinv _ _ Hb) as (train & Ht & Hs).
  apply findTrain_Ok in Ht as [ref Hf].
  destruct (reachable_found_valid _ _ _ _ Hreach Hf) as [Hv _].
  pose proof (proj1 (isSeatAvailable_Ok _ _ _) Hs) as [Hr Hat].
  destruct Hv as (? & ? & ? & Hwf).
  pose proof (seat_at_false_lookup _ _ Hwf Hr Hat) as Hl.
  exists ref, train. split_and!; try done.
  unfold cancelTicket, findTicket. rewrite Hb, Hf. unfold cancelSeat.
  rewrite (proj2 (range_check_false _ _) Hr). cbv zeta. rewrite Hat. done.
Qed.

(** X10. In a reachable state [cancelTicket] succeeds exactly for the ids
    of the ledger.  For such an id the seat of the ticket is released in
    its train, whose count of available seats goes up by one, and the
    entry is erased; for any other id the only change is the error
    printed. *)
Theorem cancelTicket_succeeds_iff_present bid st :
  reachable st →
  match bookings st !! bid with
  | Some ticket =>
      ∃ ref train,
        findTrainRef (trains st) (ticketTrainId ticket) = Ok (ref, train) ∧
        isSeatAvailable train (seatNumber ticket) = Ok false ∧
        let train' := with_seat train (seatNumber ticket) true in
        cancelTicket bid st =
          (true, with_bookings
                   (say (TicketCancelled bid) (store_train st ref train'))
                   (delete bid (bookings st))) ∧
        isSeatAvailable train' (seatNumber ticket) = Ok true ∧
        getAvailableSeatsCount train' = getAvailableSeatsCount train + 1
  | None =>
      cancelTicket bid st =
        (false, say (ErrorMsg (TicketNotFoundException bid)) st)
  end.
Proof.
  intros Hreach. destruct (bookings st !! bid) as [ticket|] eqn:Hb.
  2:{ unfold cancelTicket, findTicket. by rewrite Hb. }
  destruct (cancelTicket_present _ _ _ Hreach Hb)
    as (ref & train & Hf & Hv & Hl & Hs & Hc).
  apply isSeatAvailable_Ok in Hs as [Hr _].
  exists ref, train. split; [done|]. split.
  { apply isSeatAvailable_Ok. split; [done|]. unfold seat_at. by rewrite Hl. }
  cbv zeta. split_and!; [done| |].
  - apply isSeatAvailable_with_seat_eq; [done|]. by eapply lookup_lt_Some.
  - unfold getAvailableSeatsCount, with_seat. simpl.
    rewrite (count_after_release _ _ Hl). lia.
Qed.

(** X11. A seat released by a cancellation is handed out again before any
    higher one: in a reachable state, after the cancellation of a ticket, a
    booking on the same train with a non-empty passenger name does not fail,
    and the seat of the new ticket is at most the seat just released. *)
Theorem cancelled_seat_is_reused fuel bid p st ticket r st2 :
  reachable st →
  bookings st !! bid = Some ticket →
  p ≠ "" →
  bookTicket fuel (ticketTrainId ticket) p (snd (cancelTicket bid st)) =
    Some (r, st2) →
  ∃ bid' new,
    r = Ok bid' ∧ bid' ≠ "" ∧
    bookings st2 !! bid' = Some new ∧
    ticketTrainId new = ticketTrainId ticket ∧
    passengerName new = p ∧
    1 ≤ seatNumber new ≤ seatNumber ticket.
Proof.
  intros Hreach Hb Hp Hbook.
  destruct (cancelTicket_present _ _ _ Hreach Hb)
    as (ref & train & Hf & Hv & Hl & Hs & Hc).
  rewrite Hc in Hbook. cbn [snd] in Hbook.
  pose proof (findTrainRef_Ok _ _ _ _ Hf) as [_ Hid].
  apply isSeatAvailable_Ok in Hs as [Hr _].
  set (train' := with_seat train (seatNumber ticket) true) in *.
  remember (with_bookings (say (TicketCancelled bid) (store_train st ref train'))
              (delete bid (bookings st))) as st' eqn:Hst'.
  assert (Hf' : findTrainRef (trains st') (ticketTrainId ticket) = Ok (ref, train')).
  { subst st'. cbn. rewrite (findTrainRef_store _ _ _ _ _ _ Hf) by done.
    by rewrite decide_True. }
  assert (Hfree : isSeatAvailable train' (seatNumber ticket) = Ok true).
  { apply isSeatAvailable_with_seat_eq; [done|]. by eapply lookup_lt_Some. }
  apply bookTicket_outcome in Hbook
    as [(_ & _ & _ & [?|[[e He]|[(ref' & t' & e & Hf2 & He)|Hneg]]]) |
        (bid' & ref' & t' & seat' & -> & Hbid' & _ & _ & Hf2 & Hbk & _ & _ & Hbs)].
  - done.
  - rewrite Hf' in He. done.
  - rewrite Hf' in Hf2. injection Hf2 as <- <-.
    apply bookNextAvailableSeat_Throw in He as [_ Hnone]. by destruct (Hnone _ Hfree).
  - destruct Hv as (Hpos & _). lia.
  - rewrite Hf' in Hf2. injection Hf2 as <- <-.
    apply bookNextAvailableSeat_Ok in Hbk as (Hr' & _ & Hlow & _).
    eexists bid', _. split; [done|]. split; [done|].
    split; [rewrite Hbs; apply lookup_insert_eq|]. cbn.
    split; [done|]. split; [done|]. split; [lia|].
    destruct (Z.le_gt_cases seat' (seatNumber ticket)) as [|Hgt]; [done|].
    rewrite (Hlow (seatNumber ticket)) in Hfree; [done | lia].
Qed.

(** ** loadTrainsFromCSV as a whole *)

Lemma Train_new_Ok_valid row t :
  Train_new (row_trainId row) (row_trainName row) (row_totalSeats row) = Ok t →
  valid_train_row row.
Proof.
  unfold Train_new, valid_train_row.
  destruct (Z.leb_spec (row_trainId row) 0); [done|].
  destruct (String.eqb_spec (row_trainName row) ""); [done|].
  destruct (Z.leb_spec (row_totalSeats row) 0); done.
Qed.

Lemma loadTrainsFromCSV_line_read line st :
  loadTrainsFromCSV_line line st =
  match read_train_line line with
  | Ok t => with_trains st (trains st ++ [t])
  | Throw e => say (LineContent line) (say (ErrParsingCSVLine e) st)
  end.
Proof.
  unfold read_train_line.
  destruct (parseTrainLine line) as [row|e] eqn:Hp.
  - unfold mbind, Result_bind.
    destruct (Train_new (row_trainId row) (row_trainName row) (row_totalSeats row))
      as [t|e] eqn:Hn.
    + rewrite (loadTrainsFromCSV_line_valid _ _ _ Hp (Train_new_Ok_valid _ _ Hn)).
      done.
    + unfold loadTrainsFromCSV_line. rewrite Hp.
      unfold mbind, Result_bind. by rewrite Hn.
  - unfold loadTrainsFromCSV_line. by rewrite Hp.
Qed.

Lemma loadTrainsFromCSV_fold lines s :
  let s' := foldl (λ s line, loadTrainsFromCSV_line line s) s lines in
  trains s' = (trains s ++ omap train_of_line lines)%list ∧
  output s' = (output s ++ concat (train_line_messages <$> lines))%list ∧
  bookings s' = bookings s ∧ gen s' = gen s ∧ clock s' = clock s.
Proof.
  revert s. induction lines as [|line lines IH]; intros s; cbv zeta.
  - simpl. by rewrite !app_nil_r.
  - simpl. destruct (IH (loadTrainsFromCSV_line line s)) as (Ht & Ho & Hb & Hg & Hc).
    rewrite Ht, Ho, Hb, Hg, Hc. rewrite loadTrainsFromCSV_line_read.
    unfold train_of_line, train_line_messages.
    destruct (read_train_line line) as [t|e]; cbn.
    + by rewrite <- app_assoc.
    + by rewrite <- !app_assoc.
Qed.

(** X12. Loading a trains file that opens replaces the registry by the
    trains of the lines that parse and that the constructor accepts, in the
    order of the file and whatever the registry held before; the header
    line is not read, every other line that is skipped prints its two
    messages and does not stop the load, and the ledger, the generator and
    the clock are untouched. *)
Theorem loadTrainsFromCSV_registry filename lines st :
  let st' := snd (loadTrainsFromCSV filename (Some lines) st) in
  fst (loadTrainsFromCSV filename (Some lines) st) = Ok tt ∧
  trains st' = omap train_of_line (tail lines) ∧
  output st' =
    (output st ++ concat (train_line_messages <$> tail lines) ++
     [LoadedTrains (length (omap train_of_line (tail lines))) filename])%list ∧
  bookings st' = bookings st ∧ gen st' = gen st ∧ clock st' = clock st.
Proof.
  cbv zeta. unfold loadTrainsFromCSV. cbn [fst snd].
  destruct (loadTrainsFromCSV_fold (tail lines) (with_trains st []))
    as (Ht & Ho & Hb & Hg & Hc). cbv zeta in *. cbn in Ht, Ho, Hb, Hg, Hc.
  split; [done|]. cbn. rewrite Ht, Ho, Hb, Hg, Hc.
  by rewrite <- app_assoc.
Qed.


(** ** loadTicketsFromCSV as a whole *)

Lemma bookings_row_loaded_ticket row ref train l b t :
  bookings (sys (row_loaded row ref train l)) !! b = Some t →
  bookings (sys l) !! b = Some t ∨
  (b = row_bookingId row ∧ bookings (sys l) !! b = None ∧
   t = ticket_of_row (clock (sys l) 0%nat) row).
Proof.
  cbn. unfold emplace.
  destruct (bookings (sys l) !! row_bookingId row) eqn:Hb; cbn; [by left|].
  intros H. apply lookup_insert_Some in H as [[<- <-]|[_ H]]; [by right | by left].
Qed.

Lemma wrap32_succ_ne z : wrap32 (z + 1) ≠ z.
Proof.
  unfold wrap32. change (2 ^ 31) with 2147483648. change (2 ^ 32) with 4294967296.
  intros H.
  pose proof (Z.div_mod (z + 1 + 2147483648) 4294967296 ltac:(lia)) as Hdm.
  lia.
Qed.

(** X14. Each line of a tickets file is either loaded or leaves registry
    and ledger as they were.  It is loaded, and counted in
    [loadedTickets], exactly when it parses, the constructor of [Ticket]
    accepts its fields, its train exists and its seat is in range and
    available; then that seat is taken.  Otherwise it is counted in
    [errorCount]; this includes the row whose seat was reserved before the
    constructor refused it, the seat being released again. *)
Theorem loadTicketsFromCSV_line_all_or_nothing line l :
  let l' := loadTicketsFromCSV_line line l in
  (∃ row ref train,
     parseTicketLine line = Ok row ∧ valid_ticket_row row ∧
     findTrainRef (trains (sys l)) (row_ticketTrainId row) = Ok (ref, train) ∧
     isSeatAvailable train (row_seatNumber row) = Ok true ∧
     trains (sys l') =
       <[ref := with_seat train (row_seatNumber row) false]> (trains (sys l)) ∧
     bookings (sys l') =
       fst (emplace (row_bookingId row)
              (ticket_of_row (clock (sys l) 0%nat) row) (bookings (sys l))) ∧
     loadedTickets l' = wrap32 (loadedTickets l + 1) ∧
     errorCount l' = errorCount l) ∨
  (trains (sys l') = trains (sys l) ∧ bookings (sys l') = bookings (sys l) ∧
   loadedTickets l' = loadedTickets l ∧
   errorCount l' = wrap32 (errorCount l + 1) ∧
   ∀ row, parseTicketLine line = Ok row →
     ¬ (valid_ticket_row row ∧
        seat_free (trains (sys l)) (row_ticketTrainId row) (row_seatNumber row))).
Proof.
  cbv zeta. unfold loadTicketsFromCSV_line.
  destruct (parseTicketLine line) as [row|e] eqn:Hp.
  2:{ right. split_and!; try done. }
  destruct (loadTicketRow_outcome line row l)
    as [(Ht & Hb & Hl & He)|(ref & train & Hf & Hfree & Hv & Hrow)].
  - right. split_and!; try done. intros row' [= <-] [Hv (train & Hft & Hfree)].
    apply findTrain_Ok in Hft as [ref Hf].
    rewrite (loadTicketRow_success _ _ _ _ _ Hf Hfree Hv) in He.
    cbn in He. symmetry in He. by apply wrap32_succ_ne in He.
  - left. exists row, ref, train. rewrite Hrow. split_and!; done.
Qed.

Lemma line_counters line l :
  (loadedTickets (loadTicketsFromCSV_line line l) = wrap32 (loadedTickets l + 1) ∧
   errorCount (loadTicketsFromCSV_line line l) = errorCount l ∧
   (size (bookings (sys (loadTicketsFromCSV_line line l))) ≤
    S (size (bookings (sys l))))%nat) ∨
  (loadedTickets (loadTicketsFromCSV_line line l) = loadedTickets l ∧
   errorCount (loadTicketsFromCSV_line line l) = wrap32 (errorCount l + 1) ∧
   bookings (sys (loadTicketsFromCSV_line line l)) = bookings (sys l)).
Proof.
  unfold loadTicketsFromCSV_line.
  destruct (parseTicketLine line) as [row|e] eqn:Hp; [|by right].
  destruct (loadTicketRow_outcome line row l)
    as [(Ht & Hb & Hl & He)|(ref & train & Hf & Hfree & Hv & ->)]; [by right|].
  left. cbn. split; [done|]. split; [done|]. unfold emplace.
  destruct (bookings (sys l) !! row_bookingId row) eqn:Hb; cbn; [lia|].
  by rewrite map_size_insert_None.
Qed.

Lemma load_lines_counters lines l :
  0 ≤ loadedTickets l → 0 ≤ errorCount l →
  loadedTickets l + errorCount l + Z.of_nat (length lines) ≤ INT_MAX →
  Z.of_nat (size (bookings (sys l))) ≤ loadedTickets l →
  0 ≤ loadedTickets (load_lines lines l) ∧ 0 ≤ errorCount (load_lines lines l) ∧
  loadedTickets (load_lines lines l) + errorCount (load_lines lines l) =
    loadedTickets l + errorCount l + Z.of_nat (length lines) ∧
  Z.of_nat (size (bookings (sys (load_lines lines l)))) ≤
    loadedTickets (load_lines lines l).
Proof.
  revert l. induction lines as [|line lines IH]; intros l Hl He Hmax Hsize.
  { simpl. lia. }
  change (load_lines (line :: lines) l)
    with (load_lines lines (loadTicketsFromCSV_line line l)).
  cbn [length] in *. unfold INT_MAX in *.
  assert (Hw : ∀ z, 0 ≤ z → z + 1 ≤ 2 ^ 31 - 1 → wrap32 (z + 1) = z + 1).
  { intros z ? ?. apply wrap32_in_int. unfold in_int, INT_MIN, INT_MAX. lia. }
  destruct (line_counters line l) as [(H1 & H2 & H3)|(H1 & H2 & H3)].
  - rewrite Hw in H1 by lia.
    destruct (IH (loadTicketsFromCSV_line line l)) as (? & ? & ? & ?); lia.
  - rewrite Hw in H2 by lia.
    destruct (IH (loadTicketsFromCSV_line line l)) as (? & ? & ? & ?);
      rewrite ?H3; lia.
Qed.

(** X15. Every line after the header raises exactly one of the two
    counters of [loadTicketsFromCSV]: for a file of fewer than 2^31 lines
    [loadedTickets] and [errorCount] add up to the number of those lines.
    The ledger holds at most [loadedTickets] tickets, fewer when booking
    ids repeat. *)
Theorem loadTicketsFromCSV_counters lines st :
  Z.of_nat (length (tail lines)) ≤ INT_MAX →
  let l := loadTicketsFromCSV_loop lines st in
  0 ≤ loadedTickets l ∧ 0 ≤ errorCount l ∧
  loadedTickets l + errorCount l = Z.of_nat (length (tail lines)) ∧
  Z.of_nat (size (bookings (sys l))) ≤ loadedTickets l.
Proof.
  intros Hlen. cbv zeta. unfold loadTicketsFromCSV_loop.
  destruct (load_lines_counters (tail lines)
              (mkTicketLoad (with_bookings st ∅) 0 0)) as (? & ? & ? & ?).
  - cbn. lia.
  - cbn. lia.
  - cbn. lia.
  - cbn. rewrite map_size_empty. lia.
  - cbn in *. split_and!; try done.
Qed.

Lemma seat_free_before_take ts id ref train seat id' seat' :
  findTrainRef ts id = Ok (ref, train) →
  isSeatAvailable train seat = Ok true →
  seat_free (<[ref := with_seat train seat false]> ts) id' seat' →
  seat_free ts id' seat'.
Proof.
  intros Hf Hfree (t & Ht & Hs).
  pose proof (findTrainRef_Ok _ _ _ _ Hf) as [_ Hid].
  rewrite (findTrain_store _ _ _ _ _ _ Hf) in Ht by done.
  destruct (decide (id' = id)) as [->|]; [|by exists t].
  injection Ht as <-. exists train. split; [by eapply findTrain_of_ref|].
  pose proof (proj1 (isSeatAvailable_Ok _ _ _) Hfree) as [Hr Hat].
  apply seat_at_true in Hat.
  destruct (decide (seat' = seat)) as [->|Hne].
  - rewrite isSeatAvailable_with_seat_eq in Hs; [done | done |].
    by eapply lookup_lt_Some.
  - rewrite isSeatAvailable_with_seat_ne in Hs; [done | lia | done].
Qed.

Lemma load_lines_free_before lines l (ts0 : list Train) :
  (∀ id s, seat_free (trains (sys l)) id s → seat_free ts0 id s) →
  (∀ b t, bookings (sys l) !! b = Some t →
     bookingId t = b ∧ valid_ticket_row
       (mkTicketRow (bookingId t) (ticketTrainId t) (seatNumber t)
          (passengerName t) "") ∧
     seat_free ts0 (ticketTrainId t) (seatNumber t)) →
  ∀ b t, bookings (sys (load_lines lines l)) !! b = Some t →
     bookingId t = b ∧ valid_ticket_row
       (mkTicketRow (bookingId t) (ticketTrainId t) (seatNumber t)
          (passengerName t) "") ∧
     seat_free ts0 (ticketTrainId t) (seatNumber t).
Proof.
  revert l. induction lines as [|line lines IH]; intros l Hfree Hled; [done|].
  cbn [load_lines foldl]. fold (load_lines lines). apply IH.
  - intros id s. destruct (loadTicketsFromCSV_line_outcome line l)
      as [(-> & _)|(row & ref & train & _ & Hf & Ha & _ & ->)]; [apply Hfree|].
    cbn. intros H. apply Hfree. by eapply seat_free_before_take.
  - intros b t. destruct (loadTicketsFromCSV_line_outcome line l)
      as [(_ & -> & _)|(row & ref & train & _ & Hf & Ha & Hv & ->)]; [apply Hled|].
    intros H. apply bookings_row_loaded_ticket in H as [H|(-> & _ & ->)];
      [by apply Hled|].
    cbn. split; [done|]. split; [done|]. apply Hfree.
    exists train. split; [by eapply findTrain_of_ref | done].
Qed.

(** X16. After [loadTicketsFromCSV] every ticket of the ledger comes from
    the file: it is stored under its own booking id, its fields are ones the
    constructor accepts, the seat it names was available in the registry as
    it stood before the load and is taken after it. *)
Theorem loadTicketsFromCSV_tickets_had_free_seats lines st bid t :
  let l := loadTicketsFromCSV_loop lines st in
  bookings (sys l) !! bid = Some t →
  bookingId t = bid ∧ bid ≠ "" ∧ 0 < ticketTrainId t ∧ passengerName t ≠ "" ∧
  seat_free (trains st) (ticketTrainId t) (seatNumber t) ∧
  seat_taken (trains (sys l)) (ticketTrainId t) (seatNumber t).
Proof.
  cbv zeta. intros Hb.
  assert (Hc : consistent (sys (loadTicketsFromCSV_loop lines st))).
  { apply load_lines_consistent. by apply consistent_empty. }
  destruct (load_lines_free_before (tail lines)
              (mkTicketLoad (with_bookings st ∅) 0 0) (trains st))
    with (b := bid) (t := t) as (Hid & (Hne & Hpos & _ & Hpn) & Hfree).
  - done.
  - intros b t'. cbn. by rewrite lookup_empty.
  - exact Hb.
  - simpl in *. split_and!; try done; [congruence|].
    destruct Hc as [Hinv _]. exact (Hinv _ _ Hb).
Qed.

(** ** Numbers written and read back *)

Lemma pretty_N_char_digit d :
  (d < 10)%N →
  isdigit (pretty_N_char d) = true ∧ digit_value (pretty_N_char d) = Z.of_N d.
Proof.
  intros Hd.
  assert (d = 0 ∨ d = 1 ∨ d = 2 ∨ d = 3 ∨ d = 4 ∨ d = 5 ∨ d = 6 ∨ d = 7 ∨
          d = 8 ∨ d = 9)%N as Hcases by lia.
  repeat (destruct Hcases as [->|Hcases]; [by vm_compute|]). subst. by vm_compute.
Qed.

Lemma read_digits_pretty_N_go x s seen :
  read_digits (pretty_N_go x s) 0 seen =
  read_digits s (Z.of_N x) (seen || (0 <? x)%N).
Proof.
  revert s seen. induction (N.lt_wf_0 x) as [x _ IH]; intros s seen.
  destruct (decide (x = 0)%N) as [->|Hx].
  { rewrite pretty_N_go_0. simpl. by rewrite orb_false_r. }
  rewrite pretty_N_go_step by lia.
  rewrite IH by (apply N.div_lt; lia).
  destruct (pretty_N_char_digit (x `mod` 10)) as [Hd Hv].
  { apply N.mod_lt. lia. }
  cbn [read_digits]. rewrite Hd, Hv.
  replace (0 <? x)%N with true by (symmetry; apply N.ltb_lt; lia).
  rewrite orb_true_r. f_equal.
  pose proof (N.div_mod x 10 ltac:(lia)). lia.
Qed.

Lemma pretty_N_go_head x s :
  (0 < x)%N → ∃ c r, pretty_N_go x s = String c r ∧ isdigit c = true.
Proof.
  revert s. induction (N.lt_wf_0 x) as [x _ IH]; intros s Hx.
  rewrite pretty_N_go_step by done.
  destruct (decide (x `div` 10 = 0)%N) as [Hz|Hz].
  - rewrite Hz, pretty_N_go_0. eexists _, _. split; [done|].
    apply pretty_N_char_digit, N.mod_lt. lia.
  - apply IH; [apply N.div_lt; lia | by apply N.neq_0_lt_0].
Qed.

Lemma stoi_unsigned c r :
  isdigit c = true →
  stoi (String c r) =
  match read_digits (String c r) 0 false with
  | None => None
  | Some v => if (INT_MIN <=? v) && (v <=? INT_MAX) then Some v else None
  end.
Proof.
  intros Hd.
  destruct c as [[] [] [] [] [] [] [] []]; try (by vm_compute in Hd); reflexivity.
Qed.

Lemma stoi_negative s :
  stoi (String "-"%char s) =
  match read_digits s 0 false with
  | None => None
  | Some v => if (INT_MIN <=? - v) && (- v <=? INT_MAX) then Some (- v) else None
  end.
Proof. reflexivity. Qed.

Lemma read_digits_pretty_pos p :
  ∃ c r, pretty (N.pos p) = String c r ∧ isdigit c = true ∧
         read_digits (String c r) 0 false = Some (Z.pos p).
Proof.
  unfold pretty, pretty_N. rewrite decide_False by done.
  destruct (pretty_N_go_head (N.pos p) "" ltac:(lia)) as (c & r & Hs & Hd).
  exists c, r. split; [done|]. split; [done|].
  rewrite <- Hs, read_digits_pretty_N_go. reflexivity.
Qed.

Lemma stoi_pretty_helper z : in_int z → stoi (pretty z) = Some z.
Proof.
  intros Hz.
  assert (Hrange : (INT_MIN <=? z) && (z <=? INT_MAX) = true).
  { unfold in_int in Hz. apply andb_true_iff. split; apply Z.leb_le; lia. }
  destruct z as [|p|p].
  - reflexivity.
  - destruct (read_digits_pretty_pos p) as (c & r & Hs & Hd & Hr).
    change (pretty (Z.pos p)) with (pretty (N.pos p)).
    rewrite Hs, (stoi_unsigned _ _ Hd), Hr. by rewrite Hrange.
  - destruct (read_digits_pretty_pos p) as (c & r & Hs & Hd & Hr).
    change (pretty (Z.neg p)) with ("-" +:+ pretty (N.pos p)).
    rewrite Hs.
    change (String.append "-" (String c r)) with (String "-"%char (String c r)).
    rewrite stoi_negative, Hr.
    change (- Z.pos p) with (Z.neg p). by rewrite Hrange.
Qed.

(** X17. Writing an [int] in decimal, as the save functions do, and reading
    it back with [std::stoi] gives the same number. *)
Theorem stoi_pretty z : in_int z → stoi (pretty z) = Some z.
Proof. apply stoi_pretty_helper. Qed.

(** ** CSV lines written and read back *)

Lemma no_char_app d s t :
  no_char d (s +:+ t) = no_char d s && no_char d t.
Proof.
  induction s as [|c s IH]; [done|]. rewrite str_app_cons. simpl.
  by rewrite IH, andb_assoc.
Qed.

Lemma split_at_delim_field d a rest :
  no_char d a = true → split_at_delim d (a +:+ String d rest) = (a, rest).
Proof.
  induction a as [|c a IH]; intros Ha.
  - rewrite str_app_nil_l. simpl. by rewrite Ascii.eqb_refl.
  - rewrite str_app_cons. simpl in *. apply andb_true_iff in Ha as [Hc Ha].
    apply negb_true_iff in Hc. rewrite Hc, (IH Ha). done.
Qed.

Lemma split_at_delim_last d a :
  no_char d a = true → split_at_delim d a = (a, "").
Proof.
  induction a as [|c a IH]; intros Ha; [done|]. simpl in *.
  apply andb_true_iff in Ha as [Hc Ha]. apply negb_true_iff in Hc.
  rewrite Hc, (IH Ha). done.
Qed.

Lemma read_field_field missing a rest :
  no_char ","%char a = true →
  read_field missing (a +:+ "," +:+ rest) = Ok (a, rest).
Proof.
  intros Ha. unfold read_field, getline.
  change ("," +:+ rest) with (String ","%char rest).
  rewrite <- (split_at_delim_field _ _ rest Ha).
  destruct a; reflexivity.
Qed.

Lemma read_field_last missing a :
  a ≠ "" → no_char ","%char a = true → read_field missing a = Ok (a, "").
Proof.
  intros Hne Ha. unfold read_field, getline. rewrite (split_at_delim_last _ _ Ha).
  by destruct a.
Qed.

Lemma pretty_N_go_no_char d x s :
  isdigit d = false → no_char d s = true → no_char d (pretty_N_go x s) = true.
Proof.
  intros Hd. revert s. induction (N.lt_wf_0 x) as [x _ IH]; intros s Hs.
  destruct (decide (x = 0)%N) as [->|Hx]; [by rewrite pretty_N_go_0|].
  rewrite pretty_N_go_step by lia. apply IH; [apply N.div_lt; lia|].
  simpl. rewrite Hs, andb_true_r. apply negb_true_iff, Ascii.eqb_neq.
  intros Heq. destruct (pretty_N_char_digit (x `mod` 10)) as [Hc _].
  { apply N.mod_lt. lia. }
  congruence.
Qed.

Lemma pretty_Z_no_char d (z : Z) :
  isdigit d = false → d ≠ "-"%char → no_char d (pretty z) = true.
Proof.
  intros Hd Hm.
  assert (HN : ∀ n : N, no_char d (pretty n) = true).
  { intros n. unfold pretty, pretty_N. case_decide.
    - cbn [no_char]. rewrite andb_true_r. apply negb_true_iff, Ascii.eqb_neq.
      intros <-. by vm_compute in Hd.
    - by apply pretty_N_go_no_char. }
  destruct z as [|p|p].
  - apply (HN 0%N).
  - apply (HN (N.pos p)).
  - change (pretty (Z.neg p)) with (String "-"%char (pretty (N.pos p))).
    cbn [no_char]. rewrite HN, andb_true_r.
    apply negb_true_iff, Ascii.eqb_neq. congruence.
Qed.

Lemma pretty_Z_csv_field (z : Z) : csv_field (pretty z).
Proof. split; by apply pretty_Z_no_char. Qed.

Lemma pretty_Z_nonempty (z : Z) : pretty z ≠ "".
Proof.
  destruct z as [|p|p]; [done| |done].
  destruct (read_digits_pretty_pos p) as (c & r & Hs & _).
  change (pretty (Z.pos p)) with (pretty (N.pos p)). by rewrite Hs.
Qed.

Lemma read_int_pretty what z : in_int z → read_int what (pretty z) = Ok z.
Proof. intros Hz. unfold read_int. by rewrite stoi_pretty_helper. Qed.

Lemma parseTrainLine_written t :
  in_int (trainId t) → in_int (totalSeats t) →
  in_int (getAvailableSeatsCount t) →
  no_char ","%char (trainName t) = true →
  parseTrainLine (train_csv_row t) =
  Ok (mkTrainRow (trainId t) (trainName t) (totalSeats t)
        (getAvailableSeatsCount t)).
Proof.
  intros Hid Htotal Hcount Hname. unfold parseTrainLine, train_csv_row.
  rewrite read_field_field by apply pretty_Z_csv_field.
  unfold mbind at 1, Result_bind at 1. cbn [fst snd].
  rewrite read_int_pretty by done. unfold mbind at 1, Result_bind at 1.
  rewrite read_field_field by done. unfold mbind at 1, Result_bind at 1. cbn [fst snd].
  rewrite read_field_field by apply pretty_Z_csv_field.
  unfold mbind at 1, Result_bind at 1. cbn [fst snd].
  rewrite read_int_pretty by done. unfold mbind at 1, Result_bind at 1.
  rewrite read_field_last by (apply pretty_Z_nonempty || apply pretty_Z_csv_field).
  unfold mbind at 1, Result_bind at 1. cbn [fst snd].
  rewrite read_int_pretty by done. done.
Qed.

(** X18. The line that [saveTrainsToCSV] writes for a train whose name
    holds no comma is parsed by [loadTrainsFromCSV] into the id, the name,
    the total and the count of available seats of that train. *)
Theorem parseTrainLine_train_csv_row t :
  in_int (trainId t) → in_int (totalSeats t) →
  in_int (getAvailableSeatsCount t) →
  no_char ","%char (trainName t) = true →
  parseTrainLine (train_csv_row t) =
  Ok (mkTrainRow (trainId t) (trainName t) (totalSeats t)
        (getAvailableSeatsCount t)).
Proof. apply parseTrainLine_written. Qed.

Lemma parseTicketLine_written t :
  no_char ","%char (bookingId t) = true →
  in_int (ticketTrainId t) → in_int (seatNumber t) →
  no_char ","%char (passengerName t) = true →
  no_char newline (bookingTime t) = true →
  parseTicketLine (ticket_csv_row t) =
  Ok (mkTicketRow (bookingId t) (ticketTrainId t) (seatNumber t)
        (passengerName t) (bookingTime t)).
Proof.
  intros Hbid Hid Hseat Hname Htime. unfold parseTicketLine, ticket_csv_row.
  rewrite read_field_field by done.
  unfold mbind at 1, Result_bind at 1. cbn [fst snd].
  rewrite read_field_field by apply pretty_Z_csv_field.
  unfold mbind at 1, Result_bind at 1. cbn [fst snd].
  rewrite read_int_pretty by done. unfold mbind at 1, Result_bind at 1.
  rewrite read_field_field by apply pretty_Z_csv_field.
  unfold mbind at 1, Result_bind at 1. cbn [fst snd].
  rewrite read_int_pretty by done. unfold mbind at 1, Result_bind at 1.
  rewrite read_field_field by done.
  unfold mbind at 1, Result_bind at 1. cbn [fst snd].
  do 2 f_equal. unfold getline.
  destruct (bookingTime t) as [|c r] eqn:Ht; [done|].
  by rewrite (split_at_delim_last _ _ Htime).
Qed.

(** X19. The line that [saveTicketsToCSV] writes for a ticket whose
    booking id and passenger name hold no comma and whose booking time
    holds no line end is parsed by [loadTicketsFromCSV] into the fields of
    that ticket; the booking time, read last, may hold commas. *)
Theorem parseTicketLine_ticket_csv_row t :
  no_char ","%char (bookingId t) = true →
  in_int (ticketTrainId t) → in_int (seatNumber t) →
  no_char ","%char (passengerName t) = true →
  no_char newline (bookingTime t) = true →
  parseTicketLine (ticket_csv_row t) =
  Ok (mkTicketRow (bookingId t) (ticketTrainId t) (seatNumber t)
        (passengerName t) (bookingTime t)).
Proof. apply parseTicketLine_written. Qed.

(** ** Files written and read back *)

Lemma split_lines_line a rest :
  no_char newline a = true →
  split_lines (a +:+ endl +:+ rest) = a :: split_lines rest.
Proof.
  induction a as [|c a IH]; intros Ha.
  - rewrite str_app_nil_l. change (endl +:+ rest) with (String newline rest).
    cbn [split_lines]. by rewrite Ascii.eqb_refl.
  - rewrite str_app_cons. cbn [split_lines no_char] in *.
    apply andb_true_iff in Ha as [Hc Ha]. apply negb_true_iff in Hc.
    rewrite Hc, (IH Ha). done.
Qed.

Lemma split_lines_csv_text header rows :
  no_char newline header = true →
  Forall (λ row, no_char newline row = true) rows →
  split_lines (csv_text header rows) = header :: rows.
Proof.
  intros Hh Hrows. unfold csv_text. rewrite split_lines_line by done. f_equal.
  induction Hrows as [|row rows Hrow _ IH]; [done|].
  cbn [foldr]. by rewrite split_lines_line, IH.
Qed.

Lemma Train_saved_ok_count t :
  Train_saved_ok t →
  0 ≤ getAvailableSeatsCount t ≤ totalSeats t ∧ in_int (getAvailableSeatsCount t).
Proof.
  intros ((_ & _ & Hpos & Hwf) & _ & Htot & _).
  assert (0 ≤ getAvailableSeatsCount t ≤ totalSeats t).
  { unfold getAvailableSeatsCount. unfold Train_wf in Hwf.
    pose proof (length_filter (λ b, b = true) (seatAvailability t)). lia. }
  split; [done|]. unfold in_int, INT_MIN, INT_MAX in *. lia.
Qed.

Lemma train_csv_row_no_newline t :
  Train_saved_ok t → no_char newline (train_csv_row t) = true.
Proof.
  intros (_ & _ & _ & _ & Hname). unfold train_csv_row.
  rewrite !no_char_app, Hname.
  rewrite !(proj2 (pretty_Z_csv_field _)). reflexivity.
Qed.

Lemma train_of_line_written t :
  Train_saved_ok t → train_of_line (train_csv_row t) = Some (reloaded_train t).
Proof.
  intros Hok. pose proof (Train_saved_ok_count _ Hok) as [_ Hcount].
  destruct Hok as ((Hid & Hname & Hseats & Hwf) & Hiid & Htot & Hcomma & _).
  unfold train_of_line, read_train_line.
  rewrite parseTrainLine_written by done. unfold mbind, Result_bind.
  rewrite (Train_new_valid (mkTrainRow (trainId t) (trainName t) (totalSeats t)
                              (getAvailableSeatsCount t))); done.
Qed.

Lemma isSeatAvailable_partly_booked row k n :
  (k ≤ Z.to_nat (row_totalSeats row))%nat → 1 ≤ n ≤ row_totalSeats row →
  isSeatAvailable (partly_booked row k) n = Ok (bool_decide (Z.of_nat k < n)).
Proof.
  intros Hk Hn. apply isSeatAvailable_Ok. split; [done|].
  unfold partly_booked, seat_at. simpl.
  destruct (decide (Z.to_nat (n - 1) < k)%nat) as [Hlt|Hge].
  - rewrite lookup_app_l by (rewrite length_replicate; lia).
    rewrite lookup_replicate_2 by lia. rewrite bool_decide_eq_false_2; [done|]. lia.
  - rewrite lookup_app_r by (rewrite length_replicate; lia).
    rewrite length_replicate, lookup_replicate_2 by lia.
    rewrite bool_decide_eq_true_2; [done|]. lia.
Qed.

Lemma reloaded_train_spec t :
  Train_saved_ok t →
  trainId (reloaded_train t) = trainId t ∧
  trainName (reloaded_train t) = trainName t ∧
  totalSeats (reloaded_train t) = totalSeats t ∧
  getAvailableSeatsCount (reloaded_train t) = getAvailableSeatsCount t ∧
  ∀ n, isSeatAvailable (reloaded_train t) n = Ok true ↔
       totalSeats t - getAvailableSeatsCount t < n ≤ totalSeats t.
Proof.
  intros Hok. pose proof (Train_saved_ok_count _ Hok) as [Hc Hcount].
  destruct Hok as ((Hid & Hname & Hseats & Hwf) & Hiid & Htot & _).
  unfold reloaded_train, loaded_train.
  cbn [row_totalSeats row_availableSeats].
  rewrite wrap32_in_int by (unfold in_int, INT_MIN, INT_MAX in *; lia).
  set (row := mkTrainRow _ _ _ _).
  split; [done|]. split; [done|]. split; [done|]. split.
  - rewrite count_partly_booked; simpl; lia.
  - intros n. split.
    + intros H. pose proof (proj1 (isSeatAvailable_Ok _ _ _) H) as [Hr _].
      simpl in Hr. rewrite isSeatAvailable_partly_booked in H by (simpl; lia).
      injection H as H. apply bool_decide_eq_true in H. lia.
    + intros Hn. rewrite isSeatAvailable_partly_booked by (simpl; lia).
      rewrite bool_decide_eq_true_2; [done|]. lia.
Qed.

Lemma omap_train_of_line_written ts :
  Forall Train_saved_ok ts →
  omap train_of_line (train_csv_row <$> ts) = reloaded_train <$> ts.
Proof.
  induction 1 as [|t ts Hok _ IH]; [done|]. cbn.
  rewrite (train_of_line_written _ Hok). cbn. by rewrite <- IH.
Qed.

Lemma train_line_messages_written ts :
  Forall Train_saved_ok ts →
  concat (train_line_messages <$> (train_csv_row <$> ts)) = [].
Proof.
  induction 1 as [|t ts Hok _ IH]; [done|]. cbn.
  pose proof (train_of_line_written _ Hok) as Hl. unfold train_of_line in Hl.
  unfold train_line_messages at 1.
  destruct (read_train_line (train_csv_row t)); [|done]. cbn. apply IH.
Qed.

Lemma load_saved_trains filename st st0 :
  Forall Train_saved_ok (trains st) →
  trains (snd (loadTrainsFromCSV filename
                 (Some (split_lines (saved_trains_text st))) st0)) =
  reloaded_train <$> trains st ∧
  output (snd (loadTrainsFromCSV filename
                 (Some (split_lines (saved_trains_text st))) st0)) =
  (output st0 ++ [LoadedTrains (length (trains st)) filename])%list.
Proof.
  intros Hall. unfold saved_trains_text.
  rewrite split_lines_csv_text; [|reflexivity|].
  2:{ apply Forall_fmap. eapply Forall_impl; [exact Hall|].
      intros t Ht. by apply train_csv_row_no_newline. }
  unfold loadTrainsFromCSV. cbn [snd tail].
  destruct (loadTrainsFromCSV_fold (train_csv_row <$> trains st) (with_trains st0 []))
    as (Ht & Ho & _). cbv zeta in *. cbn [trains output with_trains] in Ht, Ho.
  cbn. rewrite Ht, Ho, (omap_train_of_line_written _ Hall),
    (train_line_messages_written _ Hall). cbn. rewrite app_nil_r.
  by rewrite length_fmap.
Qed.

(** X20. Saving the trains and loading the file just written gives, for
    trains as the program builds them, a registry with the same ids, names,
    totals and counts of available seats in the same order, and prints no
    complaint; in each train the seats taken are now the lowest-numbered
    ones, whichever they were before. *)
Theorem saveTrainsToCSV_then_load filename st st0 :
  Forall Train_saved_ok (trains st) →
  saveTrainsToCSV filename Writable st =
    (Ok tt, Some (saved_trains_text st),
     [SavedTrains (length (trains st)) filename]) ∧
  let st1 := snd (loadTrainsFromCSV filename
                    (Some (split_lines (saved_trains_text st))) st0) in
  trains st1 = reloaded_train <$> trains st ∧
  output st1 = (output st0 ++ [LoadedTrains (length (trains st)) filename])%list ∧
  Forall (λ t,
    trainId (reloaded_train t) = trainId t ∧
    trainName (reloaded_train t) = trainName t ∧
    totalSeats (reloaded_train t) = totalSeats t ∧
    getAvailableSeatsCount (reloaded_train t) = getAvailableSeatsCount t ∧
    ∀ n, isSeatAvailable (reloaded_train t) n = Ok true ↔
         totalSeats t - getAvailableSeatsCount t < n ≤ totalSeats t)
    (trains st).
Proof.
  intros Hall. split; [done|]. cbv zeta.
  destruct (load_saved_trains filename st st0 Hall) as [Ht Ho].
  split; [done|]. split; [done|].
  eapply Forall_impl; [exact Hall|]. intros t Ht'. by apply reloaded_train_spec.
Qed.

(** ** Restarting from the saved files *)

Lemma findTrainRef_fmap (f : Train → Train) ts id :
  (∀ t, trainId (f t) = trainId t) →
  findTrainRef (f <$> ts) id =
  match findTrainRef ts id with
  | Ok (i, t) => Ok (i, f t)
  | Throw e => Throw e
  end.
Proof.
  intros Hf. induction ts as [|a ts IH]; [done|]. cbn. rewrite Hf.
  destruct (trainId a =? id); [done|]. rewrite IH.
  by destruct (findTrainRef ts id) as [[i t]|e].
Qed.

Lemma seat_free_reloaded ts id seat :
  Forall Train_saved_ok ts →
  seat_free (reloaded_train <$> ts) id seat →
  ∃ train, findTrain ts id = Ok train ∧
           totalSeats train - getAvailableSeatsCount train < seat ≤ totalSeats train.
Proof.
  intros Hall (t' & Ht & Hs). unfold findTrain in Ht.
  rewrite (findTrainRef_fmap reloaded_train) in Ht by done.
  destruct (findTrainRef ts id) as [[i train]|e] eqn:Hf; [|done].
  injection Ht as <-. exists train. split; [by eapply findTrain_of_ref|].
  apply findTrainRef_Ok in Hf as [Hi _].
  pose proof (proj1 (Forall_lookup _ _) Hall _ _ Hi) as Hok.
  by apply (reloaded_train_spec _ Hok).
Qed.

(** X21. Start-up marks the lowest-numbered seats of each train from the
    count in the trains file, and then loads only tickets whose seat is
    still available.  So after saving the trains of a state and loading
    that file, a tickets file, whatever it holds, yields only tickets that
    name a seat above the number of seats that were taken in their train
    when it was saved. *)
Theorem restart_keeps_only_tickets_above_taken_count st st0 tickets_lines bid t :
  Forall Train_saved_ok (trains st) →
  let st1 := snd (loadTrainsFromCSV "trains.csv"
                    (Some (split_lines (saved_trains_text st))) st0) in
  let l := loadTicketsFromCSV_loop tickets_lines st1 in
  bookings (sys l) !! bid = Some t →
  ∃ train,
    findTrain (trains st) (ticketTrainId t) = Ok train ∧
    totalSeats train - getAvailableSeatsCount train < seatNumber t ≤
      totalSeats train.
Proof.
  intros Hall st1 l Hb.
  destruct (load_saved_trains "trains.csv" st st0 Hall) as [Ht _].
  fold st1 in Ht.
  destruct (load_lines_free_before (tail tickets_lines)
              (mkTicketLoad (with_bookings st1 ∅) 0 0) (trains st1))
    with (b := bid) (t := t) as (_ & _ & Hfree).
  - done.
  - intros b t'. cbn. by rewrite lookup_empty.
  - exact Hb.
  - rewrite Ht in Hfree. by apply seat_free_reloaded.
Qed.

Lemma load_lines_all_skipped lines l :
  (∀ line row, line ∈ lines → parseTicketLine line = Ok row →
     ¬ seat_free (trains (sys l)) (row_ticketTrainId row) (row_seatNumber row)) →
  trains (sys (load_lines lines l)) = trains (sys l) ∧
  bookings (sys (load_lines lines l)) = bookings (sys l) ∧
  loadedTickets (load_lines lines l) = loadedTickets l.
Proof.
  revert l. induction lines as [|line lines IH]; intros l Hskip; [done|].
  change (load_lines (line :: lines) l)
    with (load_lines lines (loadTicketsFromCSV_line line l)).
  destruct (loadTicketsFromCSV_line_outcome line l)
    as [(Ht & Hb & Hl)|(row & ref & train & Hp & Hf & Hfree & _ & _)].
  - destruct (IH (loadTicketsFromCSV_line line l)) as (Ht' & Hb' & Hl').
    + intros line' row Hin. rewrite Ht. apply Hskip. by apply elem_of_cons; right.
    + by rewrite Ht', Hb', Hl', Ht, Hb, Hl.
  - destruct (Hskip line row (list_elem_of_here _ _) Hp).
    exists train. split; [by eapply findTrain_of_ref | done].
Qed.

Lemma ticket_csv_row_no_newline t :
  Ticket_saved_ok t → no_char newline (ticket_csv_row t) = true.
Proof.
  intros (_ & _ & _ & _ & Hb & Hp & Ht). unfold ticket_csv_row.
  rewrite !no_char_app, Hb, Hp, Ht.
  rewrite !(proj2 (pretty_Z_csv_field _)). reflexivity.
Qed.

(** X22. Booking, leaving and starting again loses the tickets.  Take a
    state whose tickets all sit on the lowest-numbered seats of their
    trains, as they do when seats were only booked, and save both files.
    On loading them the trains come back with those seats marked, every
    row of the tickets file then finds its seat already booked, and the
    ledger stays empty while the seats stay taken. *)
Theorem restart_loses_tickets_of_lowest_seats st st0 :
  Forall Train_saved_ok (trains st) →
  map_Forall (λ _ t, Ticket_saved_ok t) (bookings st) →
  (∀ bid t, bookings st !! bid = Some t →
     ∃ train, findTrain (trains st) (ticketTrainId t) = Ok train ∧
              seatNumber t ≤ totalSeats train - getAvailableSeatsCount train) →
  let st1 := snd (loadTrainsFromCSV "trains.csv"
                    (Some (split_lines (saved_trains_text st))) st0) in
  let l := loadTicketsFromCSV_loop (split_lines (saved_tickets_text st)) st1 in
  bookings (sys l) = ∅ ∧ loadedTickets l = 0 ∧
  trains (sys l) = reloaded_train <$> trains st ∧
  Forall (λ t, getAvailableSeatsCount (reloaded_train t) =
               getAvailableSeatsCount t) (trains st).
Proof.
  intros Hall Htickets Hlow. cbv zeta.
  destruct (load_saved_trains "trains.csv" st st0 Hall) as [Ht _].
  remember (snd (loadTrainsFromCSV "trains.csv"
                   (Some (split_lines (saved_trains_text st))) st0)) as st1 eqn:Hst1.
  clear Hst1.
  assert (Hlines : split_lines (saved_tickets_text st) =
            tickets_csv_header ::
            ((λ kv, ticket_csv_row (snd kv)) <$> map_to_list (bookings st))).
  { unfold saved_tickets_text. apply split_lines_csv_text; [reflexivity|].
    apply Forall_fmap, Forall_forall. intros [k t] Hin. cbn.
    apply ticket_csv_row_no_newline. apply elem_of_map_to_list in Hin.
    exact (Htickets _ _ Hin). }
  destruct (load_lines_all_skipped
              ((λ kv, ticket_csv_row (snd kv)) <$> map_to_list (bookings st))
              (mkTicketLoad (with_bookings st1 ∅) 0 0)) as (Htr & Hbk & Hld).
  { intros line row Hin Hp. apply list_elem_of_fmap in Hin as ([k t] & -> & Hin).
    apply elem_of_map_to_list in Hin. cbn in Hp.
    destruct (Htickets _ _ Hin) as (Hc1 & Hi1 & Hi2 & Hc2 & _ & _ & Hn).
    rewrite parseTicketLine_written in Hp by done. injection Hp as <-.
    cbn. rewrite Ht. intros Hfree.
    destruct (seat_free_reloaded _ _ _ Hall Hfree) as (train & Hf & Hgt).
    destruct (Hlow _ _ Hin) as (train' & Hf' & Hle).
    rewrite Hf in Hf'. injection Hf' as <-. lia. }
  unfold loadTicketsFromCSV_loop. rewrite Hlines. cbn [tail].
  rewrite Htr, Hbk, Hld. cbn. split; [done|]. split; [done|]. split; [done|].
  eapply Forall_impl; [exact Hall|]. intros t Hok.
  by apply (reloaded_train_spec _ Hok).
Qed.

(** ** getIntInput *)

Lemma stoi_of_stoi_ex token :
  stoi token = match stoi_ex token with
               | inr v => Some v
               | inl _ => None
               end.
Proof.
  unfold stoi, stoi_ex.
  destruct (match skip_spaces token with
            | String "-"%char rest => (true, rest)
            | String "+"%char rest => (false, rest)
            | _ => (false, skip_spaces token)
            end) as [negative digits].
  destruct (read_digits digits 0 false) as [v|]; [|done].
  by destruct ((INT_MIN <=? _) && (_ <=? INT_MAX)).
Qed.

Lemma all_digits_pretty_N_go x s :
  all_digits s = true → all_digits (pretty_N_go x s) = true.
Proof.
  revert s. induction (N.lt_wf_0 x) as [x _ IH]; intros s Hs.
  destruct (decide (x = 0)%N) as [->|Hx]; [by rewrite pretty_N_go_0|].
  rewrite pretty_N_go_step by lia. apply IH; [apply N.div_lt; lia|].
  cbn [all_digits]. rewrite Hs, andb_true_r.
  apply pretty_N_char_digit, N.mod_lt. lia.
Qed.

Lemma all_digits_pretty (z : Z) : 0 ≤ z → all_digits (pretty z) = true.
Proof.
  intros Hz. destruct z as [|p|p]; [done| |lia].
  change (pretty (Z.pos p)) with (pretty (N.pos p)).
  unfold pretty, pretty_N. rewrite decide_False by done.
  by apply all_digits_pretty_N_go.
Qed.

Lemma getIntInput_cases input :
  (fst (getIntInput input) = -1 ∧ snd (getIntInput input) ≠ []) ∨
  (0 ≤ fst (getIntInput input) ≤ 10000 ∧ snd (getIntInput input) = [] ∧
   input ≠ "" ∧ all_digits input = true ∧
   stoi input = Some (fst (getIntInput input))).
Proof.
  unfold getIntInput. destruct (String.eqb_spec input ""); [by left|].
  destruct (all_digits input) eqn:Hd; [|by left]. cbn [negb].
  rewrite stoi_of_stoi_ex.
  destruct (stoi_ex input) as [[]|v]; [by left|by left|].
  destruct ((v <? 0) || (v >? 10000)) eqn:Hr; [by left|].
  right. apply orb_false_iff in Hr as [H1 H2].
  apply Z.ltb_ge in H1. rewrite Z.gtb_ltb in H2. apply Z.ltb_ge in H2. done.
Qed.

(** X23. [getIntInput] returns -1, with a complaint printed, or a number
    from 0 to 10000 with nothing printed; it returns a number exactly for
    a non-empty line of decimal digits only whose value is at most 10000.
    In particular the decimal writing of every number from 0 to 10000 is
    read as that number, and no sign or blank is accepted. *)
Theorem getIntInput_accepts input :
  ((fst (getIntInput input) = -1 ∧ snd (getIntInput input) ≠ []) ∨
   (0 ≤ fst (getIntInput input) ≤ 10000 ∧ snd (getIntInput input) = [])) ∧
  (∀ v, getIntInput input = (v, []) ↔
        input ≠ "" ∧ all_digits input = true ∧ stoi input = Some v ∧ v ≤ 10000) ∧
  (∀ n, 0 ≤ n ≤ 10000 → getIntInput (pretty n) = (n, [])).
Proof.
  assert (Hiff : ∀ inp v, inp ≠ "" → all_digits inp = true →
            stoi inp = Some v → 0 ≤ v ≤ 10000 → getIntInput inp = (v, [])).
  { intros inp v Hne Hd Hs Hv. unfold getIntInput.
    destruct (String.eqb_spec inp ""); [done|]. rewrite Hd. cbn [negb].
    rewrite stoi_of_stoi_ex in Hs.
    destruct (stoi_ex inp) as [e|w]; [done|]. injection Hs as ->.
    destruct (Z.ltb_spec v 0); [lia|]. rewrite Z.gtb_ltb.
    destruct (Z.ltb_spec 10000 v); [lia|]. done. }
  split_and!.
  - destruct (getIntInput_cases input) as [?|(? & ? & _)]; [by left | by right].
  - intros v. split.
    + intros Hg. destruct (getIntInput_cases input) as [[_ Hp]|(Hv & _ & Hne & Hd & Hs)].
      * by rewrite Hg in Hp.
      * rewrite Hg in Hv, Hs. cbn in Hv, Hs. split_and!; try done. lia.
    + intros (Hne & Hd & Hs & Hv). apply Hiff; try done. split; [|done].
      destruct input as [|c r]; [done|]. cbn [all_digits] in Hd.
      apply andb_true_iff in Hd as [Hc _].
      rewrite (stoi_unsigned _ _ Hc) in Hs.
      assert (Hnn : ∀ s acc seen w, 0 ≤ acc → read_digits s acc seen = Some w → 0 ≤ w).
      { induction s as [|c' s IH]; intros acc seen w Hacc; cbn [read_digits].
        - destruct seen; [by intros [= <-] | done].
        - destruct (isdigit c') eqn:Hc'.
          + apply IH. unfold digit_value.
            unfold isdigit in Hc'. apply andb_true_iff in Hc' as [Hlo _].
            apply Nat.leb_le in Hlo. lia.
          + destruct seen; [by intros [= <-] | done]. }
      destruct (read_digits (String c r) 0 false) as [w|] eqn:Hr; [|done].
      apply Hnn in Hr; [|done].
      destruct ((INT_MIN <=? w) && (w <=? INT_MAX)); [|done]. by injection Hs as ->.
  - intros n Hn. apply Hiff.
    + apply pretty_Z_nonempty.
    + apply all_digits_pretty. lia.
    + apply stoi_pretty_helper. unfold in_int, INT_MIN, INT_MAX. lia.
    + done.
Qed.

(** ** main and its menu loop *)




Lemma main_startup_Ok trains_csv tickets_csv g clk :
  fst (main_startup trains_csv tickets_csv g clk) = Ok tt.
Proof.
  unfold main_startup, main_loadTrains, main_loadTickets,
    loadTrainsFromCSV, loadTicketsFromCSV.
  destruct trains_csv, tickets_csv; reflexivity.
Qed.






Lemma menu_iteration_end_of_input fuel trains_out tickets_out ms :
  stdin ms = [] →
  ∃ ms', menu_iteration fuel trains_out tickets_out ms = Some (Continue ms') ∧
         stdin ms' = [] ∧ system ms' = system ms.
Proof.
  intros Hin. unfold menu_iteration, ask_int, read_line. cbn. rewrite Hin.
  cbn. eexists. split; [done|]. cbn. done.
Qed.

(** X26. At the end of the input [main] does not return: with no line
    left to read the choice is -1 on every turn of the loop, the system is
    never changed again and choice 0, the only way out, never comes.  In
    particular [main] on an empty input returns within no number of
    turns. *)
Theorem main_spins_at_end_of_input n fuel trains_out tickets_out :
  (∀ ms, stdin ms = [] → menu_loop n fuel trains_out tickets_out ms = None) ∧
  ∀ trains_csv tickets_csv g clk,
    main n fuel trains_csv tickets_csv trains_out tickets_out g clk [] = None.
Proof.
  assert (Hloop : ∀ ms, stdin ms = [] →
            menu_loop n fuel trains_out tickets_out ms = None).
  { induction n as [|n IH]; intros ms Hin; [done|]. cbn [menu_loop].
    destruct (menu_iteration_end_of_input fuel trains_out tickets_out ms Hin)
      as (ms' & -> & Hin' & _). by apply IH. }
  split; [done|]. intros trains_csv tickets_csv g clk. unfold main, main_begin.
  pose proof (main_startup_Ok (split_lines <$> trains_csv)
                (split_lines <$> tickets_csv) g clk) as Hok.
  destruct (main_startup _ _ g clk) as [r st]. cbn in Hok. subst r.
  rewrite Hloop; done.
Qed.

(** ** The further properties at work on concrete values *)

Lemma demo_started_reachable : reachable demo_started.
Proof. apply (reach_startup None None demo_gen demo_clock). reflexivity. Defined.

Lemma demo_booking :
  bookTicket 1 1001 "Asha" demo_started = Some (Ok "BKABCDEFGH", demo_booked).
Proof. vm_compute. reflexivity. Defined.

Lemma demo_booked_trains :
  trains demo_booked =
  [mkTrain 1001 "Express Delhi" 100 (false :: replicate 99 true);
   mkTrain 1002 "Mumbai Local" 100 (replicate 100 true);
   mkTrain 1003 "Chennai Mail" 100 (replicate 100 true);
   mkTrain 1004 "Kolkata Express" 100 (replicate 100 true)].
Proof. vm_compute. reflexivity. Defined.

Lemma demo_booked_bookings :
  bookings demo_booked = <["BKABCDEFGH" := demo_ticket]> ∅.
Proof. vm_compute. reflexivity. Defined.

Lemma demo_booked_saved_ok : Forall Train_saved_ok (trains demo_booked).
Proof.
  rewrite demo_booked_trains.
  repeat (apply List.Forall_cons; [|]); [| | | |apply List.Forall_nil];
    (unfold Train_saved_ok, Train_valid, Train_wf, csv_field, in_int,
       INT_MIN, INT_MAX; simpl; split_and!; try lia; try discriminate;
     reflexivity).
Defined.

Lemma bookNextAvailableSeat_count_witness :
  Train_wf demo_train ∧
  0 ≤ getAvailableSeatsCount demo_train ≤ totalSeats demo_train ∧
  match bookNextAvailableSeat demo_train with
  | Ok (n, t') =>
      0 < getAvailableSeatsCount demo_train ∧
      getAvailableSeatsCount t' = getAvailableSeatsCount demo_train - 1 ∧
      Train_wf t'
  | Throw e => getAvailableSeatsCount demo_train = 0
  end.
Proof.
  split; [reflexivity|]. apply (bookNextAvailableSeat_count demo_train). reflexivity.
Defined.

Lemma bookSpecificSeat_then_cancelSeat_witness :
  let t' := mkTrain 7 "Night Mail" 3 [true; false; false] in
  bookSpecificSeat demo_train 3 = Ok (true, t') ∧
  getAvailableSeatsCount t' = getAvailableSeatsCount demo_train - 1 ∧
  bookSpecificSeat t' 3 = Ok (false, t') ∧
  cancelSeat t' 3 = Ok (true, demo_train).
Proof.
  split; [reflexivity|].
  apply (bookSpecificSeat_then_cancelSeat demo_train 3). reflexivity.
Defined.

Lemma cancelSeat_then_bookSpecificSeat_witness :
  let t' := mkTrain 7 "Night Mail" 3 [true; true; true] in
  cancelSeat demo_train 2 = Ok (true, t') ∧
  getAvailableSeatsCount t' = getAvailableSeatsCount demo_train + 1 ∧
  cancelSeat t' 2 = Ok (false, t') ∧
  bookSpecificSeat t' 2 = Ok (true, demo_train).
Proof.
  split; [reflexivity|].
  apply (cancelSeat_then_bookSpecificSeat demo_train 2); reflexivity.
Defined.

Lemma book_seats_in_order_witness :
  let t := mkTrain 7 "Night Mail" 3 [true; true; true] in
  Train_new 7 "Night Mail" 3 = Ok t ∧
  (∃ t', book_seats 2 t = Ok ((λ i, Z.of_nat i) <$> seq 1 2, t') ∧
         getAvailableSeatsCount t' = 3 - Z.of_nat 2) ∧
  book_seats (S (Z.to_nat 3)) t = Throw (NoSeatsAvailableException 7).
Proof.
  split; [reflexivity|].
  apply (book_seats_in_order 7 "Night Mail" 3); [reflexivity | simpl; lia].
Defined.

Lemma generateBookingId_format_witness :
  generateBookingId 1 ∅ demo_gen = Some ("BKABCDEFGH", demo_gen_next) ∧
  (∅ : gmap string Ticket) !! "BKABCDEFGH" = None ∧
  (∃ suffix, "BKABCDEFGH" = "BK" +:+ suffix ∧ String.length suffix = 8%nat ∧
             string_over chars suffix = true) ∧
  String.length "BKABCDEFGH" = 10%nat ∧
  ∃ k, (k < 1)%nat ∧ "BKABCDEFGH" = candidate k demo_gen ∧
       demo_gen_next = gen_after (S k) demo_gen ∧
       ∀ j, (j < k)%nat → is_Some ((∅ : gmap string Ticket) !! candidate j demo_gen).
Proof.
  split; [reflexivity|].
  apply (generateBookingId_format 1 ∅ demo_gen). reflexivity.
Defined.

Lemma bookTicket_records_ticket_witness :
  bookTicket 1 1001 "Asha" demo_started = Some (Ok "BKABCDEFGH", demo_booked) ∧
  ∃ train seat,
    let ticket := mkTicket "BKABCDEFGH" 1001 seat "Asha"
                    (format_time (clock demo_started 0%nat)) in
    findTrain (trains demo_started) 1001 = Ok train ∧
    isSeatAvailable train seat = Ok true ∧
    (∀ m, 1 ≤ m < seat → isSeatAvailable train m = Ok false) ∧
    findTicket (bookings demo_booked) "BKABCDEFGH" = Ok ticket ∧
    fst (checkTicketStatus "BKABCDEFGH" demo_booked) = true ∧
    seat_taken (trains demo_booked) 1001 seat ∧
    String.length "BKABCDEFGH" = 10%nat ∧
    output demo_booked = (output demo_started ++ [TicketBooked ticket])%list ∧
    ∀ b, b ≠ "BKABCDEFGH" → bookings demo_booked !! b = bookings demo_started !! b.
Proof.
  split; [exact demo_booking|].
  apply (bookTicket_records_ticket 1 1001 "Asha" demo_started);
    [exact demo_booking | discriminate].
Defined.

Lemma bookTicket_failure_causes_witness :
  let st1 := say (ErrorMsg (TrainNotFoundException 9999)) demo_started in
  bookTicket 1 9999 "Asha" demo_started = Some (Ok "", st1) ∧
  (("Asha" = "" ∧ st1 = say ErrPassengerNameEmpty demo_started) ∨
   ("Asha" ≠ "" ∧
    findTrain (trains demo_started) 9999 = Throw (TrainNotFoundException 9999) ∧
    st1 = say (ErrorMsg (TrainNotFoundException 9999)) demo_started) ∨
   ("Asha" ≠ "" ∧ ∃ train,
      findTrain (trains demo_started) 9999 = Ok train ∧
      getAvailableSeatsCount train = 0 ∧
      st1 = say (ErrorMsg (NoSeatsAvailableException 9999)) demo_started)).
Proof.
  split; [vm_compute; reflexivity|].
  apply (bookTicket_failure_causes 1 9999 "Asha" demo_started).
  - exact demo_started_reachable.
  - vm_compute. reflexivity.
Defined.

Lemma cancelTicket_succeeds_iff_present_witness :
  reachable demo_booked ∧
  match bookings demo_booked !! "BKABCDEFGH" with
  | Some ticket =>
      ∃ ref train,
        findTrainRef (trains demo_booked) (ticketTrainId ticket) = Ok (ref, train) ∧
        isSeatAvailable train (seatNumber ticket) = Ok false ∧
        let train' := with_seat train (seatNumber ticket) true in
        cancelTicket "BKABCDEFGH" demo_booked =
          (true, with_bookings
                   (say (TicketCancelled "BKABCDEFGH")
                      (store_train demo_booked ref train'))
                   (delete "BKABCDEFGH" (bookings demo_booked))) ∧
        isSeatAvailable train' (seatNumber ticket) = Ok true ∧
        getAvailableSeatsCount train' = getAvailableSeatsCount train + 1
  | None =>
      cancelTicket "BKABCDEFGH" demo_booked =
        (false, say (ErrorMsg (TicketNotFoundException "BKABCDEFGH")) demo_booked)
  end.
Proof.
  split; [exact demo_booked_reachable|].
  apply (cancelTicket_succeeds_iff_present "BKABCDEFGH" demo_booked).
  exact demo_booked_reachable.
Defined.

Lemma cancelled_seat_is_reused_witness :
  bookings demo_booked !! "BKABCDEFGH" = Some demo_ticket ∧
  bookTicket 1 1001 "Bo" (snd (cancelTicket "BKABCDEFGH" demo_booked)) =
    Some (Ok "BKIJKLMNOP", demo_rebooked) ∧
  ∃ bid' new,
    (Ok "BKIJKLMNOP" : Result string) = Ok bid' ∧ bid' ≠ "" ∧
    bookings demo_rebooked !! bid' = Some new ∧
    ticketTrainId new = ticketTrainId demo_ticket ∧
    passengerName new = "Bo" ∧
    1 ≤ seatNumber new ≤ seatNumber demo_ticket.
Proof.
  split; [vm_compute; reflexivity|]. split; [vm_compute; reflexivity|].
  apply (cancelled_seat_is_reused 1 "BKABCDEFGH" "Bo" demo_booked demo_ticket).
  - exact demo_booked_reachable.
  - vm_compute. reflexivity.
  - discriminate.
  - vm_compute. reflexivity.
Defined.


Lemma loadTicketsFromCSV_counters_witness :
  let lines := [demo_tickets_header;
                "BK00000001,1001,1,Alice,01/01/2020 10:00:00";
                "BK00000002,1001,1,Bob,02/02/2020 10:00:00";
                "BK00000003,4004,1,Carl,03/03/2020 10:00:00"] in
  let l := loadTicketsFromCSV_loop lines demo_system in
  loadedTickets l = 1 ∧ errorCount l = 2 ∧
  0 ≤ loadedTickets l ∧ 0 ≤ errorCount l ∧
  loadedTickets l + errorCount l = Z.of_nat (length (tail lines)) ∧
  Z.of_nat (size (bookings (sys l))) ≤ loadedTickets l.
Proof.
  split; [vm_compute; reflexivity|]. split; [vm_compute; reflexivity|].
  apply (loadTicketsFromCSV_counters
           [demo_tickets_header;
            "BK00000001,1001,1,Alice,01/01/2020 10:00:00";
            "BK00000002,1001,1,Bob,02/02/2020 10:00:00";
            "BK00000003,4004,1,Carl,03/03/2020 10:00:00"] demo_system).
  unfold INT_MAX. simpl. lia.
Defined.

Lemma loadTicketsFromCSV_tickets_had_free_seats_witness :
  let t := mkTicket "BK00000001" 1001 1 "Alice" "10/30/2026 12:00:00" in
  bookings (sys demo_one_loaded) !! "BK00000001" = Some t ∧
  bookingId t = "BK00000001" ∧ "BK00000001" ≠ "" ∧ 0 < ticketTrainId t ∧
  passengerName t ≠ "" ∧
  seat_free (trains demo_system) (ticketTrainId t) (seatNumber t) ∧
  seat_taken (trains (sys demo_one_loaded)) (ticketTrainId t) (seatNumber t).
Proof.
  split; [vm_compute; reflexivity|].
  apply (loadTicketsFromCSV_tickets_had_free_seats
           [demo_tickets_header; "BK00000001,1001,1,Alice,01/01/2020 10:00:00"]
           demo_system "BK00000001").
  vm_compute. reflexivity.
Defined.

Lemma stoi_pretty_witness : in_int (-2026) ∧ stoi (pretty (-2026)) = Some (-2026).
Proof.
  assert (H : in_int (-2026)) by (unfold in_int, INT_MIN, INT_MAX; simpl; lia).
  split; [exact H|]. apply (stoi_pretty (-2026)). exact H.
Defined.

Lemma parseTrainLine_train_csv_row_witness :
  train_csv_row demo_train = "7,Night Mail,3,2" ∧
  parseTrainLine (train_csv_row demo_train) = Ok (mkTrainRow 7 "Night Mail" 3 2).
Proof.
  split; [vm_compute; reflexivity|].
  apply (parseTrainLine_train_csv_row demo_train);
    first [ reflexivity
          | unfold in_int, INT_MIN, INT_MAX; vm_compute; split; discriminate ].
Defined.

Lemma parseTicketLine_ticket_csv_row_witness :
  ticket_csv_row demo_ticket = "BKABCDEFGH,1001,1,Asha,10/30/2026 12:00:00" ∧
  parseTicketLine (ticket_csv_row demo_ticket) =
    Ok (mkTicketRow "BKABCDEFGH" 1001 1 "Asha" "10/30/2026 12:00:00").
Proof.
  split; [vm_compute; reflexivity|].
  apply (parseTicketLine_ticket_csv_row demo_ticket);
    first [ reflexivity
          | unfold in_int, INT_MIN, INT_MAX; vm_compute; split; discriminate ].
Defined.

Lemma saveTrainsToCSV_then_load_witness :
  Forall Train_saved_ok (trains demo_booked) ∧
  saveTrainsToCSV "trains.csv" Writable demo_booked =
    (Ok tt, Some (saved_trains_text demo_booked),
     [SavedTrains (length (trains demo_booked)) "trains.csv"]) ∧
  let st1 := snd (loadTrainsFromCSV "trains.csv"
                    (Some (split_lines (saved_trains_text demo_booked)))
                    demo_system) in
  trains st1 = reloaded_train <$> trains demo_booked ∧
  output st1 =
    (output demo_system ++
     [LoadedTrains (length (trains demo_booked)) "trains.csv"])%list ∧
  Forall (λ t,
    trainId (reloaded_train t) = trainId t ∧
    trainName (reloaded_train t) = trainName t ∧
    totalSeats (reloaded_train t) = totalSeats t ∧
    getAvailableSeatsCount (reloaded_train t) = getAvailableSeatsCount t ∧
    ∀ n, isSeatAvailable (reloaded_train t) n = Ok true ↔
         totalSeats t - getAvailableSeatsCount t < n ≤ totalSeats t)
    (trains demo_booked).
Proof.
  split; [exact demo_booked_saved_ok|].
  apply (saveTrainsToCSV_then_load "trains.csv" demo_booked demo_system).
  exact demo_booked_saved_ok.
Defined.

Lemma restart_keeps_only_tickets_above_taken_count_witness :
  let st1 := snd (loadTrainsFromCSV "trains.csv"
                    (Some (split_lines (saved_trains_text demo_booked)))
                    demo_system) in
  let l := loadTicketsFromCSV_loop
             [demo_tickets_header;
              "BKABCDEFGH,1001,1,Asha,10/30/2026 12:00:00";
              "BK00000002,1001,2,Bob,02/02/2020 10:00:00"] st1 in
  let t := mkTicket "BK00000002" 1001 2 "Bob" "10/30/2026 12:00:00" in
  bookings (sys l) !! "BK00000002" = Some t ∧
  bookings (sys l) !! "BKABCDEFGH" = None ∧
  ∃ train,
    findTrain (trains demo_booked) (ticketTrainId t) = Ok train ∧
    totalSeats train - getAvailableSeatsCount train < seatNumber t ≤
      totalSeats train.
Proof.
  split; [vm_compute; reflexivity|]. split; [vm_compute; reflexivity|].
  apply (restart_keeps_only_tickets_above_taken_count demo_booked demo_system
           [demo_tickets_header;
            "BKABCDEFGH,1001,1,Asha,10/30/2026 12:00:00";
            "BK00000002,1001,2,Bob,02/02/2020 10:00:00"] "BK00000002").
  - exact demo_booked_saved_ok.
  - vm_compute. reflexivity.
Defined.

Lemma demo_ticket_saved_ok : Ticket_saved_ok demo_ticket.
Proof.
  unfold Ticket_saved_ok, in_int, INT_MIN, INT_MAX. simpl.
  split_and!; try lia; reflexivity.
Defined.

Lemma restart_loses_tickets_of_lowest_seats_witness :
  size (bookings demo_booked) = 1%nat ∧
  let st1 := snd (loadTrainsFromCSV "trains.csv"
                    (Some (split_lines (saved_trains_text demo_booked)))
                    demo_system) in
  let l := loadTicketsFromCSV_loop
             (split_lines (saved_tickets_text demo_booked)) st1 in
  bookings (sys l) = ∅ ∧ loadedTickets l = 0 ∧
  trains (sys l) = reloaded_train <$> trains demo_booked ∧
  Forall (λ t, getAvailableSeatsCount (reloaded_train t) =
               getAvailableSeatsCount t) (trains demo_booked).
Proof.
  split; [vm_compute; reflexivity|].
  apply (restart_loses_tickets_of_lowest_seats demo_booked demo_system).
  - exact demo_booked_saved_ok.
  - rewrite demo_booked_bookings. intros k t Hk.
    apply lookup_insert_Some in Hk as [[_ <-]|[_ Hk]]; [|by rewrite lookup_empty in Hk].
    exact demo_ticket_saved_ok.
  - rewrite demo_booked_bookings. intros k t Hk.
    apply lookup_insert_Some in Hk as [[_ <-]|[_ Hk]]; [|by rewrite lookup_empty in Hk].
    eexists. split; [vm_compute; reflexivity|]. vm_compute. discriminate.
Defined.


